(** * BleachBit, [bleachbit/Unix.py]: the locale purge planner and the
    package-manager cleanup drivers

    A shallow embedding of [locale_to_language], [Locales.handle_path],
    [Locales.localization_paths], [apt_autoclean] and [yum_clean], with the
    Python string primitives and the fragment of the [re] module they use.
    A second part adds [apt_autoremove], [wine_to_linux_path], [is_running]
    and [is_broken_xdg_desktop].

    - A Python [str] is a [string]; the module is Python 2, so a character
      is a byte.
    - A function that may raise returns a [result]; a generator is the list
      of what it yields with the exception that ends it, if any.
    - Rule evaluation reads the file system through [os.path.isdir] and
      [glob.iglob], taken as a snapshot.
    - The drivers run in a small monad over the record of the calls made
      to the host; the child process is a [pipe], the sequence of what
      [readline] and [poll] answer.  A pipe is finite: the child exits. *)

From Stdlib Require Import String Ascii List ZArith Lia Bool Arith.
Import ListNotations.
Open Scope string_scope.
Set Warnings "-register-all".

(* ================================================================== *)
(** ** Python [str] primitives used by the module *)
(* ================================================================== *)

Module Py.

(** The newline character, code 10. *)
Definition nl : ascii := "010"%char.

Definition code (c : ascii) : nat := nat_of_ascii c.

Definition in_range (lo hi c : ascii) : bool :=
  (code lo <=? code c)%nat && (code c <=? code hi)%nat.

Definition is_lower (c : ascii) : bool := in_range "a" "z" c.
Definition is_upper (c : ascii) : bool := in_range "A" "Z" c.
Definition is_digit (c : ascii) : bool := in_range "0" "9" c.
Definition is_alpha (c : ascii) : bool := is_lower c || is_upper c.

(** [len(s)] *)
Definition len (s : string) : nat := String.length s.

(** [s.startswith(p)] *)
Definition startswith (s p : string) : bool := prefix p s.

(** [s.endswith(p)] *)
Definition endswith (s p : string) : bool :=
  (len p <=? len s)%nat && (substring (len s - len p) (len p) s =? p).

(** [-1 != s.find(sub)]: [sub] occurs somewhere in [s]. *)
Fixpoint contains (s sub : string) : bool :=
  prefix sub s ||
  match s with
  | EmptyString => false
  | String _ s' => contains s' sub
  end.

(** [s.replace(c, empty)] for a one-character [c]. *)
Fixpoint remove_char (c : ascii) (s : string) : string :=
  match s with
  | EmptyString => EmptyString
  | String a s' =>
      if Ascii.eqb a c then remove_char c s' else String a (remove_char c s')
  end.

(** [s.count(c)] for a one-character [c]. *)
Fixpoint count (c : ascii) (s : string) : nat :=
  match s with
  | EmptyString => 0
  | String a s' => (if Ascii.eqb a c then 1 else 0) + count c s'
  end.

(** [s.split(c)] for a one-character separator [c]. *)
Fixpoint split (c : ascii) (s : string) : list string :=
  match s with
  | EmptyString => [EmptyString]
  | String a s' =>
      if Ascii.eqb a c then EmptyString :: split c s'
      else match split c s' with
           | [] => [String a EmptyString]
           | p :: ps => String a p :: ps
           end
  end.

Definition upper_char (c : ascii) : ascii :=
  if is_lower c then ascii_of_nat (code c - 32) else c.

(** [s.upper()] on ASCII text. *)
Fixpoint upper (s : string) : string :=
  match s with
  | EmptyString => EmptyString
  | String a s' => String (upper_char a) (upper s')
  end.

Fixpoint drop (n : nat) (s : string) : string :=
  match n, s with
  | O, _ => s
  | S n', String _ s' => drop n' s'
  | S _, EmptyString => EmptyString
  end.

Fixpoint take (n : nat) (s : string) : string :=
  match n, s with
  | S n', String a s' => String a (take n' s')
  | _, _ => EmptyString
  end.

(** [s[start:stop]] where [start] is a non-negative index and [stop] is
    either [None] or the negative index [-k] ([k > 0]), the two forms
    [handle_path] builds.  A negative stop counts from the end and is
    clamped at 0. *)
Definition slice (s : string) (start : nat) (stop : option nat) : string :=
  match stop with
  | None => drop start s
  | Some k => drop start (take (len s - k) s)
  end.

(** [posixpath.split(p)[1]]: what follows the last slash. *)
Fixpoint basename_from (cur s : string) : string :=
  match s with
  | EmptyString => cur
  | String a s' =>
      if Ascii.eqb a "/" then basename_from s' s' else basename_from cur s'
  end.

Definition basename (p : string) : string := basename_from p p.

(** [fmt % (arg,)] for a format with one %s directive. *)
Fixpoint percent_s (fmt arg : string) : string :=
  match fmt with
  | String "%" (String "s" rest) => arg ++ rest
  | String a rest => String a (percent_s rest arg)
  | EmptyString => EmptyString
  end.

(** [x in xs] for a sequence of strings. *)
Fixpoint mem (x : string) (xs : list string) : bool :=
  match xs with
  | [] => false
  | y :: ys => (x =? y) || mem x ys
  end.

End Py.

(* ================================================================== *)
(** ** The fragment of Python's [re] the module uses

  A backtracking matcher in continuation-passing style: alternatives
  are tried in the order of Python's engine (greedy repetition first),
  and the first complete match wins. *)
(* ================================================================== *)

Module Re.

Inductive regex : Type :=
| Eps
| Cls (p : ascii -> bool)          (* one character of a class *)
| Cat (r1 r2 : regex)
| Opt (r : regex)                  (* r?  *)
| Star (r : regex)                 (* r*  *)
| Group (i : nat) (r : regex)      (* the i-th parenthesis *)
| Bol                              (* ^   *)
| Eol.                             (* $   *)

Definition Chr (c : ascii) : regex := Cls (Ascii.eqb c).

(** A literal string. *)
Fixpoint Lit (s : string) : regex :=
  match s with
  | EmptyString => Eps
  | String a s' => Cat (Chr a) (Lit s')
  end.

(** [.]: any character but a newline. *)
Definition Dot : regex := Cls (fun c => negb (Ascii.eqb c Py.nl)).

(** [r+] *)
Definition Plus (r : regex) : regex := Cat r (Star r).

(** [r{0,n}], greedy. *)
Fixpoint UpTo (n : nat) (r : regex) : regex :=
  match n with
  | O => Eps
  | S n' => Opt (Cat r (UpTo n' r))
  end.

(** [r{m,n}], greedy. *)
Fixpoint Rep (m n : nat) (r : regex) : regex :=
  match m with
  | O => UpTo n r
  | S m' => Cat r (Rep m' (n - 1) r)
  end.

(** Captured groups: group number to captured text. *)
Definition caps : Type := list (nat * string).

Fixpoint group (c : caps) (i : nat) : option string :=
  match c with
  | [] => None
  | (j, s) :: c' => if Nat.eqb i j then Some s else group c' i
  end.

(** [rmatch r pos s c k]: match [r] against [s], the part of the subject
    that starts at offset [pos]; on success hand the new offset, the rest
    and the captures to [k]; [None] makes the matcher backtrack. *)
Fixpoint rmatch {A : Type} (r : regex) (pos : nat) (s : string) (c : caps)
         (k : nat -> string -> caps -> option A) {struct r} : option A :=
  match r with
  | Eps => k pos s c
  | Cls p =>
      match s with
      | String a s' => if p a then k (S pos) s' c else None
      | EmptyString => None
      end
  | Cat r1 r2 =>
      rmatch r1 pos s c (fun pos1 s1 c1 => rmatch r2 pos1 s1 c1 k)
  | Opt r1 =>
      match rmatch r1 pos s c k with
      | Some x => Some x
      | None => k pos s c
      end
  | Star r1 =>
      (fix star (fuel : nat) (pos : nat) (s : string) (c : caps)
         {struct fuel} : option A :=
         match fuel with
         | O => k pos s c
         | S fuel' =>
             match rmatch r1 pos s c
                     (fun pos1 s1 c1 =>
                        if (pos <? pos1)%nat then star fuel' pos1 s1 c1
                        else None) with
             | Some x => Some x
             | None => k pos s c
             end
         end) (Py.len s) pos s c
  | Group i r1 =>
      rmatch r1 pos s c
        (fun pos1 s1 c1 => k pos1 s1 ((i, Py.take (pos1 - pos) s) :: c1))
  | Bol => if Nat.eqb pos 0 then k pos s c else None
  | Eol =>
      if (s =? "") || (s =? String Py.nl "") then k pos s c else None
  end.

(** A match of [r] that starts exactly at offset [pos] of [subject]: the
    offset where it ends and its captures. *)
Definition match_at (r : regex) (subject : string) (pos : nat)
  : option (nat * caps) :=
  rmatch r pos (Py.drop pos subject) [] (fun e _ c => Some (e, c)).

(** [re.search(r, subject)]: the leftmost match. *)
Fixpoint search_from (r : regex) (subject : string) (pos fuel : nat)
  : option (nat * caps) :=
  match match_at r subject pos with
  | Some m => Some m
  | None =>
      match fuel with
      | O => None
      | S fuel' => search_from r subject (S pos) fuel'
      end
  end.

Definition search (r : regex) (subject : string) : option caps :=
  option_map snd (search_from r subject 0 (Py.len subject)).

(** [re.findall(r, subject)]: the captures of the successive
    non-overlapping matches, scanning left to right; after an empty
    match the scan moves on by one character. *)
Fixpoint findall_from (r : regex) (subject : string) (pos fuel : nat)
  : list caps :=
  match fuel with
  | O => []
  | S fuel' =>
      if (Py.len subject <? pos)%nat then []
      else
        match match_at r subject pos with
        | Some (e, c) =>
            c :: findall_from r subject (if (pos <? e)%nat then e else S pos) fuel'
        | None => findall_from r subject (S pos) fuel'
        end
  end.

Definition findall (r : regex) (subject : string) : list caps :=
  findall_from r subject 0 (S (Py.len subject)).

(** [match.groups(0)[i-1]] and the i-th member of a [findall] tuple for a
    group that took part in the match. *)
Definition group_text (c : caps) (i : nat) : string :=
  match group c i with
  | Some s => s
  | None => ""
  end.

End Re.

(* ================================================================== *)
(** ** Exceptions and results *)
(* ================================================================== *)

(** The text an exception carries: a plain string, or [_(msgid) % arg],
    a message of the gettext catalogue with its argument. *)
Inductive text : Type :=
| Str (s : string)
| Tr (msgid : string) (arg : string).

Inductive exn : Type :=
| RuntimeError (msg : text)
| ValueError (msg : text).

Inductive result (A : Type) : Type :=
| Ok (a : A)
| Raise (e : exn).
Arguments Ok {A} a.
Arguments Raise {A} e.

(* ================================================================== *)
(** ** [locale_to_language] *)
(* ================================================================== *)

Definition alnum_dash (c : ascii) : bool :=
  Py.is_alpha c || Py.is_digit c || Ascii.eqb c "-".

Definition underscore_dash (c : ascii) : bool :=
  Ascii.eqb c "_" || Ascii.eqb c "-".

(** The pattern of the source, one group after the other:
    start, ([a-z]{2,3}), ([_-][a-zA-Z]{2,4})?, (\.[a-zA-Z0-9-]* )?,
    (@[a-zA-Z]* )?, end. *)
Definition locale_pattern : Re.regex :=
  Re.Cat Re.Bol
 (Re.Cat (Re.Group 1 (Re.Rep 2 3 (Re.Cls Py.is_lower)))
 (Re.Cat (Re.Opt (Re.Group 2 (Re.Cat (Re.Cls underscore_dash)
                                     (Re.Rep 2 4 (Re.Cls Py.is_alpha)))))
 (Re.Cat (Re.Opt (Re.Group 3 (Re.Cat (Re.Chr ".")
                                     (Re.Star (Re.Cls alnum_dash)))))
 (Re.Cat (Re.Opt (Re.Group 4 (Re.Cat (Re.Chr "@")
                                     (Re.Star (Re.Cls Py.is_alpha)))))
         Re.Eol)))).

(** Convert the locale code to a language code (generally ISO 639). *)
Definition locale_to_language (locale : string) : result string :=
  if "klingon" =? locale then Ok locale
  else
    let pattern := locale_pattern in
    let matches := Re.findall pattern locale in
    match matches with
    | [] =>
        Raise (ValueError
                 (Str (Py.percent_s "Invalid locale_code '%s'" locale)))
    | m :: _ => Ok (Re.group_text m 1)
    end.

(* ================================================================== *)
(** ** Generators

    A generator function, run to its end: the values it yields, in order,
    and the exception that ended it, if one did.  The consumer receives
    every yielded value before it sees the exception. *)
(* ================================================================== *)

Record gen (A : Type) : Type := Gen { yielded : list A; raised : option exn }.
Arguments Gen {A} yielded raised.
Arguments yielded {A} g.
Arguments raised {A} g.

(** [return], or the end of the body. *)
Definition g_return {A : Type} : gen A := Gen [] None.

(** [raise e] *)
Definition g_raise {A : Type} (e : exn) : gen A := Gen [] (Some e).

(** [yield a] *)
Definition g_yield {A : Type} (a : A) : gen A := Gen [a] None.

(** [g1] and then [g2], unless [g1] raised. *)
Definition g_then {A : Type} (g1 g2 : gen A) : gen A :=
  match raised g1 with
  | Some e => g1
  | None => Gen (yielded g1 ++ yielded g2) (raised g2)
  end.

(** [for x in xs: body], over a list. *)
Definition g_each {A B : Type} (body : A -> gen B) : list A -> gen B :=
  fix each (xs : list A) : gen B :=
    match xs with
    | [] => g_return
    | x :: xs' => g_then (body x) (each xs')
    end.

(** [for x in g: body], over another generator: the body runs on each
    value as it is yielded, and an exception of [g] comes after them. *)
Definition g_for {A B : Type} (g : gen A) (body : A -> gen B) : gen B :=
  g_then (g_each body (yielded g))
         (match raised g with
          | Some e => g_raise e
          | None => g_return
          end).

(* ================================================================== *)
(** ** Rule nodes and the file system *)
(* ================================================================== *)

(** A DOM node as [handle_path] reads it: an element with its name, its
    attributes and its children, or a node of another type (the text and
    comments between elements). *)
Inductive node : Type :=
| Element (nodeName : string) (attributes : list (string * string))
          (childNodes : list node)
| Text (data : string)
| Comment (data : string).

(** [xmldata.getAttribute(name)]: the empty string when there is none. *)
Fixpoint getAttribute (attributes : list (string * string)) (name : string)
  : string :=
  match attributes with
  | [] => EmptyString
  | (n, v) :: rest => if n =? name then v else getAttribute rest name
  end.

(** [xmldata.hasChildNodes()] *)
Definition hasChildNodes (childNodes : list node) : bool :=
  match childNodes with
  | [] => false
  | _ :: _ => true
  end.

(** What rule evaluation reads of the file system, taken at one moment:
    [os.path.isdir] and [glob.iglob]. *)
Record filesystem : Type := {
  os_path_isdir : string -> bool;
  glob_iglob : string -> list string
}.

(* ================================================================== *)
(** ** [Locales] *)
(* ================================================================== *)

(** The two class attributes: the catalog of native names, a dictionary
    as an association list, and the registered rule trees. *)
Record Locales : Type := {
  native_locale_names : list (string * string);
  _paths : list node
}.

(** [d.keys()] *)
Definition keys (d : list (string * string)) : list string := map fst d.

(** [Locales.add_xml] *)
Definition add_xml (self : Locales) (xml_node : node) : Locales :=
  {| native_locale_names := native_locale_names self;
     _paths := _paths self ++ [xml_node] |}.

(** The directory of a rule node: [path + location], with a slash at its
    end. *)
Definition join_location (path location : string) : string :=
  let path := path ++ location in
  if Py.endswith path "/" then path else path ++ "/".

(** [Locales.handle_path(path, xmldata)] *)
Fixpoint handle_path (fs : filesystem) (path : string) (xmldata : node)
  {struct xmldata} : gen (string * string) :=
  match xmldata with
  | Text _ | Comment _ => g_return
  | Element nodeName attributes childNodes =>
      if negb ("path" =? nodeName) then
        g_raise (RuntimeError
                   (Str (Py.percent_s "Invalid node '%s', expected 'path'"
                                      nodeName)))
      else
      let location := getAttribute attributes "location" in
      if EmptyString =? location then
        g_raise (RuntimeError (Str "Path node without location attribute"))
      else
      let path := join_location path location in
      if negb (os_path_isdir fs path) then g_return
      else
      let userfilter := getAttribute attributes "filter" in
      let userfilter :=
        if (userfilter =? EmptyString) && negb (hasChildNodes childNodes)
        then "*" else userfilter in
      g_then
        (if negb (userfilter =? EmptyString) then
           if negb (Nat.eqb 1 (Py.count "*" userfilter)) then
             g_raise (RuntimeError
                        (Str (Py.percent_s
                                "Filter string '%s' must contain the placeholder * exactly once"
                                userfilter)))
           else
             match map Py.len (Py.split "*" userfilter) with
             | [prefixlen; postfixlen] =>
                 let postfixlen :=
                   if negb (Nat.eqb 0 postfixlen) then Some postfixlen
                   else None in
                 g_each
                   (fun subpath =>
                      let filename := Py.basename subpath in
                      match locale_to_language
                              (Py.slice filename prefixlen postfixlen) with
                      | Raise (ValueError _) => g_return
                      | Raise e => g_raise e
                      | Ok locale => g_yield (locale, subpath)
                      end)
                   (glob_iglob fs (path ++ userfilter))
             | _ =>
                 g_raise (ValueError (Str "need more than 1 value to unpack"))
             end
         else g_return)
        (* handle child nodes *)
        (g_each
           (fun child =>
              g_for (handle_path fs path child)
                    (fun '(locale, subpath) => g_yield (locale, subpath)))
           childNodes)
  end.

(** [Locales.localization_paths(self, locales_to_keep)] *)
Definition localization_paths (fs : filesystem) (self : Locales)
           (locales_to_keep : list string) : gen string :=
  match locales_to_keep with
  | [] => g_raise (RuntimeError (Str "Found no locales to keep"))
  | _ :: _ =>
      let purgeable_locales :=
        filter (fun locale => negb (Py.mem locale locales_to_keep))
               (keys (native_locale_names self)) in
      g_each
        (fun xml_node =>
           g_for (handle_path fs "" xml_node)
                 (fun '(locale, path) =>
                    if Py.mem locale purgeable_locales then g_yield path
                    else g_return))
        (_paths self)
  end.

(** The initial value of the class attribute [native_locale_names]. *)
Definition Locales_native_locale_names : list (string * string) :=
  [
    ("ar", "العربية");
    ("ast", "Asturianu");
    ("be", "Беларуская мова");
    ("bg", "български език");
    ("bn", "বাংলা");
    ("bs", "босански");
    ("ca", "català");
    ("cs", "česky");
    ("da", "dansk");
    ("de", "Deutsch");
    ("el", "Ελληνικά");
    ("en", "English");
    ("en_AU", "Australian English");
    ("en_GB", "British English");
    ("eo", "Esperanto");
    ("es", "Español");
    ("et", "eesti");
    ("fa", "فارسی");
    ("fi", "suomen kieli");
    ("fo", "føroyskt");
    ("fr", "Français");
    ("gl", "galego");
    ("he", "עברית");
    ("hi", "हिन्दी");
    ("hr", "Hrvatski");
    ("hu", "Magyar");
    ("hy", "Հայերեն");
    ("ia", "Interlingua");
    ("id", "Indonesian");
    ("it", "Italiano");
    ("iw", "עברית");
    ("ku", "Kurdî");
    ("ky", "Кыргызча");
    ("ja", "日本語");
    ("jv", "basa Jawa");
    ("lt", "lietuvių kalba");
    ("ko", "한국어");
    ("mr", "मराठी");
    ("ms", "بهاس ملايو");
    ("my", "ဗမာစာ");
    ("nb", "Bokmål");
    ("nds", "Plattdüütsch");
    ("nl", "Nederlands");
    ("no", "Norsk");
    ("pl", "polski");
    ("pt", "Português");
    ("ro", "română");
    ("ru", "Pусский");
    ("sk", "slovenčina");
    ("sl", "slovenščina");
    ("sr", "Српски");
    ("sv", "svenska");
    ("tr", "Türkçe");
    ("ug", "Uyghur");
    ("uk", "Українська");
    ("vi", "Tiếng Việt");
    ("zh", "中文")
  ].

(** [locales = Locales()], before any rule tree is registered. *)
Definition locales : Locales :=
  {| native_locale_names := Locales_native_locale_names; _paths := [] |}.

(* ================================================================== *)
(** ** The host and the child process

    The drivers talk to the host through [os.path.exists], three functions
    of [FileUtilities], [subprocess.Popen] and the pipe of the child.  A
    computation takes the calls made so far and returns its result with
    the calls made by its end. *)
(* ================================================================== *)

Inductive value : Type :=
| VStr (s : string)
| VInt (z : Z).

Inductive call : Type :=
| Call_os_path_exists (path : string)
| Call_exe_exists (name : string)
| Call_getsizedir (path : string)
| Call_Popen (args : list string)
| Call_readline
| Call_poll
| Call_print (fmt : string) (arg : value).

(** The pipe of a child process, as the reading loop meets it.
    - [Line raw status rest]: [readline()] returns [raw], a line of output
      with its newline; [poll()], if called before the next read, answers
      [status] ([None] while the child runs, its return code once it has
      exited, which may be while output is still waiting in the pipe).
    - [Eof_running rest]: the stream has ended, [readline()] returns the
      empty string, and [poll()] answers [None].
    - [Eof_exited returncode]: the stream has ended and the child has
      exited. *)
Inductive pipe : Type :=
| Line (raw : string) (status : option Z) (rest : pipe)
| Eof_running (rest : pipe)
| Eof_exited (returncode : Z).

Record host : Type := {
  os_path_exists : string -> bool;
  (* FileUtilities.exe_exists *)
  exe_exists : string -> bool;
  (* FileUtilities.human_to_bytes; it may raise *)
  human_to_bytes : string -> result Z;
  (* FileUtilities.getsizedir: the answer of the n-th measurement, n from 0 *)
  getsizedir : nat -> string -> Z;
  (* the child that subprocess.Popen(args, ...) starts *)
  Popen : list string -> pipe
}.

Definition io (A : Type) : Type := list call -> result A * list call.

Definition ret {A : Type} (a : A) : io A := fun t => (Ok a, t).

Definition raise {A : Type} (e : exn) : io A := fun t => (Raise e, t).

Definition bind {A B : Type} (m : io A) (k : A -> io B) : io B :=
  fun t =>
    match m t with
    | (Ok a, t') => k a t'
    | (Raise e, t') => (Raise e, t')
    end.

Declare Scope io_scope.
Delimit Scope io_scope with io.
Notation "x <- m ;; k" := (bind m (fun x => k))
  (at level 61, m at next level, right associativity) : io_scope.
Notation "m ;; k" := (bind m (fun _ => k))
  (at level 61, right associativity) : io_scope.
Open Scope io_scope.

(** A call to the host: it is recorded, and its answer returned. *)
Definition perform {A : Type} (c : call) (answer : A) : io A :=
  fun t => (Ok answer, (t ++ [c])%list).

Definition is_measurement (c : call) : bool :=
  match c with
  | Call_getsizedir _ => true
  | _ => false
  end.

(** How many times the directory has been measured so far. *)
Definition measurements (t : list call) : nat :=
  length (filter is_measurement t).

Definition do_os_path_exists (h : host) (path : string) : io bool :=
  perform (Call_os_path_exists path) (os_path_exists h path).

Definition do_exe_exists (h : host) (name : string) : io bool :=
  perform (Call_exe_exists name) (exe_exists h name).

Definition do_getsizedir (h : host) (path : string) : io Z :=
  fun t =>
    (Ok (getsizedir h (measurements t) path),
     (t ++ [Call_getsizedir path])%list).

Definition do_Popen (h : host) (args : list string) : io pipe :=
  perform (Call_Popen args) (Popen h args).

Definition do_print (fmt : string) (arg : value) : io unit :=
  perform (Call_print fmt arg) tt.

(** [FileUtilities.human_to_bytes(s)], a pure function: a result or an
    exception. *)
Definition do_human_to_bytes (h : host) (s : string) : io Z :=
  match human_to_bytes h s with
  | Ok n => ret n
  | Raise e => raise e
  end.

(** What [process.stdout.readline()] returns at this point of the pipe. *)
Definition readline (p : pipe) : string :=
  match p with
  | Line raw _ _ => raw
  | Eof_running _ | Eof_exited _ => EmptyString
  end.

(** What [process.poll()] answers after that read. *)
Definition poll (p : pipe) : option Z :=
  match p with
  | Line _ status _ => status
  | Eof_running _ => None
  | Eof_exited returncode => Some returncode
  end.

Definition do_readline (p : pipe) : io string :=
  perform Call_readline (readline p).

Definition do_poll (p : pipe) : io (option Z) :=
  perform Call_poll (poll p).

(** [line == empty and process.poll() != None], with Python's short cut:
    [poll] is called only after an empty line.  When the condition holds
    the answer of [poll], which is [process.returncode] from then on, is
    returned. *)
Definition empty_and_exited (line : string) (p : pipe) : io (option Z) :=
  if EmptyString =? line then do_poll p else ret None.

(* ================================================================== *)
(** ** [apt_autoclean] *)
(* ================================================================== *)

Definition digit_dot (c : ascii) : bool := Py.is_digit c || Ascii.eqb c ".".

(** The pattern  ^Del .*\[([0-9.]+[a-zA-Z]{2})\]  *)
Definition del_pattern : Re.regex :=
  Re.Cat Re.Bol
 (Re.Cat (Re.Lit "Del ")
 (Re.Cat (Re.Star Re.Dot)
 (Re.Cat (Re.Chr "[")
 (Re.Cat (Re.Group 1 (Re.Cat (Re.Plus (Re.Cls digit_dot))
                             (Re.Rep 2 2 (Re.Cls Py.is_alpha))))
         (Re.Chr "]"))))).

(** The body of the loop, from the test of the error prefix to the update
    of the total. *)
Definition apt_autoclean_line (h : host) (line : string) (total_bytes : Z)
  : io Z :=
  if Py.startswith line "E: " then raise (RuntimeError (Str line))
  else
    (* Del cups-common 1.3.9-17ubuntu3 [1165kB] *)
    match Re.search del_pattern line with
    | Some m =>
        let pkg_bytes_str := Re.group_text m 1 in
        pkg_bytes <- do_human_to_bytes h (Py.upper pkg_bytes_str) ;;
        ret (total_bytes + pkg_bytes)%Z
    | None => ret total_bytes
    end.

(** The [while True] loop: each turn reads one line, and the next turn
    goes on with the rest of the pipe. *)
Fixpoint apt_autoclean_loop (h : host) (process : pipe) (total_bytes : Z)
  {struct process} : io Z :=
  raw <- do_readline process ;;
  let line := Py.remove_char Py.nl raw in
  total_bytes <- apt_autoclean_line h line total_bytes ;;
  exited <- empty_and_exited line process ;;
  match exited with
  | Some _ => ret total_bytes                                  (* break *)
  | None =>
      match process with
      | Line _ _ rest | Eof_running rest =>
          apt_autoclean_loop h rest total_bytes
      | Eof_exited _ => ret total_bytes
      end
  end.

(** Run 'apt-get autoclean' and return the size (un-rounded, in bytes) of
    freed space. *)
Definition apt_autoclean (h : host) : io Z :=
  found <- do_exe_exists h "apt-get" ;;
  if negb found then
    raise (RuntimeError (Tr "Executable not found: %s" "apt-get"))
  else
    let args := ["apt-get"; "autoclean"] in
    process <- do_Popen h args ;;
    let total_bytes := 0%Z in
    apt_autoclean_loop h process total_bytes.

(* ================================================================== *)
(** ** [yum_clean] *)
(* ================================================================== *)

(** The body of the loop, from the update of [non_blank_line] to the new
    baseline after the lock message; the state is
    [(old_size, non_blank_line)]. *)
Definition yum_clean_line (h : host) (line : string)
           (old_size : Z) (non_blank_line : string) : io (Z * string) :=
  let non_blank_line :=
    if (2 <? Py.len line)%nat then line else non_blank_line in
  if Py.contains line "You need to be root" then
    (* Seen before Fedora 13 *)
    raise (RuntimeError (Str line))
  else if Py.contains line "Cannot remove rpmdb file" then
    (* Since first in Fedora 13 *)
    raise (RuntimeError (Str line))
  else if Py.contains line "Another app is currently holding" then
    do_print "debug: yum: '%s'" (VStr line) ;;
    old_size <- do_getsizedir h "/var/cache/yum" ;;
    ret (old_size, non_blank_line)
  else ret (old_size, non_blank_line).

(** The [while True] loop; it ends with [old_size], [non_blank_line] and
    [p.returncode]. *)
Fixpoint yum_clean_loop (h : host) (p : pipe)
         (old_size : Z) (non_blank_line : string) {struct p}
  : io (Z * string * Z) :=
  raw <- do_readline p ;;
  let line := Py.remove_char Py.nl raw in
  st <- yum_clean_line h line old_size non_blank_line ;;
  let '(old_size, non_blank_line) := st in
  exited <- empty_and_exited line p ;;
  match exited with
  | Some returncode => ret (old_size, non_blank_line, returncode) (* break *)
  | None =>
      match p with
      | Line _ _ rest | Eof_running rest =>
          yum_clean_loop h rest old_size non_blank_line
      | Eof_exited returncode => ret (old_size, non_blank_line, returncode)
      end
  end.

(** Run 'yum clean all' and return size in bytes recovered. *)
Definition yum_clean (h : host) : io Z :=
  running <- do_os_path_exists h "/var/run/yum.pid" ;;
  if running then
    raise (RuntimeError
             (Tr "%s cannot be cleaned because it is currently running.  Close it, and try again."
                 "Yum"))
  else
    found <- do_exe_exists h "yum" ;;
    if negb found then
      raise (RuntimeError (Tr "Executable not found: %s" "yum"))
    else
      old_size <- do_getsizedir h "/var/cache/yum" ;;
      let args := ["yum"; "--enablerepo=*"; "clean"; "all"] in
      p <- do_Popen h args ;;
      let non_blank_line := EmptyString in
      fin <- yum_clean_loop h p old_size non_blank_line ;;
      let '(old_size, non_blank_line, returncode) := fin in
      do_print "debug: yum process return code = %d" (VInt returncode) ;;
      if (returncode >? 0)%Z then raise (RuntimeError (Str non_blank_line))
      else
        new_size <- do_getsizedir h "/var/cache/yum" ;;
        ret (old_size - new_size)%Z.

(** Running a driver on a host, from an empty record of calls. *)
Definition run {A : Type} (m : io A) : result A * list call := m [].

(* ================================================================== *)
(** ** The size parser of the spec *)
(* ================================================================== *)

Definition digit_value (c : ascii) : Z := Z.of_nat (Py.code c - 48).

(** The digits at the head of [s], read as a number in base 10 after
    [acc], with how many there were and what follows them. *)
Fixpoint read_digits (s : string) (acc : Z) (n : nat) : Z * nat * string :=
  match s with
  | String a s' =>
      if Py.is_digit a then read_digits s' (10 * acc + digit_value a)%Z (S n)
      else (acc, n, s)
  | EmptyString => (acc, n, s)
  end.

(** The unit tokens, uppercased, under the decimal convention. *)
Definition unit_multiplier (u : string) : option Z :=
  if u =? "B" then Some 1%Z
  else if u =? "KB" then Some (10 ^ 3)%Z
  else if u =? "MB" then Some (10 ^ 6)%Z
  else if u =? "GB" then Some (10 ^ 9)%Z
  else if u =? "TB" then Some (10 ^ 12)%Z
  else None.

(** Modelled from the spec: [FileUtilities.human_to_bytes] is not among
    the sources.  The spec gives its contract: a human-readable size token
    with an uppercased unit (KB, MB, GB, ...) is converted to an integer
    number of bytes under the decimal convention (1 KB is 1000 bytes).  A
    token is digits, an optional fraction, and a unit; the product is
    rounded down; any other token is refused with [ValueError]. *)
Definition spec_human_to_bytes (token : string) : result Z :=
  let invalid := Raise (ValueError (Str (Py.percent_s "Invalid input for '%s'" token))) in
  let '(whole, n, rest) := read_digits token 0 0 in
  let '(frac, m, rest) :=
    match rest with
    | String "." rest' => read_digits rest' 0 0
    | _ => (0%Z, O, rest)
    end in
  match unit_multiplier rest with
  | Some mult =>
      if Nat.eqb (n + m) 0 then invalid
      else Ok (((whole * 10 ^ Z.of_nat m + frac) * mult) / 10 ^ Z.of_nat m)%Z
  | None => invalid
  end.

(* ================================================================== *)
(** ** Vocabulary of the statements *)
(* ================================================================== *)

(** Every character of [s] is in the class [p]. *)
Fixpoint all_in (p : ascii -> bool) (s : string) : bool :=
  match s with
  | EmptyString => true
  | String a s' => p a && all_in p s'
  end.

(** The four parts of the ISO-639-like shape: a core of two or three
    lowercase letters; nothing, or an underscore or a dash and two to four
    letters; nothing, or a dot and letters, digits and dashes; nothing, or
    an at sign and letters. *)
Definition is_core (s : string) : bool :=
  ((Py.len s =? 2)%nat || (Py.len s =? 3)%nat) && all_in Py.is_lower s.

Definition is_region (s : string) : bool :=
  match s with
  | EmptyString => true
  | String a s' =>
      underscore_dash a && (2 <=? Py.len s')%nat && (Py.len s' <=? 4)%nat
      && all_in Py.is_alpha s'
  end.

Definition is_encoding (s : string) : bool :=
  match s with
  | EmptyString => true
  | String a s' => Ascii.eqb a "." && all_in alnum_dash s'
  end.

Definition is_variant (s : string) : bool :=
  match s with
  | EmptyString => true
  | String a s' => Ascii.eqb a "@" && all_in Py.is_alpha s'
  end.

(** The repetition of [Re.rmatch] for [Re.Star], on its own. *)
Section StarLoop.
Context {A : Type} (r : Re.regex) (k : nat -> string -> Re.caps -> option A).

Fixpoint star_loop (fuel pos : nat) (s : string) (c : Re.caps) : option A :=
  match fuel with
  | O => k pos s c
  | S fuel' =>
      match Re.rmatch r pos s c
              (fun pos1 s1 c1 =>
                 if (pos <? pos1)%nat then star_loop fuel' pos1 s1 c1
                 else None) with
      | Some x => Some x
      | None => k pos s c
      end
  end.

End StarLoop.

(** The pairs that rule evaluation discovers over the registered trees,
    in order, up to the first exception. *)
Definition discovered (fs : filesystem) (self : Locales)
  : gen (string * string) :=
  g_each (handle_path fs EmptyString) (_paths self).

(** A line of output with its newline. *)
Definition ln (s : string) : string := s ++ String Py.nl EmptyString.

Definition is_some {A : Type} (o : option A) : bool :=
  match o with
  | Some _ => true
  | None => false
  end.

(** Every line of the output stream, newline removed. *)
Fixpoint stream_lines (p : pipe) : list string :=
  match p with
  | Line raw _ rest => Py.remove_char Py.nl raw :: stream_lines rest
  | Eof_running rest => stream_lines rest
  | Eof_exited _ => []
  end.

(** What the reading loop reads when no line makes it raise: the lines,
    and the empty strings read at the end of the stream, up to the first
    empty one after which [poll] reports that the child has exited. *)
Fixpoint lines_read (p : pipe) : list string :=
  match p with
  | Line raw status rest =>
      let line := Py.remove_char Py.nl raw in
      line :: (if (EmptyString =? line) && is_some status then []
               else lines_read rest)
  | Eof_running rest => EmptyString :: lines_read rest
  | Eof_exited _ => [EmptyString]
  end.

(** The return code that [poll] reports when the loop ends. *)
Fixpoint returncode_seen (p : pipe) : Z :=
  match p with
  | Line raw status rest =>
      match (EmptyString =? Py.remove_char Py.nl raw)%string, status with
      | true, Some returncode => returncode
      | _, _ => returncode_seen rest
      end
  | Eof_running rest => returncode_seen rest
  | Eof_exited returncode => returncode
  end.

(** The loop reads the whole stream: no empty line is read once the child
    has exited while output is still waiting in the pipe. *)
Fixpoint reads_whole_stream (p : pipe) : bool :=
  match p with
  | Line raw status rest =>
      negb ((EmptyString =? Py.remove_char Py.nl raw) && is_some status)
      && reads_whole_stream rest
  | Eof_running rest => reads_whole_stream rest
  | Eof_exited _ => true
  end.

(** The stream has ended at this point of the pipe. *)
Fixpoint at_eof (p : pipe) : bool :=
  match p with
  | Line _ _ _ => false
  | Eof_running rest => at_eof rest
  | Eof_exited _ => true
  end.

(** From this point on the child has exited with [returncode]. *)
Fixpoint exited_with (returncode : Z) (p : pipe) : bool :=
  match p with
  | Line raw status rest =>
      negb (raw =? EmptyString)
      && match status with
         | Some rc => (rc =? returncode)%Z
         | None => false
         end
      && exited_with returncode rest
  | Eof_running _ => false
  | Eof_exited rc => (rc =? returncode)%Z
  end.

(** A pipe that a child process can show: a line is not empty before the
    end of the stream, no line comes after the end, and once [poll] has
    reported the return code it reports the same code ever after. *)
Fixpoint well_formed (p : pipe) : bool :=
  match p with
  | Line raw status rest =>
      negb (raw =? EmptyString)
      && match status with
         | Some rc => exited_with rc rest
         | None => well_formed rest
         end
  | Eof_running rest => at_eof rest && well_formed rest
  | Eof_exited _ => true
  end.

(** The size token of a line that matches the Del pattern, uppercased. *)
Definition size_token (line : string) : option string :=
  match Re.search del_pattern line with
  | Some m => Some (Py.upper (Re.group_text m 1))
  | None => None
  end.

(** The bytes a line stands for: its converted size token, 0 for a line
    with no token. *)
Definition line_bytes (h : host) (line : string) : result Z :=
  match size_token line with
  | Some token => human_to_bytes h token
  | None => Ok 0%Z
  end.

Definition converts (h : host) (line : string) : bool :=
  match line_bytes h line with
  | Ok _ => true
  | Raise _ => false
  end.

(** The sum of the converted size tokens of the lines. *)
Fixpoint sum_bytes (h : host) (lines : list string) : Z :=
  match lines with
  | [] => 0%Z
  | line :: rest =>
      (match line_bytes h line with
       | Ok n => n
       | Raise _ => 0
       end + sum_bytes h rest)%Z
  end.

Definition apt_fatal (line : string) : bool := Py.startswith line "E: ".

Definition yum_fatal (line : string) : bool :=
  Py.contains line "You need to be root"
  || Py.contains line "Cannot remove rpmdb file".

Definition yum_lock (line : string) : bool :=
  Py.contains line "Another app is currently holding".

(** The last of the lines that is longer than two characters, the empty
    string when there is none. *)
Definition last_long (lines : list string) : string :=
  fold_left (fun acc line => if (2 <? Py.len line)%nat then line else acc)
            lines EmptyString.

(** How many of the lines carry the lock message. *)
Definition lock_count (lines : list string) : nat :=
  length (filter yum_lock lines).

(** *** Notions used in the proofs about the matcher *)

(** The first character of [s], if there is one, is outside the class. *)
Definition starts_outside (p : ascii -> bool) (s : string) : Prop :=
  match s with
  | EmptyString => True
  | String a _ => p a = false
  end.

(** A successful match whose group 1 is [core]. *)
Definition keeps (core : string) (r : option (nat * Re.caps)) : Prop :=
  exists e c, r = Some (e, c) /\ Re.group c 1 = Some core.

(** A continuation that succeeds on [tail] and leaves group 1 alone. *)
Definition carries (core tail : string)
           (k : nat -> string -> Re.caps -> option (nat * Re.caps)) : Prop :=
  forall pos c, Re.group c 1 = Some core -> keeps core (k pos tail c).

(** An optional group made of a leading character and a run of a class,
    as the encoding and the variant are. *)
Definition suffix_group (i : nat) (lead : ascii) (p : ascii -> bool)
  : Re.regex :=
  Re.Group i (Re.Cat (Re.Chr lead) (Re.Star (Re.Cls p))).

Definition is_suffix (lead : ascii) (p : ascii -> bool) (s : string) : bool :=
  match s with
  | EmptyString => true
  | String a s' => Ascii.eqb a lead && all_in p s'
  end.

Definition region_group : Re.regex :=
  Re.Group 2 (Re.Cat (Re.Cls underscore_dash)
                     (Re.Rep 2 4 (Re.Cls Py.is_alpha))).

Definition core_group : Re.regex :=
  Re.Group 1 (Re.Rep 2 3 (Re.Cls Py.is_lower)).

(** *** Notions used in the proofs about the drivers *)

(** What one turn of the loop of [apt_autoclean] does to the total. *)
Definition apt_step (h : host) (line : string) (total_bytes : Z) : result Z :=
  if apt_fatal line then Raise (RuntimeError (Str line))
  else match line_bytes h line with
       | Ok n => Ok (total_bytes + n)%Z
       | Raise e => Raise e
       end.

(** The turns of the loop over the lines it reads. *)
Fixpoint apt_fold (h : host) (lines : list string) (total_bytes : Z)
  : result Z :=
  match lines with
  | [] => Ok total_bytes
  | line :: rest =>
      match apt_step h line total_bytes with
      | Ok total_bytes => apt_fold h rest total_bytes
      | Raise e => Raise e
      end
  end.

(** [non_blank_line] after one more line. *)
Definition keep_line (non_blank_line line : string) : string :=
  if (2 <? Py.len line)%nat then line else non_blank_line.

(** [old_size] after the lines, when [m] measurements have been made. *)
Fixpoint baseline (h : host) (m : nat) (old_size : Z) (lines : list string)
  : Z :=
  match lines with
  | [] => old_size
  | line :: rest =>
      if yum_lock line
      then baseline h (S m) (getsizedir h m "/var/cache/yum") rest
      else baseline h m old_size rest
  end.

(** The same pipe with the return codes changed by [f]. *)
Fixpoint recode (f : Z -> Z) (p : pipe) : pipe :=
  match p with
  | Line raw status rest => Line raw (option_map f status) (recode f rest)
  | Eof_running rest => Eof_running (recode f rest)
  | Eof_exited returncode => Eof_exited (f returncode)
  end.

(** The same host, whose children report the return codes changed. *)
Definition recode_host (f : Z -> Z) (h : host) : host :=
  {| os_path_exists := os_path_exists h;
     exe_exists := exe_exists h;
     human_to_bytes := human_to_bytes h;
     getsizedir := getsizedir h;
     Popen := fun args => recode f (Popen h args) |}.

(** The reads of the pipe and the measurements of the directory among
    the calls, in their order. *)
Definition is_read_or_measurement (c : call) : bool :=
  match c with
  | Call_readline | Call_getsizedir _ => true
  | _ => false
  end.

Definition reads_and_measurements (t : list call) : list call :=
  filter is_read_or_measurement t.

(** What a turn of the loop of [yum_clean] adds to them: the read, and a
    measurement when the line holds the lock message. *)
Definition turn_calls (line : string) : list call :=
  Call_readline
  :: (if yum_lock line then [Call_getsizedir "/var/cache/yum"] else []).

(** *** Hosts and rules of the examples *)

(** A file system with the directory /usr/share/locale/ and three entries
    in it. *)
Definition example_fs : filesystem :=
  {| os_path_isdir := fun path => path =? "/usr/share/locale/";
     glob_iglob := fun pattern =>
       if pattern =? "/usr/share/locale/*"
       then ["/usr/share/locale/en"; "/usr/share/locale/fr";
             "/usr/share/locale/locale.alias"]
       else [] |}.

(** A file system with no directory at all. *)
Definition empty_fs : filesystem :=
  {| os_path_isdir := fun _ => false; glob_iglob := fun _ => [] |}.

Definition locale_rule : node :=
  Element "path" [("location", "/usr/share/locale")] [].

Definition two_wildcard_rule : node :=
  Element "path" [("location", "/usr/share/locale");
                  ("filter", "*/LC_MESSAGES/*.mo")] [].

Definition example_locales : Locales := add_xml locales locale_rule.

(** A host with both tools installed, the size parser of the spec, a cache
    directory measured at 100, 70 and then 30 bytes, the pid file of yum
    there or not, and the given child. *)
Definition example_host (yum_running : bool) (child : pipe) : host :=
  {| os_path_exists := fun path => yum_running && (path =? "/var/run/yum.pid");
     exe_exists := fun _ => true;
     human_to_bytes := spec_human_to_bytes;
     getsizedir := fun n _ =>
       match n with
       | 0 => 100%Z
       | 1 => 70%Z
       | _ => 30%Z
       end;
     Popen := fun _ => child |}.

(* ================================================================== *)
(** * More of the module

    The other driver of apt-get, the translation of Wine paths, the scan
    of the running processes and the check of desktop entries. *)
(* ================================================================== *)

(* ================================================================== *)
(** ** [apt_autoremove] *)
(* ================================================================== *)

(** The pattern  , ([0-9.]+[a-zA-Z]{2}) disk space will be freed  *)
Definition freed_pattern : Re.regex :=
  Re.Cat (Re.Lit ", ")
 (Re.Cat (Re.Group 1 (Re.Cat (Re.Plus (Re.Cls digit_dot))
                             (Re.Rep 2 2 (Re.Cls Py.is_alpha))))
         (Re.Lit " disk space will be freed")).

(** The body of the loop, from the test of the error prefix to the update
    of the total. *)
Definition apt_autoremove_line (h : host) (line : string) (total_bytes : Z)
  : io Z :=
  if Py.startswith line "E: " then raise (RuntimeError (Str line))
  else
    (* After this operation, 74.7MB disk space will be freed. *)
    match Re.search freed_pattern line with
    | Some m =>
        let pkg_bytes_str := Re.group_text m 1 in
        pkg_bytes <- do_human_to_bytes h (Py.upper pkg_bytes_str) ;;
        ret (total_bytes + pkg_bytes)%Z
    | None => ret total_bytes
    end.

(** The [while True] loop. *)
Fixpoint apt_autoremove_loop (h : host) (process : pipe) (total_bytes : Z)
  {struct process} : io Z :=
  raw <- do_readline process ;;
  let line := Py.remove_char Py.nl raw in
  total_bytes <- apt_autoremove_line h line total_bytes ;;
  exited <- empty_and_exited line process ;;
  match exited with
  | Some _ => ret total_bytes                                  (* break *)
  | None =>
      match process with
      | Line _ _ rest | Eof_running rest =>
          apt_autoremove_loop h rest total_bytes
      | Eof_exited _ => ret total_bytes
      end
  end.

(** Run 'apt-get autoremove' and return the size (un-rounded, in bytes) of
    freed space. *)
Definition apt_autoremove (h : host) : io Z :=
  found <- do_exe_exists h "apt-get" ;;
  if negb found then
    raise (RuntimeError (Tr "Executable not found: %s" "apt-get"))
  else
    let args := ["apt-get"; "--yes"; "autoremove"] in
    process <- do_Popen h args ;;
    let total_bytes := 0%Z in
    apt_autoremove_loop h process total_bytes.

(** *** Vocabulary *)

(** The size token of a line that holds the freed-space message,
    uppercased. *)
Definition freed_token (line : string) : option string :=
  match Re.search freed_pattern line with
  | Some m => Some (Py.upper (Re.group_text m 1))
  | None => None
  end.

(** The bytes such a line stands for, 0 for a line with no token. *)
Definition freed_bytes (h : host) (line : string) : result Z :=
  match freed_token line with
  | Some token => human_to_bytes h token
  | None => Ok 0%Z
  end.

(** The calls of one turn of the reading loop of the two apt drivers: the
    read, and [poll] after an empty line. *)
Definition poll_turn (line : string) : list call :=
  Call_readline :: (if EmptyString =? line then [Call_poll] else []).

(** The scan of the lines read, for either driver: [bytes_of] gives the
    bytes of a line. *)
Section Scan.
Variable bytes_of : host -> string -> result Z.

Definition scan_step (h : host) (line : string) (total_bytes : Z)
  : result Z :=
  if apt_fatal line then Raise (RuntimeError (Str line))
  else match bytes_of h line with
       | Ok n => Ok (total_bytes + n)%Z
       | Raise e => Raise e
       end.

Fixpoint scan_fold (h : host) (lines : list string) (total_bytes : Z)
  : result Z :=
  match lines with
  | [] => Ok total_bytes
  | line :: rest =>
      match scan_step h line total_bytes with
      | Ok total_bytes => scan_fold h rest total_bytes
      | Raise e => Raise e
      end
  end.

(** The calls made over the lines: they stop at the read of a line that
    raises. *)
Fixpoint scan_calls (h : host) (lines : list string) (total_bytes : Z)
  : list call :=
  match lines with
  | [] => []
  | line :: rest =>
      Call_readline
      :: match scan_step h line total_bytes with
         | Ok total_bytes =>
             ((if EmptyString =? line then [Call_poll] else [])
              ++ scan_calls h rest total_bytes)%list
         | Raise _ => []
         end
  end.

(** The sum of the bytes of the lines. *)
Fixpoint scan_sum (h : host) (lines : list string) : Z :=
  match lines with
  | [] => 0%Z
  | line :: rest =>
      (match bytes_of h line with
       | Ok n => n
       | Raise _ => 0
       end + scan_sum h rest)%Z
  end.

Definition accepted_by (h : host) (line : string) : bool :=
  match bytes_of h line with
  | Ok _ => true
  | Raise _ => false
  end.

End Scan.

(** The sum of the converted size tokens of the freed-space lines. *)
Definition sum_freed (h : host) (lines : list string) : Z :=
  scan_sum freed_bytes h lines.

(** A host where no tool is installed. *)
Definition bare_host (child : pipe) : host :=
  {| os_path_exists := fun _ => false;
     exe_exists := fun _ => false;
     human_to_bytes := spec_human_to_bytes;
     getsizedir := fun _ _ => 0%Z;
     Popen := fun _ => child |}.

(** A host whose parser makes five bytes of every token. *)
Definition five_host (child : pipe) : host :=
  {| os_path_exists := fun _ => false;
     exe_exists := fun _ => true;
     human_to_bytes := fun _ => Ok 5%Z;
     getsizedir := fun _ _ => 0%Z;
     Popen := fun _ => child |}.

(* ================================================================== *)
(** ** More Python primitives *)
(* ================================================================== *)

(** The exceptions of the rest of the module: those met so far, and the
    IndexError of an index out of range. *)
Inductive exception : Type :=
| Exn (e : exn)
| IndexError (msg : string).

Inductive outcome (A : Type) : Type :=
| Returns (a : A)
| Raises (e : exception).
Arguments Returns {A} a.
Arguments Raises {A} e.

(** The backslash, code 92. *)
Definition backslash : ascii := "092"%char.

Definition lower_char (c : ascii) : ascii :=
  if Py.is_upper c then ascii_of_nat (Py.code c + 32) else c.

(** [s.lower()] on ASCII text. *)
Fixpoint lower (s : string) : string :=
  match s with
  | EmptyString => EmptyString
  | String a s' => String (lower_char a) (lower s')
  end.

(** [s.replace(old, new)] from left to right for an [old] that is not
    empty: at an occurrence of [old] the text [new] is written and the
    [skip] characters left of the occurrence are passed over. *)
Fixpoint replace_from (old new : string) (skip : nat) (s : string) : string :=
  match s with
  | EmptyString => EmptyString
  | String a s' =>
      match skip with
      | S skip' => replace_from old new skip' s'
      | O =>
          if prefix old s
          then new ++ replace_from old new (Py.len old - 1) s'
          else String a (replace_from old new 0 s')
      end
  end.

(** With an empty [old], [new] is written before every character and at
    the end. *)
Fixpoint interleave (new s : string) : string :=
  match s with
  | EmptyString => new
  | String a s' => new ++ String a (interleave new s')
  end.

(** [s.replace(old, new)] *)
Definition replace (s old new : string) : string :=
  if old =? EmptyString then interleave new s else replace_from old new 0 s.

(** [posixpath.join(a, b)] *)
Definition os_path_join (a b : string) : string :=
  if Py.startswith b "/" then b
  else if (a =? EmptyString) || Py.endswith a "/" then a ++ b
  else a ++ "/" ++ b.

(* ================================================================== *)
(** ** [wine_to_linux_path] *)
(* ================================================================== *)

(** Return a Linux pathname from an absolute Windows pathname and Wine
    prefix. *)
Definition wine_to_linux_path (wineprefix windows_pathname : string)
  : outcome string :=
  match windows_pathname with
  | EmptyString => Raises (IndexError "string index out of range")
  | String drive_letter _ =>
      let windows_pathname :=
        replace windows_pathname (String drive_letter ":")
                ("drive_" ++ lower (String drive_letter EmptyString)) in
      let windows_pathname :=
        replace windows_pathname (String backslash EmptyString) "/" in
      Returns (os_path_join wineprefix windows_pathname)
  end.

(** *** Vocabulary *)

(** [s] with every backslash turned into a slash. *)
Fixpoint slashed (s : string) : string :=
  match s with
  | EmptyString => EmptyString
  | String a s' =>
      String (if Ascii.eqb a backslash then "/"%char else a) (slashed s')
  end.

(** [s] with every slash turned into a backslash: a Windows pathname
    written with slashes. *)
Fixpoint windows (s : string) : string :=
  match s with
  | EmptyString => EmptyString
  | String a s' =>
      String (if Ascii.eqb a "/" then backslash else a) (windows s')
  end.

(** The character [c] occurs in [s]. *)
Fixpoint has_char (c : ascii) (s : string) : bool :=
  match s with
  | EmptyString => false
  | String a s' => Ascii.eqb a c || has_char c s'
  end.

(** The separator that [posixpath.join] puts after [a]. *)
Definition separator (a : string) : string :=
  if (a =? EmptyString) || Py.endswith a "/" then EmptyString else "/".

(* ================================================================== *)
(** ** [is_running] *)
(* ================================================================== *)

(** What [os.path.realpath] does on a link of /proc: it returns the
    target, or raises one of the two exceptions the scan expects. *)
Inductive resolved : Type :=
| Target (path : string)
| TypeError
| OSError.

(** The processes, as the scan reads them: what [glob.iglob] gives for
    /proc/*/exe, and [os.path.realpath] on these links. *)
Record processes : Type := {
  proc_exe : list string;
  os_path_realpath : string -> resolved
}.

(** The [for] loop over the links. *)
Fixpoint is_running_scan (ps : processes) (exename : string)
         (filenames : list string) : bool :=
  match filenames with
  | [] => false
  | filename :: rest =>
      match os_path_realpath ps filename with
      | TypeError => is_running_scan ps exename rest       (* continue *)
      | OSError => is_running_scan ps exename rest         (* continue *)
      | Target target =>
          if exename =? Py.basename target then true
          else is_running_scan ps exename rest
      end
  end.

(** Check whether exename is running. *)
Definition is_running (ps : processes) (exename : string) : bool :=
  is_running_scan ps exename (proc_exe ps).

(** Three processes: one whose link cannot be read, a deleted program
    and a shell. *)
Definition example_processes : processes :=
  {| proc_exe := ["/proc/1/exe"; "/proc/20/exe"; "/proc/300/exe"];
     os_path_realpath := fun filename =>
       if filename =? "/proc/1/exe" then OSError
       else if filename =? "/proc/20/exe"
            then Target "/usr/bin/firefox (deleted)"
            else Target "/bin/bash" |}.

(* ================================================================== *)
(** ** [is_broken_xdg_desktop] *)
(* ================================================================== *)

(** [string.whitespace] *)
Definition is_space (c : ascii) : bool :=
  Ascii.eqb c " " || ((9 <=? Py.code c)%nat && (Py.code c <=? 13)%nat).

Fixpoint lstrip (s : string) : string :=
  match s with
  | EmptyString => EmptyString
  | String a s' => if is_space a then lstrip s' else s
  end.

Fixpoint rstrip (s : string) : string :=
  match s with
  | EmptyString => EmptyString
  | String a s' =>
      match rstrip s' with
      | EmptyString => if is_space a then EmptyString else String a EmptyString
      | r => String a r
      end
  end.

(** [s.strip()] *)
Definition strip (s : string) : string := rstrip (lstrip s).

(** [fmt % args] for a format whose directives are all %s, with as many
    arguments as directives. *)
Fixpoint percent_ss (fmt : string) (args : list string) : string :=
  match fmt with
  | String "%" (String "s" rest) =>
      match args with
      | arg :: args' => arg ++ percent_ss rest args'
      | [] => percent_ss rest []
      end
  | String a rest => String a (percent_ss rest args)
  | EmptyString => EmptyString
  end.

(** A [RawConfigParser] after [read]: the three methods the checker
    calls. *)
Record config : Type := {
  has_section : string -> bool;
  has_option : string -> string -> bool;
  get : string -> string -> string
}.

(** What the checker reads besides the host: the desktop files as
    [ConfigParser] reads them, which may raise; [shlex.split], which may
    raise; and the registry of [gnomevfs], when the module was found. *)
Record desktop : Type := {
  ConfigParser_read : string -> outcome config;
  shlex_split : string -> outcome (list string);
  HAVE_GNOME_VFS : bool;
  mime_get_all_applications : string -> list string
}.

(** The [while True] loop over the words after env: the assignments are
    taken off, and the last value of WINEPREFIX is kept. *)
Fixpoint env_loop (execs : list string) (wineprefix : option string)
  : outcome (list string * option string) :=
  match execs with
  | [] => Raises (IndexError "list index out of range")
  | execs0 :: rest =>
      if has_char "=" execs0 then
        match Py.split "=" execs0 with
        | [name; value] =>
            let wineprefix :=
              if "WINEPREFIX" =? name then Some value else wineprefix in
            env_loop rest wineprefix
        | [] | [_] =>
            Raises (Exn (ValueError (Str "need more than 1 value to unpack")))
        | _ => Raises (Exn (ValueError (Str "too many values to unpack")))
        end
      else Returns (execs, wineprefix)
  end.

(** Returns boolean whether application deskop entry file is broken,
    with the lines it prints. *)
Definition is_broken_xdg_desktop_application
           (h : host) (d : desktop) (config : config)
           (desktop_pathname : string) : list string * outcome bool :=
  if negb (has_option config "Desktop Entry" "Exec") then
    ([percent_ss "info: is_broken_xdg_menu: missing required option 'Exec': '%s'"
                 [desktop_pathname]],
     Returns true)
  else
  let exe := hd EmptyString (Py.split " " (get config "Desktop Entry" "Exec")) in
  if negb (exe_exists h exe) then
    ([percent_ss "info: is_broken_xdg_menu: executable '%s' does not exist '%s'"
                 [exe; desktop_pathname]],
     Returns true)
  else
  if "env" =? exe then
    (* Wine v1.0 creates .desktop files like this *)
    match shlex_split d (get config "Desktop Entry" "Exec") with
    | Raises e => ([], Raises e)
    | Returns execs =>
        let wineprefix := None in
        match execs with
        | [] => ([], Raises (IndexError "list assignment index out of range"))
        | _ :: execs =>
            match env_loop execs wineprefix with
            | Raises e => ([], Raises e)
            | Returns (execs, wineprefix) =>
                match execs with
                | [] => ([], Raises (IndexError "list index out of range"))
                | execs0 :: _ =>
                    if negb (exe_exists h execs0) then
                      ([percent_ss
                          "info: is_broken_xdg_menu: executable '%s'does not exist '%s'"
                          [execs0; desktop_pathname]],
                       Returns true)
                    else
                    (* check the Windows executable exists *)
                    match wineprefix with
                    | None => ([], Returns false)
                    | Some wineprefix =>
                        if wineprefix =? EmptyString then ([], Returns false)
                        else
                        match nth_error execs 1 with
                        | None =>
                            ([], Raises (IndexError "list index out of range"))
                        | Some execs1 =>
                            match wine_to_linux_path wineprefix execs1 with
                            | Raises e => ([], Raises e)
                            | Returns windows_exe =>
                                if negb (os_path_exists h windows_exe) then
                                  ([percent_ss
                                      "info: is_broken_xdg_menu: Windows executable'%s' does not exist '%s'"
                                      [windows_exe; desktop_pathname]],
                                   Returns true)
                                else ([], Returns false)
                            end
                        end
                    end
                end
            end
        end
    end
  else ([], Returns false).

(** Returns boolean whether the given XDG desktop entry file is broken,
    with the lines it prints. *)
Definition is_broken_xdg_desktop (h : host) (d : desktop) (pathname : string)
  : list string * outcome bool :=
  match ConfigParser_read d pathname with
  | Raises e => ([], Raises e)
  | Returns config =>
  if negb (has_section config "Desktop Entry") then
    ([percent_ss
        "info: is_broken_xdg_menu: missing required section 'Desktop Entry': '%s'"
        [pathname]],
     Returns true)
  else
  if negb (has_option config "Desktop Entry" "Type") then
    ([percent_ss "info: is_broken_xdg_menu: missing required option 'Type': '%s'"
                 [pathname]],
     Returns true)
  else
  let file_type := lower (strip (get config "Desktop Entry" "Type")) in
  if "link" =? file_type then
    if negb (has_option config "Desktop Entry" "URL")
       && negb (has_option config "Desktop Entry" "URL[$e]") then
      ([percent_ss "info: is_broken_xdg_menu: missing required option 'URL': '%s'"
                   [pathname]],
       Returns true)
    else ([], Returns false)
  else
  if "mimetype" =? file_type then
    if negb (has_option config "Desktop Entry" "MimeType") then
      ([percent_ss
          "info: is_broken_xdg_menu: missing required option 'MimeType': '%s'"
          [pathname]],
       Returns true)
    else
    let mimetype := lower (strip (get config "Desktop Entry" "MimeType")) in
    if HAVE_GNOME_VFS d
       && Nat.eqb 0 (length (mime_get_all_applications d mimetype)) then
      ([percent_ss "info: is_broken_xdg_menu: MimeType '%s' not registered '%s'"
                   [mimetype; pathname]],
       Returns true)
    else ([], Returns false)
  else
  if negb ("application" =? file_type) then
    ([percent_ss "Warning: unhandled type '%s': file '%s'"
                 [file_type; pathname]],
     Returns false)
  else
  match is_broken_xdg_desktop_application h d config pathname with
  | (out, Returns true) => (out, Returns true)
  | (out, Returns false) => (out, Returns false)
  | (out, Raises e) => (out, Raises e)
  end
  end.

(** *** Vocabulary *)

(** An assignment of the command line of env. *)
Definition assignment (binding : string * string) : string :=
  fst binding ++ "=" ++ snd binding.

(** The value of WINEPREFIX after the assignments, from the value
    [wineprefix] before them. *)
Fixpoint wineprefix_after (bindings : list (string * string))
         (wineprefix : option string) : option string :=
  match bindings with
  | [] => wineprefix
  | (name, value) :: rest =>
      wineprefix_after rest
        (if "WINEPREFIX" =? name then Some value else wineprefix)
  end.

(** Neither the name nor the value holds an equals sign. *)
Definition plain (binding : string * string) : bool :=
  negb (has_char "=" (fst binding)) && negb (has_char "=" (snd binding)).

(** The type of the entry, as the checker compares it. *)
Definition file_type_of (c : config) : string :=
  lower (strip (get c "Desktop Entry" "Type")).

Definition handled_type (file_type : string) : bool :=
  ("link" =? file_type) || ("mimetype" =? file_type)
  || ("application" =? file_type).

(** A desktop entry that Wine writes, and the world around it. *)
Definition wine_entry : config :=
  {| has_section := fun section => section =? "Desktop Entry";
     has_option := fun _ option => (option =? "Exec") || (option =? "Type");
     get := fun _ option =>
       if option =? "Type" then " Application "
       else "env WINEPREFIX=/home/z/.wine wine C:/foo.exe" |}.

Definition example_desktop (words : list string) : desktop :=
  {| ConfigParser_read := fun _ => Returns wine_entry;
     shlex_split := fun _ => Returns words;
     HAVE_GNOME_VFS := false;
     mime_get_all_applications := fun _ => [] |}.

(** What is printed goes with what is returned: one line with True, no
    line with False or with an exception. *)
Definition told (r : list string * outcome bool) : Prop :=
  match r with
  | (out, Returns true) => length out = 1
  | (out, Returns false) => out = []
  | (out, Raises _) => out = []
  end.

(* ================================================================== *)
(** ** More vocabulary of the statements *)
(* ================================================================== *)

(** [walk r pos s c pos' s' c']: the matcher can go through [r] from offset
    [pos] with [s] ahead and captures [c], and come out at offset [pos']
    with [s'] ahead and captures [c']. *)
Inductive walk : Re.regex -> nat -> string -> Re.caps ->
                nat -> string -> Re.caps -> Prop :=
| walk_eps pos s c : walk Re.Eps pos s c pos s c
| walk_cls p a s pos c :
    p a = true -> walk (Re.Cls p) pos (String a s) c (S pos) s c
| walk_cat r1 r2 pos s c pos1 s1 c1 pos2 s2 c2 :
    walk r1 pos s c pos1 s1 c1 -> walk r2 pos1 s1 c1 pos2 s2 c2 ->
    walk (Re.Cat r1 r2) pos s c pos2 s2 c2
| walk_opt_in r pos s c pos1 s1 c1 :
    walk r pos s c pos1 s1 c1 -> walk (Re.Opt r) pos s c pos1 s1 c1
| walk_opt_out r pos s c : walk (Re.Opt r) pos s c pos s c
| walk_star_out r pos s c : walk (Re.Star r) pos s c pos s c
| walk_star_in r pos s c pos1 s1 c1 pos2 s2 c2 :
    walk r pos s c pos1 s1 c1 -> walk (Re.Star r) pos1 s1 c1 pos2 s2 c2 ->
    walk (Re.Star r) pos s c pos2 s2 c2
| walk_group i r pos s c pos1 s1 c1 :
    walk r pos s c pos1 s1 c1 ->
    walk (Re.Group i r) pos s c pos1 s1 ((i, Py.take (pos1 - pos) s) :: c1)
| walk_bol s c : walk Re.Bol 0 s c 0 s c
| walk_eol pos s c :
    s = EmptyString \/ s = String Py.nl EmptyString ->
    walk Re.Eol pos s c pos s c.

(** A line end as the dollar sign of Python's [re] sees it: the end of
    the string, or one newline before it. *)
Definition is_line_end (s : string) : bool :=
  (s =? "") || (s =? String Py.nl "").

(** [s] is a locale of core [core]: the core, the optional suffixes and a
    line end. *)
Definition locale_of (core s : string) : Prop :=
  exists region encoding variant eol,
    is_core core = true /\ is_region region = true
    /\ is_encoding encoding = true /\ is_variant variant = true
    /\ is_line_end eol = true
    /\ s = core ++ region ++ encoding ++ variant ++ eol.

(** A language code: what [locale_to_language] can return. *)
Definition is_language_code (s : string) : bool :=
  (s =? "klingon") || is_core s.

(** What the listing of one directory gives for each entry. *)
Definition entry (prefixlen : nat) (postfixlen : option nat)
           (subpath : string) : gen (string * string) :=
  match locale_to_language
          (Py.slice (Py.basename subpath) prefixlen postfixlen) with
  | Raise (ValueError _) => g_return
  | Raise e => g_raise e
  | Ok locale => g_yield (locale, subpath)
  end.

(** What [handle_path] tells of a pair it yields below [path]. *)
Definition listed (fs : filesystem) (path : string) (pair : string * string)
  : Prop :=
  is_language_code (fst pair) = true
  /\ (exists prefixlen postfixlen,
         locale_to_language
           (Py.slice (Py.basename (snd pair)) prefixlen postfixlen)
         = Ok (fst pair))
  /\ (exists pattern,
         Py.startswith pattern path = true
         /\ In (snd pair) (glob_iglob fs pattern)).

(** [xmldata.ELEMENT_NODE == xmldata.nodeType] *)
Definition is_element (xmldata : node) : bool :=
  match xmldata with
  | Element _ _ _ => true
  | Text _ | Comment _ => false
  end.

(** The test of the planner on a discovered locale. *)
Definition is_purgeable (self : Locales) (locales_to_keep : list string)
           (locale : string) : bool :=
  Py.mem locale (keys (native_locale_names self))
  && negb (Py.mem locale locales_to_keep).

(** A size token: digits and dots, one at least, and two letters. *)
Definition is_size (digits unit : string) : bool :=
  negb (digits =? EmptyString) && all_in digit_dot digits
  && (Py.len unit =? 2)%nat && all_in Py.is_alpha unit.

(** What follows the greedy dot-star in the pattern of [apt_autoclean]. *)
Definition bracket_group : Re.regex :=
  Re.Cat (Re.Chr "[")
 (Re.Cat (Re.Group 1 (Re.Cat (Re.Plus (Re.Cls digit_dot))
                             (Re.Rep 2 2 (Re.Cls Py.is_alpha))))
         (Re.Chr "]")).

(** The continuation fails on every proper suffix of [t]. *)
Definition fails_below
           (k : nat -> string -> Re.caps -> option (nat * Re.caps))
           (c : Re.caps) (t : string) : Prop :=
  forall u t' pos, u <> EmptyString -> t = u ++ t' -> k pos t' c = None.

(** The location with a slash at its end. *)
Definition with_slash (location : string) : string :=
  if Py.endswith location "/" then location else location ++ "/".

(** The file system of the examples, with the directory /usr/ too. *)
Definition usr_fs : filesystem :=
  {| os_path_isdir := fun path =>
       (path =? "/usr/") || (path =? "/usr/share/locale/");
     glob_iglob := glob_iglob example_fs |}.

(** [visits fs top root path xmldata]: the node [xmldata] stands in the
    tree [root], below path elements with a location whose directories
    exist when [root] is evaluated from [top]; [path] is where the
    evaluation of [xmldata] starts from. *)
Inductive visits (fs : filesystem)
  : string -> node -> string -> node -> Prop :=
| visits_here path xmldata : visits fs path xmldata path xmldata
| visits_child top attributes childNodes child path xmldata :
    getAttribute attributes "location" <> EmptyString ->
    os_path_isdir fs (join_location top (getAttribute attributes "location"))
    = true ->
    In child childNodes ->
    visits fs (join_location top (getAttribute attributes "location")) child
           path xmldata ->
    visits fs top (Element "path" attributes childNodes) path xmldata.

(** [visits_first fs top root path xmldata]: moreover nothing raises on
    the way to [xmldata]: each element above it has no filter or a filter
    with one wildcard, and the children before the one that leads to
    [xmldata] raise nothing. *)
Inductive visits_first (fs : filesystem)
  : string -> node -> string -> node -> Prop :=
| first_here path xmldata : visits_first fs path xmldata path xmldata
| first_child top attributes before child after path xmldata :
    getAttribute attributes "location" <> EmptyString ->
    os_path_isdir fs (join_location top (getAttribute attributes "location"))
    = true ->
    getAttribute attributes "filter" = EmptyString
    \/ Py.count "*" (getAttribute attributes "filter") = 1 ->
    (forall sibling,
        In sibling before ->
        raised (handle_path fs
                  (join_location top (getAttribute attributes "location"))
                  sibling) = None) ->
    visits_first fs (join_location top (getAttribute attributes "location"))
                 child path xmldata ->
    visits_first fs top
                 (Element "path" attributes (before ++ child :: after)%list)
                 path xmldata.

(** A file system with the directories /usr/, /usr/share/ and
    /usr/share/locale/, and three entries in /usr/share/. *)
Definition share_fs : filesystem :=
  {| os_path_isdir := fun path =>
       (path =? "/usr/") || (path =? "/usr/share/")
       || (path =? "/usr/share/locale/");
     glob_iglob := fun pattern =>
       if pattern =? "/usr/share/*"
       then ["/usr/share/doc"; "/usr/share/locale"; "/usr/share/man"]
       else glob_iglob example_fs pattern |}.

(** A rule with two wildcards in a filter, two levels down. *)
Definition two_wildcards_below : node :=
  Element "path" [("location", "locale"); ("filter", "*/LC_MESSAGES/*.mo")] [].

Definition nested_rule : node :=
  Element "path" [("location", "/usr")]
    [Text " ";
     Element "path" [("location", "share"); ("filter", "*")]
       [two_wildcards_below]].



(** A desktop entry of a type the checker does not handle, and the world
    around it. *)
Definition directory_entry : config :=
  {| has_section := fun section => section =? "Desktop Entry";
     has_option := fun _ option => (option =? "Name") || (option =? "Type");
     get := fun _ option =>
       if option =? "Type" then " Directory " else "Games" |}.

Definition directory_desktop : desktop :=
  {| ConfigParser_read := fun _ => Returns directory_entry;
     shlex_split := fun _ => Returns [];
     HAVE_GNOME_VFS := true;
     mime_get_all_applications := fun _ => [] |}.

(* ================================================================== *)
(** * Properties *)
(* ================================================================== *)

(** ** Strings *)

Lemma append_empty_r (s : string) : s ++ EmptyString = s.
Proof. induction s as [|a s IH]; simpl; [reflexivity | now rewrite IH]. Qed.

(** ** The regular-expression matcher *)

Module ReFacts.

Section Equations.
Context {A : Type} (k : nat -> string -> Re.caps -> option A).

Lemma star_equation (r : Re.regex) (pos : nat) (s : string) (c : Re.caps) :
  Re.rmatch (Re.Star r) pos s c k = star_loop r k (Py.len s) pos s c.
Proof. reflexivity. Qed.

Lemma cat_equation (r1 r2 : Re.regex) (pos : nat) (s : string) (c : Re.caps) :
  Re.rmatch (Re.Cat r1 r2) pos s c k
  = Re.rmatch r1 pos s c (fun pos1 s1 c1 => Re.rmatch r2 pos1 s1 c1 k).
Proof. reflexivity. Qed.

Lemma opt_equation (r : Re.regex) (pos : nat) (s : string) (c : Re.caps) :
  Re.rmatch (Re.Opt r) pos s c k
  = match Re.rmatch r pos s c k with
    | Some x => Some x
    | None => k pos s c
    end.
Proof. reflexivity. Qed.

Lemma group_equation (i : nat) (r : Re.regex) (pos : nat) (s : string)
      (c : Re.caps) :
  Re.rmatch (Re.Group i r) pos s c k
  = Re.rmatch r pos s c
      (fun pos1 s1 c1 => k pos1 s1 ((i, Py.take (pos1 - pos) s) :: c1)).
Proof. reflexivity. Qed.

Lemma class_inside (p : ascii -> bool) (a : ascii) (s : string) (pos : nat)
      (c : Re.caps) :
  p a = true -> Re.rmatch (Re.Cls p) pos (String a s) c k = k (S pos) s c.
Proof. intros H. simpl. now rewrite H. Qed.

Lemma class_outside (p : ascii -> bool) (s : string) (pos : nat)
      (c : Re.caps) :
  starts_outside p s -> Re.rmatch (Re.Cls p) pos s c k = None.
Proof. destruct s as [|a s]; simpl; [reflexivity | now intros ->]. Qed.

Lemma bol_equation (s : string) (c : Re.caps) :
  Re.rmatch Re.Bol 0 s c k = k 0 s c.
Proof. reflexivity. Qed.

Lemma eol_equation (pos : nat) (c : Re.caps) :
  Re.rmatch Re.Eol pos EmptyString c k = k pos EmptyString c.
Proof. reflexivity. Qed.

(** Greedy repetition of a class runs over a whole block of its characters
    when the continuation accepts what follows. *)
Lemma star_class_greedy (p : ascii -> bool) (w rest : string) (x : A) :
  all_in p w = true -> starts_outside p rest ->
  forall fuel pos c,
    Py.len w <= fuel ->
    k (pos + Py.len w) rest c = Some x ->
    star_loop (Re.Cls p) k fuel pos (w ++ rest) c = Some x.
Proof.
  intros Hall Hout.
  induction w as [|a w IH]; intros fuel pos c Hfuel Hk.
  - simpl in *. rewrite Nat.add_0_r in Hk.
    destruct fuel as [|fuel]; simpl; [exact Hk|].
    destruct rest as [|b rest]; simpl in *; [exact Hk|].
    rewrite Hout. exact Hk.
  - simpl in Hall. apply andb_true_iff in Hall as [Ha Hw].
    unfold Py.len in *. simpl in Hfuel, Hk.
    destruct fuel as [|fuel]; [lia|].
    simpl. rewrite Ha.
    assert (Hlt : (pos <? S pos)%nat = true) by (apply Nat.ltb_lt; lia).
    rewrite Hlt.
    rewrite (IH Hw fuel (S pos) c); [reflexivity | lia |].
    replace (S pos + String.length w) with (pos + S (String.length w)) by lia.
    exact Hk.
Qed.

End Equations.

End ReFacts.

(** ** [locale_to_language] on the ISO-639-like shape *)

Module LocaleShape.
Import ReFacts.

Lemma class_facts (a : ascii) :
  (underscore_dash a = true -> Py.is_lower a = false /\ Py.is_alpha a = false)
  /\ (Ascii.eqb a "." = true ->
      Py.is_lower a = false /\ Py.is_alpha a = false
      /\ underscore_dash a = false)
  /\ (Ascii.eqb a "@" = true ->
      Py.is_lower a = false /\ Py.is_alpha a = false
      /\ underscore_dash a = false /\ alnum_dash a = false
      /\ Ascii.eqb "." a = false).
Proof.
  destruct a as [[] [] [] [] [] [] [] []]; vm_compute; repeat split; congruence.
Qed.

Lemma keeps_first (core : string) (r1 r2 : option (nat * Re.caps)) :
  keeps core r1 ->
  keeps core (match r1 with Some x => Some x | None => r2 end).
Proof. intros (e & c & -> & H). exists e, c. auto. Qed.

Lemma keeps_star (core : string) (p : ascii -> bool) (w tail : string) k
      (pos : nat) (c : Re.caps) :
  all_in p w = true -> starts_outside p tail ->
  keeps core (k (pos + Py.len w) tail c) ->
  keeps core (Re.rmatch (Re.Star (Re.Cls p)) pos (w ++ tail) c k).
Proof.
  intros Hw Hout (e & c' & Hk & Hc).
  exists e, c'. split; [|exact Hc].
  rewrite star_equation.
  apply star_class_greedy; auto.
  unfold Py.len. clear. induction w; simpl; lia.
Qed.

Lemma group_skip (i : nat) (x : string) (c : Re.caps) :
  Nat.eqb 1 i = false -> Re.group ((i, x) :: c) 1 = Re.group c 1.
Proof. destruct i as [|[|i]]; intros H; try discriminate; reflexivity. Qed.

Lemma suffix_stage (i : nat) (lead : ascii) (p : ascii -> bool)
      (core v tail : string) k (pos : nat) (c : Re.caps) :
  Nat.eqb 1 i = false ->
  is_suffix lead p v = true ->
  starts_outside (Ascii.eqb lead) tail -> starts_outside p tail ->
  carries core tail k -> Re.group c 1 = Some core ->
  keeps core (Re.rmatch (Re.Opt (suffix_group i lead p)) pos (v ++ tail) c k).
Proof.
  intros Hi Hv Hlead Hp Hk Hc. rewrite opt_equation.
  unfold suffix_group. rewrite group_equation, cat_equation. unfold Re.Chr.
  destruct v as [|a w].
  - simpl append. rewrite class_outside by exact Hlead. apply Hk, Hc.
  - simpl in Hv. apply andb_true_iff in Hv as [Ha Hw].
    apply Ascii.eqb_eq in Ha. subst a.
    apply keeps_first. simpl append.
    rewrite class_inside by apply Ascii.eqb_refl.
    apply keeps_star; auto.
    apply Hk. rewrite group_skip by exact Hi. exact Hc.
Qed.

Ltac inside H := rewrite (class_inside _ _ _ _ _ _ H).
Ltac outside H := rewrite (class_outside _ _ _ _ _ H).

Ltac split_all H Ha :=
  simpl all_in in H; apply andb_true_iff in H as [Ha H].

Lemma region_stage (core r tail : string) k (pos : nat) (c : Re.caps) :
  is_region r = true ->
  starts_outside underscore_dash tail -> starts_outside Py.is_alpha tail ->
  carries core tail k -> Re.group c 1 = Some core ->
  keeps core (Re.rmatch (Re.Opt region_group) pos (r ++ tail) c k).
Proof.
  intros Hr Hsep Halpha Hk Hc. rewrite opt_equation.
  unfold region_group. rewrite group_equation, cat_equation.
  destruct r as [|a w].
  - simpl append. outside Hsep. apply Hk, Hc.
  - simpl in Hr.
    apply andb_true_iff in Hr as [Hr Hall].
    apply andb_true_iff in Hr as [Hr Hle].
    apply andb_true_iff in Hr as [Ha Hge].
    apply keeps_first. simpl append. inside Ha.
    change (Re.Rep 2 4 (Re.Cls Py.is_alpha))
      with (Re.Cat (Re.Cls Py.is_alpha) (Re.Cat (Re.Cls Py.is_alpha)
             (Re.Opt (Re.Cat (Re.Cls Py.is_alpha)
                (Re.Opt (Re.Cat (Re.Cls Py.is_alpha) Re.Eps)))))).
    destruct w as [|l1 [|l2 w]]; try discriminate.
    split_all Hall Hl1. split_all Hall Hl2.
    rewrite cat_equation. simpl append. inside Hl1.
    rewrite cat_equation. inside Hl2.
    rewrite opt_equation, cat_equation.
    assert (Hgroup : forall x, Re.group ((2, x) :: c) 1 = Some core)
      by (intros x; exact Hc).
    destruct w as [|l3 w].
    + simpl append. outside Halpha. apply Hk, Hgroup.
    + split_all Hall Hl3.
      apply keeps_first. simpl append. inside Hl3.
      rewrite opt_equation, cat_equation.
      destruct w as [|l4 w].
      * simpl append. outside Halpha. apply Hk, Hgroup.
      * split_all Hall Hl4.
        apply keeps_first. simpl append. inside Hl4.
        destruct w as [|l5 w]; [|discriminate].
        simpl. apply Hk, Hgroup.
Qed.

Lemma core_stage (core tail : string) k :
  is_core core = true -> starts_outside Py.is_lower tail ->
  carries core tail k ->
  keeps core (Re.rmatch core_group 0 (core ++ tail) [] k).
Proof.
  intros Hcore Hlower Hk. unfold core_group. rewrite group_equation.
  change (Re.Rep 2 3 (Re.Cls Py.is_lower))
    with (Re.Cat (Re.Cls Py.is_lower) (Re.Cat (Re.Cls Py.is_lower)
           (Re.Opt (Re.Cat (Re.Cls Py.is_lower) Re.Eps)))).
  unfold is_core in Hcore. apply andb_true_iff in Hcore as [Hlen Hall].
  destruct core as [|c1 [|c2 w]]; try discriminate.
  split_all Hall Hc1. split_all Hall Hc2.
  rewrite cat_equation. simpl append. inside Hc1.
  rewrite cat_equation. inside Hc2.
  rewrite opt_equation, cat_equation.
  destruct w as [|c3 w].
  - simpl append. outside Hlower. apply Hk. reflexivity.
  - split_all Hall Hc3.
    apply keeps_first. simpl append. inside Hc3.
    destruct w as [|c4 w]; [|discriminate].
    simpl. apply Hk. reflexivity.
Qed.

Lemma suffix_outside (lead : ascii) (p q : ascii -> bool) (v tail : string) :
  is_suffix lead p v = true -> q lead = false -> starts_outside q tail ->
  starts_outside q (v ++ tail).
Proof.
  destruct v as [|a w]; simpl; [auto|].
  intros H Hq _. apply andb_true_iff in H as [H _].
  apply Ascii.eqb_eq in H. now subst a.
Qed.

Lemma region_outside (q : ascii -> bool) (r tail : string) :
  is_region r = true ->
  (forall a, underscore_dash a = true -> q a = false) ->
  starts_outside q tail -> starts_outside q (r ++ tail).
Proof.
  destruct r as [|a w]; simpl; [auto|].
  intros H Hq _. apply Hq.
  repeat (apply andb_true_iff in H as [H _]). exact H.
Qed.

Lemma separator_not_lower (a : ascii) :
  underscore_dash a = true -> Py.is_lower a = false.
Proof. apply class_facts. Qed.

Lemma not_klingon (core tail : string) :
  is_core core = true -> starts_outside Py.is_lower tail ->
  ("klingon" =? core ++ tail) = false.
Proof.
  intros Hcore Hout. apply String.eqb_neq. intros Heq.
  unfold is_core in Hcore. apply andb_true_iff in Hcore as [Hlen _].
  destruct core as [|c1 [|c2 [|c3 [|c4 w]]]]; try discriminate;
    simpl in Heq; injection Heq as <- <- <-; try subst; simpl in Hout;
    discriminate.
Qed.

Lemma match_keeps_core (core region encoding variant : string) :
  is_core core = true -> is_region region = true ->
  is_encoding encoding = true -> is_variant variant = true ->
  keeps core
        (Re.match_at locale_pattern (core ++ region ++ encoding ++ variant) 0).
Proof.
  intros Hcore Hregion Henc Hvar.
  unfold Re.match_at, locale_pattern. simpl Py.drop.
  rewrite cat_equation, bol_equation, cat_equation.
  assert (Hv : forall q, q "@"%char = false -> starts_outside q variant).
  { intros q Hq. rewrite <- (append_empty_r variant).
    apply (suffix_outside "@" Py.is_alpha); simpl; auto. }
  assert (He : forall q, q "@"%char = false -> q "."%char = false ->
                         starts_outside q (encoding ++ variant)).
  { intros q Hq1 Hq2. apply (suffix_outside "." alnum_dash); auto. }
  apply core_stage; [exact Hcore | |].
  { apply region_outside; [exact Hregion | apply separator_not_lower |].
    apply He; reflexivity. }
  intros pos1 c1 Hc1. rewrite cat_equation.
  apply region_stage; [exact Hregion | apply He; reflexivity
                      | apply He; reflexivity | | exact Hc1].
  intros pos2 c2 Hc2. rewrite cat_equation.
  apply (suffix_stage 3 "." alnum_dash);
    [reflexivity | exact Henc | apply Hv; reflexivity | apply Hv; reflexivity
     | | exact Hc2].
  intros pos3 c3 Hc3. rewrite cat_equation.
  rewrite <- (append_empty_r variant).
  apply (suffix_stage 4 "@" Py.is_alpha);
    [reflexivity | exact Hvar | exact I | exact I | | exact Hc3].
  intros pos4 c4 Hc4. rewrite eol_equation. exists pos4, c4. auto.
Qed.

End LocaleShape.

(** C5.  For every raw locale string of the ISO-639-like shape, a core of
    two or three lowercase letters, then an optional region or script
    suffix after an underscore or a dash, an optional encoding suffix after
    a dot and an optional variant suffix after an at sign,
    [locale_to_language] returns exactly the core. *)
Theorem locale_to_language_core (core region encoding variant : string) :
  is_core core = true -> is_region region = true ->
  is_encoding encoding = true -> is_variant variant = true ->
  locale_to_language (core ++ region ++ encoding ++ variant) = Ok core.
Proof.
  intros Hcore Hregion Henc Hvar.
  destruct (LocaleShape.match_keeps_core core region encoding variant
              Hcore Hregion Henc Hvar) as (e & c & Hm & Hg).
  unfold locale_to_language.
  rewrite LocaleShape.not_klingon; [| exact Hcore |].
  - unfold Re.findall. simpl Re.findall_from.
    rewrite Hm. unfold Re.group_text. rewrite Hg. reflexivity.
  - apply LocaleShape.region_outside;
      [exact Hregion | apply LocaleShape.separator_not_lower |].
    apply (LocaleShape.suffix_outside "." alnum_dash); [exact Henc | reflexivity |].
    rewrite <- (append_empty_r variant).
    apply (LocaleShape.suffix_outside "@" Py.is_alpha); simpl; auto.
Qed.

(** The examples of the spec: en_US.UTF-8 gives en, pt_BR@euro gives pt. *)
Lemma locale_to_language_core_witness :
  locale_to_language "en_US.UTF-8" = Ok "en"
  /\ locale_to_language "pt_BR@euro" = Ok "pt".
Proof.
  split.
  - exact (locale_to_language_core "en" "_US" ".UTF-8" ""
             eq_refl eq_refl eq_refl eq_refl).
  - exact (locale_to_language_core "pt" "_BR" "" "@euro"
             eq_refl eq_refl eq_refl eq_refl).
Defined.

(** ** Generators *)

Module GenFacts.

Lemma gen_eta {A : Type} (g : gen A) : Gen (yielded g) (raised g) = g.
Proof. destruct g; reflexivity. Qed.

(** A loop whose body only yields or passes. *)
Lemma each_select {A B : Type} (keep : A -> bool) (f : A -> B) (xs : list A) :
  g_each (fun x => if keep x then g_yield (f x) else g_return) xs
  = Gen (map f (filter keep xs)) None.
Proof.
  induction xs as [|x xs IH]; simpl; [reflexivity|].
  rewrite IH. destruct (keep x); reflexivity.
Qed.

Lemma for_select {A B : Type} (keep : A -> bool) (f : A -> B) (g : gen A) :
  g_for g (fun x => if keep x then g_yield (f x) else g_return)
  = Gen (map f (filter keep (yielded g))) (raised g).
Proof.
  unfold g_for. rewrite each_select.
  destruct (raised g); unfold g_then; simpl; now rewrite app_nil_r.
Qed.

Lemma each_ext {A B : Type} (body1 body2 : A -> gen B) (xs : list A) :
  (forall x, body1 x = body2 x) -> g_each body1 xs = g_each body2 xs.
Proof.
  intros H. induction xs as [|x xs IH]; simpl; [reflexivity|].
  now rewrite H, IH.
Qed.

Lemma for_ext {A B : Type} (body1 body2 : A -> gen B) (g : gen A) :
  (forall x, body1 x = body2 x) -> g_for g body1 = g_for g body2.
Proof. intros H. unfold g_for. now rewrite (each_ext body1 body2). Qed.

(** Selecting inside each of several generators is selecting in their
    sequence. *)
Lemma each_for_select {N A B : Type} (keep : A -> bool) (f : A -> B)
      (source : N -> gen A) (nodes : list N) :
  g_each (fun n => g_for (source n)
                         (fun x => if keep x then g_yield (f x) else g_return))
         nodes
  = Gen (map f (filter keep (yielded (g_each source nodes))))
        (raised (g_each source nodes)).
Proof.
  induction nodes as [|n nodes IH]; simpl; [reflexivity|].
  rewrite IH, for_select. unfold g_then. simpl.
  destruct (raised (source n)) eqn:Hr; simpl; [now rewrite Hr|].
  now rewrite filter_app, map_app.
Qed.

End GenFacts.

Module MemFacts.

Lemma mem_In (x : string) (xs : list string) : Py.mem x xs = true <-> In x xs.
Proof.
  induction xs as [|y ys IH]; simpl; [split; [discriminate | tauto]|].
  rewrite orb_true_iff, IH, String.eqb_eq. split; intros [H|H]; auto.
Qed.

Lemma mem_filter (f : string -> bool) (x : string) (xs : list string) :
  Py.mem x (filter f xs) = Py.mem x xs && f x.
Proof.
  induction xs as [|y ys IH]; simpl; [reflexivity|].
  destruct (f y) eqn:Hf; simpl; rewrite IH.
  - destruct (String.eqb_spec x y) as [->|Hne]; simpl; [now rewrite Hf|].
    reflexivity.
  - destruct (String.eqb_spec x y) as [->|Hne]; simpl; [|reflexivity].
    rewrite Hf. apply andb_false_r.
Qed.

End MemFacts.

Ltac each_line :=
  let l := fresh "l" in
  let H := fresh "H" in
  intros l H; simpl in H;
  repeat (destruct H as [<- | H]; [vm_compute; reflexivity|]);
  contradiction.

(** ** The purge planner *)

(** C6.  With an empty keep-set [Locales.localization_paths] raises the
    error that no locale is to be kept, whatever the rule trees and the
    catalog are: it yields nothing, and it does not end as an empty
    sequence. *)
Theorem localization_paths_empty_keep (fs : filesystem) (self : Locales) :
  localization_paths fs self []
  = g_raise (RuntimeError (Str "Found no locales to keep"))
  /\ localization_paths fs self [] <> g_return.
Proof. split; [reflexivity | discriminate]. Qed.

(** C1.  For a keep-set that is not empty, the planner yields exactly the
    paths of the discovered pairs whose locale is a key of the catalog and
    is not in the keep-set, in the order of discovery; a path is yielded if
    and only if it was discovered with such a locale; and when the keep-set
    holds every key of the catalog, nothing is yielded. *)
Theorem localization_paths_purgeable
        (fs : filesystem) (self : Locales) (locales_to_keep : list string) :
  locales_to_keep <> [] ->
  let catalog := keys (native_locale_names self) in
  let purgeable := fun locale =>
    Py.mem locale catalog && negb (Py.mem locale locales_to_keep) in
  let found := discovered fs self in
  let planned := localization_paths fs self locales_to_keep in
  yielded planned
  = map snd (filter (fun pair => purgeable (fst pair)) (yielded found))
  /\ raised planned = raised found
  /\ (forall path,
         In path (yielded planned) <->
         exists locale, In (locale, path) (yielded found)
                        /\ In locale catalog /\ ~ In locale locales_to_keep)
  /\ ((forall locale, In locale catalog -> In locale locales_to_keep) ->
      yielded planned = []).
Proof.
  intros Hkeep catalog purgeable found planned.
  assert (Hplanned :
            planned = Gen (map snd (filter (fun pair => purgeable (fst pair))
                                           (yielded found)))
                          (raised found)).
  { unfold planned, localization_paths.
    destruct locales_to_keep as [|l keep]; [congruence|].
    set (keep' := l :: keep).
    unfold found, discovered.
    rewrite <- (GenFacts.each_for_select
                  (fun pair => purgeable (fst pair)) snd
                  (handle_path fs EmptyString) (_paths self)).
    apply GenFacts.each_ext. intros node.
    apply GenFacts.for_ext. intros [locale path]. simpl.
    unfold purgeable, catalog. now rewrite MemFacts.mem_filter. }
  rewrite Hplanned. simpl.
  split; [reflexivity|]. split; [reflexivity|]. split.
  - intros path. rewrite in_map_iff. split.
    + intros ([locale path'] & Hsnd & Hin). simpl in Hsnd. subst path'.
      apply filter_In in Hin as [Hin Hp]. simpl in Hp.
      unfold purgeable in Hp. apply andb_true_iff in Hp as [Hc Hk].
      exists locale. split; [exact Hin|]. split.
      * now apply MemFacts.mem_In.
      * intros Hk'. apply MemFacts.mem_In in Hk'. rewrite Hk' in Hk.
        discriminate.
    + intros (locale & Hin & Hc & Hk).
      exists (locale, path). split; [reflexivity|].
      apply filter_In. split; [exact Hin|]. simpl. unfold purgeable.
      apply andb_true_iff. split.
      * now apply MemFacts.mem_In.
      * destruct (Py.mem locale locales_to_keep) eqn:Hm; [|reflexivity].
        apply MemFacts.mem_In in Hm. contradiction.
  - intros Hall. clear Hplanned.
    induction (yielded found) as [|[locale path] pairs IH]; [reflexivity|].
    simpl. destruct (purgeable locale) eqn:Hp; [|exact IH].
    unfold purgeable in Hp. apply andb_true_iff in Hp as [Hc Hk].
    apply MemFacts.mem_In, Hall, MemFacts.mem_In in Hc.
    rewrite Hc in Hk. discriminate.
Qed.

(** C1 at a concrete tree: with en kept, the path of fr is planned. *)
Lemma localization_paths_purgeable_witness :
  yielded (discovered example_fs example_locales)
  = [("en", "/usr/share/locale/en"); ("fr", "/usr/share/locale/fr")]
  /\ yielded (localization_paths example_fs example_locales ["en"])
     = ["/usr/share/locale/fr"].
Proof.
  split; [vm_compute; reflexivity|].
  rewrite (proj1 (localization_paths_purgeable
                    example_fs example_locales ["en"]
                    ltac:(discriminate))).
  vm_compute. reflexivity.
Defined.

(** ** Rule evaluation *)

Lemma handle_path_element (fs : filesystem) (path nodeName : string)
      (attributes : list (string * string)) (childNodes : list node) :
  nodeName = "path" ->
  getAttribute attributes "location" <> EmptyString ->
  os_path_isdir fs (join_location path (getAttribute attributes "location"))
  = true ->
  handle_path fs path (Element nodeName attributes childNodes)
  = let path := join_location path (getAttribute attributes "location") in
    let userfilter := getAttribute attributes "filter" in
    let userfilter :=
      if (userfilter =? EmptyString) && negb (hasChildNodes childNodes)
      then "*" else userfilter in
    g_then
      (if negb (userfilter =? EmptyString) then
         if negb (Nat.eqb 1 (Py.count "*" userfilter)) then
           g_raise (RuntimeError
                      (Str (Py.percent_s
                              "Filter string '%s' must contain the placeholder * exactly once"
                              userfilter)))
         else
           match map Py.len (Py.split "*" userfilter) with
           | [prefixlen; postfixlen] =>
               let postfixlen :=
                 if negb (Nat.eqb 0 postfixlen) then Some postfixlen
                 else None in
               g_each
                 (fun subpath =>
                    let filename := Py.basename subpath in
                    match locale_to_language
                            (Py.slice filename prefixlen postfixlen) with
                    | Raise (ValueError _) => g_return
                    | Raise e => g_raise e
                    | Ok locale => g_yield (locale, subpath)
                    end)
                 (glob_iglob fs (path ++ userfilter))
           | _ =>
               g_raise (ValueError (Str "need more than 1 value to unpack"))
           end
       else g_return)
      (g_each
         (fun child =>
            g_for (handle_path fs path child)
                  (fun '(locale, subpath) => g_yield (locale, subpath)))
         childNodes).
Proof.
  intros -> Hloc Hdir. cbn [handle_path].
  change (negb ("path" =? "path")) with false. cbv iota.
  apply String.eqb_neq in Hloc. rewrite String.eqb_sym in Hloc.
  rewrite Hloc, Hdir. reflexivity.
Qed.

Module Propagation.

Lemma then_raises_l {A : Type} (g1 g2 : gen A) :
  raised g1 <> None -> raised (g_then g1 g2) <> None.
Proof. unfold g_then. destruct (raised g1) eqn:H; [now rewrite H | congruence]. Qed.

Lemma then_raises_r {A : Type} (g1 g2 : gen A) :
  raised g2 <> None -> raised (g_then g1 g2) <> None.
Proof.
  unfold g_then. destruct (raised g1) eqn:H; [rewrite H; discriminate | auto].
Qed.

Lemma each_raises {A B : Type} (body : A -> gen B) (xs : list A) (x : A) :
  In x xs -> raised (body x) <> None -> raised (g_each body xs) <> None.
Proof.
  induction xs as [|y ys IH]; simpl; [tauto|].
  intros [-> | Hin] Hx; [now apply then_raises_l|].
  apply then_raises_r. now apply IH.
Qed.

Lemma for_raises {A B : Type} (g : gen A) (body : A -> gen B) :
  raised g <> None -> raised (g_for g body) <> None.
Proof.
  intros H. unfold g_for. apply then_raises_r.
  destruct (raised g); [discriminate | congruence].
Qed.

(** An exception raised below a rule node whose directory exists leaves
    through that node: nothing in [handle_path] catches it. *)
Lemma handle_path_child_raises
      (fs : filesystem) (path : string)
      (attributes : list (string * string)) (childNodes : list node)
      (child : node) :
  getAttribute attributes "location" <> EmptyString ->
  os_path_isdir fs (join_location path (getAttribute attributes "location"))
  = true ->
  In child childNodes ->
  raised (handle_path fs
            (join_location path (getAttribute attributes "location")) child)
  <> None ->
  raised (handle_path fs path (Element "path" attributes childNodes)) <> None.
Proof.
  intros Hloc Hdir Hin Hchild.
  rewrite handle_path_element by auto. cbv zeta.
  apply then_raises_r.
  apply (each_raises _ _ child Hin). now apply for_raises.
Qed.

(** And it leaves through the planner. *)
Lemma localization_paths_node_raises
      (fs : filesystem) (self : Locales) (locales_to_keep : list string)
      (xml_node : node) :
  In xml_node (_paths self) ->
  raised (handle_path fs EmptyString xml_node) <> None ->
  raised (localization_paths fs self locales_to_keep) <> None.
Proof.
  intros Hin Hnode. unfold localization_paths.
  destruct locales_to_keep as [|l keep]; [discriminate|].
  apply (each_raises _ _ xml_node Hin). now apply for_raises.
Qed.

End Propagation.

(** C8.  A rule node, a path element with a location, whose directory does
    not exist evaluates to the empty sequence: nothing is yielded for it or
    for its descendants, and nothing is raised. *)
Theorem handle_path_missing_directory
        (fs : filesystem) (path : string)
        (attributes : list (string * string)) (childNodes : list node) :
  getAttribute attributes "location" <> EmptyString ->
  os_path_isdir fs (join_location path (getAttribute attributes "location"))
  = false ->
  handle_path fs path (Element "path" attributes childNodes) = g_return.
Proof.
  intros Hloc Hdir. cbn [handle_path].
  change (negb ("path" =? "path")) with false. cbv iota.
  apply String.eqb_neq in Hloc. rewrite String.eqb_sym in Hloc.
  rewrite Hloc, Hdir. reflexivity.
Qed.

(** C8 at a concrete rule: no directory exists on this file system. *)
Lemma handle_path_missing_directory_witness :
  handle_path empty_fs EmptyString two_wildcard_rule = g_return.
Proof.
  apply handle_path_missing_directory; [discriminate | reflexivity].
Defined.

(** ** [apt_autoclean] *)

Module AptFacts.

Lemma apt_line_step (h : host) (line : string) (total_bytes : Z) (t : list call) :
  apt_autoclean_line h line total_bytes t = (apt_step h line total_bytes, t).
Proof.
  unfold apt_autoclean_line, apt_step, apt_fatal, line_bytes, size_token.
  destruct (Py.startswith line "E: "); [reflexivity|].
  destruct (Re.search del_pattern line) as [m|];
    [|unfold ret; now rewrite Z.add_0_r].
  unfold bind, do_human_to_bytes.
  destruct (human_to_bytes h (Py.upper (Re.group_text m 1))); reflexivity.
Qed.

Lemma loop_fold (h : host) (p : pipe) :
  forall total_bytes t,
    fst (apt_autoclean_loop h p total_bytes t)
    = apt_fold h (lines_read p) total_bytes.
Proof.
  induction p as [raw status rest IH | rest IH | returncode];
    intros total_bytes t; cbn [apt_autoclean_loop lines_read apt_fold];
    unfold bind at 1; unfold do_readline, perform; cbn [readline];
    cbv beta iota zeta; unfold bind at 1; rewrite apt_line_step;
    destruct (apt_step h _ total_bytes) as [total'|e].
  all: try reflexivity.
  all: unfold bind, empty_and_exited, do_poll, perform, ret; cbn [poll].
  - destruct (EmptyString =? Py.remove_char Py.nl raw); simpl.
    + destruct status as [rc|]; simpl; [reflexivity | apply IH].
    + apply IH.
  - simpl. apply IH.
Qed.

Lemma fold_total (h : host) (lines : list string) :
  (forall line, In line lines -> apt_fatal line = false) ->
  (forall line, In line lines -> converts h line = true) ->
  forall total_bytes,
    apt_fold h lines total_bytes = Ok (total_bytes + sum_bytes h lines)%Z.
Proof.
  induction lines as [|line rest IH]; intros Hfatal Hconv total_bytes; simpl.
  - now rewrite Z.add_0_r.
  - unfold apt_step. rewrite (Hfatal line) by (now left).
    specialize (Hconv line (or_introl eq_refl)) as Hline.
    unfold converts in Hline.
    destruct (line_bytes h line) as [n|e]; [|discriminate].
    rewrite IH; [now rewrite Z.add_assoc | |];
      intros; [apply Hfatal | apply Hconv]; now right.
Qed.

Lemma fold_fatal (h : host) (before after : list string) (line : string) :
  (forall l, In l before -> apt_fatal l = false) ->
  (forall l, In l before -> converts h l = true) ->
  apt_fatal line = true ->
  forall total_bytes,
    apt_fold h (before ++ line :: after) total_bytes
    = Raise (RuntimeError (Str line)).
Proof.
  induction before as [|l before IH]; intros Hfatal Hconv Hline total_bytes;
    simpl.
  - unfold apt_step. now rewrite Hline.
  - unfold apt_step. rewrite (Hfatal l) by (now left).
    specialize (Hconv l (or_introl eq_refl)) as Hl.
    unfold converts in Hl.
    destruct (line_bytes h l) as [n|e]; [|discriminate].
    apply IH; [| | exact Hline]; intros; [apply Hfatal | apply Hconv];
      now right.
Qed.

Lemma whole_In (p : pipe) :
  reads_whole_stream p = true ->
  forall line, In line (lines_read p) ->
               In line (stream_lines p) \/ line = EmptyString.
Proof.
  induction p as [raw status rest IH | rest IH | returncode];
    cbn [reads_whole_stream lines_read stream_lines]; intros Hwhole line Hin.
  - apply andb_true_iff in Hwhole as [Hhere Hrest].
    apply negb_true_iff in Hhere. rewrite Hhere in Hin.
    destruct Hin as [<- | Hin]; [left; now left|].
    destruct (IH Hrest line Hin) as [H|H]; [left; now right | now right].
  - destruct Hin as [<- | Hin]; [now right | now apply IH].
  - destruct Hin as [<- | []]. now right.
Qed.

Lemma whole_sum (h : host) (p : pipe) :
  reads_whole_stream p = true ->
  sum_bytes h (lines_read p) = sum_bytes h (stream_lines p).
Proof.
  induction p as [raw status rest IH | rest IH | returncode];
    cbn [reads_whole_stream lines_read stream_lines]; intros Hwhole.
  - apply andb_true_iff in Hwhole as [Hhere Hrest].
    apply negb_true_iff in Hhere. rewrite Hhere.
    cbn [sum_bytes]. now rewrite IH.
  - cbn [sum_bytes]. now rewrite IH.
  - reflexivity.
Qed.

Lemma whole_split (p : pipe) (line : string) :
  line <> EmptyString ->
  forall before after,
    reads_whole_stream p = true ->
    stream_lines p = (before ++ line :: after)%list ->
    exists before' after',
      lines_read p = (before' ++ line :: after')%list
      /\ forall l, In l before' -> In l before \/ l = EmptyString.
Proof.
  intros Hline.
  induction p as [raw status rest IH | rest IH | returncode];
    cbn [reads_whole_stream lines_read stream_lines];
    intros before after Hwhole Hsplit.
  - apply andb_true_iff in Hwhole as [Hhere Hrest].
    apply negb_true_iff in Hhere. rewrite Hhere.
    destruct before as [|b before]; simpl in Hsplit;
      injection Hsplit as Hb Hsplit.
    + exists [], (lines_read rest). rewrite Hb. split; [reflexivity|].
      intros l [].
    + destruct (IH before after Hrest Hsplit) as (b' & a' & -> & Hin).
      exists (b :: b'), a'. rewrite Hb. split; [reflexivity|].
      intros l [<- | Hl]; [left; now left|].
      destruct (Hin l Hl) as [H|H]; [left; now right | now right].
  - destruct (IH before after Hwhole Hsplit) as (b' & a' & -> & Hin).
    exists (EmptyString :: b'), a'. split; [reflexivity|].
    intros l [<- | Hl]; [now right | now apply Hin].
  - destruct before; discriminate.
Qed.

Lemma lines_read_recode (f : Z -> Z) (p : pipe) :
  lines_read (recode f p) = lines_read p.
Proof.
  induction p as [raw status rest IH | rest IH | returncode];
    cbn [recode lines_read]; [|now rewrite IH | reflexivity].
  rewrite IH. now destruct status.
Qed.

Lemma fold_recode (f : Z -> Z) (h : host) (lines : list string) :
  forall total_bytes,
    apt_fold (recode_host f h) lines total_bytes
    = apt_fold h lines total_bytes.
Proof.
  induction lines as [|line rest IH]; intros total_bytes; [reflexivity|].
  cbn [apt_fold].
  change (apt_step (recode_host f h) line total_bytes)
    with (apt_step h line total_bytes).
  destruct (apt_step h line total_bytes); [apply IH | reflexivity].
Qed.

(** The result of [apt_autoclean] once the executable is found. *)
Lemma run_fold (h : host) :
  exe_exists h "apt-get" = true ->
  fst (run (apt_autoclean h))
  = apt_fold h (lines_read (Popen h ["apt-get"; "autoclean"])) 0.
Proof.
  intros Hexe. unfold run, apt_autoclean, bind, do_exe_exists, do_Popen, perform.
  rewrite Hexe. simpl negb. cbv iota. apply loop_fold.
Qed.

End AptFacts.

(** C2, as amended.  With the single line Del foo 1.0 [1165kB], then the
    end of the stream and the return code 0, [apt_autoclean] hands the
    token, uppercased to 1165KB, to the size parser, and with a parser of
    the decimal convention, which makes 1165 * 1000 of it, that is what it
    returns.  In general, when no line read starts with the error prefix
    and the parser accepts every size token, it returns the sum of the
    converted size tokens of the lines read, which end with the first
    empty line after which [poll] reports that the child has exited; when
    there is no such line before the end of the stream, that is the sum
    over every line of the stream. *)
Theorem apt_autoclean_total :
  (forall (h : host) (status : option Z),
      exe_exists h "apt-get" = true ->
      human_to_bytes h "1165KB" = Ok (1165 * 1000)%Z ->
      Popen h ["apt-get"; "autoclean"]
      = Line (ln "Del foo 1.0 [1165kB]") status (Eof_exited 0) ->
      fst (run (apt_autoclean h)) = Ok (1165 * 1000)%Z)
  /\ (forall h : host,
         exe_exists h "apt-get" = true ->
         let lines := lines_read (Popen h ["apt-get"; "autoclean"]) in
         (forall line, In line lines -> apt_fatal line = false) ->
         (forall line, In line lines -> converts h line = true) ->
         fst (run (apt_autoclean h)) = Ok (sum_bytes h lines))
  /\ (forall h : host,
         exe_exists h "apt-get" = true ->
         let p := Popen h ["apt-get"; "autoclean"] in
         reads_whole_stream p = true ->
         (forall line, In line (stream_lines p) -> apt_fatal line = false) ->
         (forall line, In line (stream_lines p) -> converts h line = true) ->
         fst (run (apt_autoclean h)) = Ok (sum_bytes h (stream_lines p))).
Proof.
  split; [|split].
  - intros h status Hexe Hparser Hpopen.
    rewrite AptFacts.run_fold by exact Hexe. rewrite Hpopen.
    change (lines_read (Line (ln "Del foo 1.0 [1165kB]") status (Eof_exited 0)))
      with ["Del foo 1.0 [1165kB]"; EmptyString].
    unfold apt_fold, apt_step.
    change (apt_fatal "Del foo 1.0 [1165kB]") with false.
    change (apt_fatal EmptyString) with false. cbv iota.
    change (line_bytes h "Del foo 1.0 [1165kB]")
      with (human_to_bytes h "1165KB").
    rewrite Hparser.
    change (line_bytes h EmptyString) with (@Ok Z 0%Z).
    reflexivity.
  - intros h Hexe lines Hfatal Hconv.
    rewrite AptFacts.run_fold by exact Hexe.
    now rewrite AptFacts.fold_total.
  - intros h Hexe p Hwhole Hfatal Hconv.
    rewrite AptFacts.run_fold by exact Hexe. fold p.
    rewrite AptFacts.fold_total.
    + now rewrite AptFacts.whole_sum.
    + intros line Hin.
      destruct (AptFacts.whole_In p Hwhole line Hin) as [H | ->];
        [now apply Hfatal | reflexivity].
    + intros line Hin.
      destruct (AptFacts.whole_In p Hwhole line Hin) as [H | ->];
        [now apply Hconv | reflexivity].
Qed.

(** C2 at concrete streams: the line of the spec; an empty line read
    after the exit of the child, which ends the reading; and the same
    lines read while the child runs. *)
Lemma apt_autoclean_total_witness :
  fst (run (apt_autoclean
              (example_host false
                 (Line (ln "Del foo 1.0 [1165kB]") None (Eof_exited 0)))))
  = Ok 1165000%Z
  /\ fst (run (apt_autoclean
                 (example_host false
                    (Line (ln "Del a 1 [2kB]") None
                       (Line (ln EmptyString) (Some 0%Z)
                          (Line (ln "Del b 2 [1.5MB]") (Some 0%Z)
                             (Eof_exited 0)))))))
     = Ok 2000%Z
  /\ fst (run (apt_autoclean
                 (example_host false
                    (Line (ln "Del a 1 [2kB]") None
                       (Line (ln EmptyString) None
                          (Line (ln "Del b 2 [1.5MB]") None
                             (Eof_exited 0)))))))
     = Ok 1502000%Z.
Proof.
  split; [|split].
  - apply (proj1 apt_autoclean_total _ None); reflexivity.
  - rewrite (proj1 (proj2 apt_autoclean_total));
      [reflexivity | reflexivity | |]; each_line.
  - rewrite (proj2 (proj2 apt_autoclean_total));
      [reflexivity | reflexivity | reflexivity | |]; each_line.
Defined.

(** The claim C2 as it was stated fails when an empty line is read after
    the child has exited: the Del line that follows it is in the stream,
    and it is not counted. *)
Lemma apt_autoclean_blank_line_after_exit :
  let h := example_host false
             (Line (ln EmptyString) (Some 0%Z)
                (Line (ln "Del foo 1.0 [1165kB]") (Some 0%Z)
                   (Eof_exited 0))) in
  well_formed (Popen h ["apt-get"; "autoclean"]) = true
  /\ stream_lines (Popen h ["apt-get"; "autoclean"])
     = [EmptyString; "Del foo 1.0 [1165kB]"]
  /\ sum_bytes h (stream_lines (Popen h ["apt-get"; "autoclean"]))
     = 1165000%Z
  /\ fst (run (apt_autoclean h)) = Ok 0%Z
  /\ fst (run (apt_autoclean h))
     <> Ok (sum_bytes h (stream_lines (Popen h ["apt-get"; "autoclean"]))).
Proof. repeat split. discriminate. Qed.

(** C3, as amended.  When a line that starts with the error prefix is
    read, and before it no line read starts with the prefix and the parser
    accepts every size token, [apt_autoclean] raises the error that
    carries that line without its newline, and no total is returned,
    however many lines with a size came before.  The lines read end with
    the first empty line after which [poll] reports that the child has
    exited; when there is no such line before the end of the stream, every
    line of the stream is read, and the first one with the prefix is the
    one carried. *)
Theorem apt_autoclean_fatal_line :
  (forall (h : host) (before after : list string) (line : string),
      exe_exists h "apt-get" = true ->
      lines_read (Popen h ["apt-get"; "autoclean"])
      = (before ++ line :: after)%list ->
      (forall l, In l before -> apt_fatal l = false) ->
      (forall l, In l before -> converts h l = true) ->
      apt_fatal line = true ->
      fst (run (apt_autoclean h)) = Raise (RuntimeError (Str line)))
  /\ (forall (h : host) (before after : list string) (line : string),
         exe_exists h "apt-get" = true ->
         let p := Popen h ["apt-get"; "autoclean"] in
         reads_whole_stream p = true ->
         stream_lines p = (before ++ line :: after)%list ->
         (forall l, In l before -> apt_fatal l = false) ->
         (forall l, In l before -> converts h l = true) ->
         apt_fatal line = true ->
         fst (run (apt_autoclean h)) = Raise (RuntimeError (Str line))).
Proof.
  assert (Hread :
            forall (h : host) (before after : list string) (line : string),
              exe_exists h "apt-get" = true ->
              lines_read (Popen h ["apt-get"; "autoclean"])
              = (before ++ line :: after)%list ->
              (forall l, In l before -> apt_fatal l = false) ->
              (forall l, In l before -> converts h l = true) ->
              apt_fatal line = true ->
              fst (run (apt_autoclean h)) = Raise (RuntimeError (Str line))).
  { intros h before after line Hexe Hlines Hfatal Hconv Hline.
    rewrite AptFacts.run_fold by exact Hexe. rewrite Hlines.
    now apply AptFacts.fold_fatal. }
  split; [exact Hread|].
  intros h before after line Hexe p Hwhole Hsplit Hfatal Hconv Hline.
  assert (Hne : line <> EmptyString) by (intros ->; discriminate).
  destruct (AptFacts.whole_split p line Hne before after Hwhole Hsplit)
    as (before' & after' & Hlines & Hin).
  apply (Hread h before' after' line Hexe Hlines); [| | exact Hline];
    intros l Hl; destruct (Hin l Hl) as [H | ->]; auto.
Qed.

(** C3 at a concrete stream: the error line comes after a Del line, and
    the return code is not looked at. *)
Lemma apt_autoclean_fatal_line_witness :
  fst (run (apt_autoclean
              (example_host false
                 (Line (ln "Del foo 1.0 [1165kB]") None
                    (Line (ln "E: something failed") None
                       (Line (ln "Del bar 2.0 [3MB]") None
                          (Eof_exited 100)))))))
  = Raise (RuntimeError (Str "E: something failed")).
Proof.
  apply (proj2 apt_autoclean_fatal_line _ ["Del foo 1.0 [1165kB]"]
           ["Del bar 2.0 [3MB]"]);
    [reflexivity | reflexivity | reflexivity | each_line | each_line
     | reflexivity].
Defined.

(** The claim C3 as it was stated fails when an empty line is read after
    the child has exited: the error line that follows it is in the stream,
    and the driver returns a total. *)
Lemma apt_autoclean_fatal_line_after_exit :
  let h := example_host false
             (Line (ln EmptyString) (Some 100%Z)
                (Line (ln "E: something failed") (Some 100%Z)
                   (Eof_exited 100))) in
  well_formed (Popen h ["apt-get"; "autoclean"]) = true
  /\ In "E: something failed"
        (stream_lines (Popen h ["apt-get"; "autoclean"]))
  /\ apt_fatal "E: something failed" = true
  /\ fst (run (apt_autoclean h)) = Ok 0%Z
  /\ fst (run (apt_autoclean h))
     <> Raise (RuntimeError (Str "E: something failed")).
Proof.
  split; [reflexivity|]. split; [right; left; reflexivity|].
  split; [reflexivity|]. split; [reflexivity | discriminate].
Qed.

(** ** [yum_clean] *)

Module YumFacts.

Lemma measurements_app (t : list call) (c : call) :
  measurements (t ++ [c])
  = measurements t + (if is_measurement c then 1 else 0).
Proof.
  unfold measurements. rewrite filter_app, length_app. simpl.
  destruct (is_measurement c); reflexivity.
Qed.

Lemma seen_app (t : list call) (c : call) :
  reads_and_measurements (t ++ [c])
  = (reads_and_measurements t
     ++ (if is_read_or_measurement c then [c] else []))%list.
Proof.
  unfold reads_and_measurements. rewrite filter_app. simpl.
  destruct (is_read_or_measurement c); reflexivity.
Qed.

Ltac measure :=
  repeat (rewrite measurements_app; cbn [is_measurement]);
  rewrite ?Nat.add_0_r.

Ltac measure_in H :=
  repeat (rewrite measurements_app in H; cbn [is_measurement] in H);
  rewrite ?Nat.add_0_r in H.

Ltac seen :=
  repeat (rewrite seen_app; cbn [is_read_or_measurement]);
  rewrite ?app_nil_r.

Ltac seen_in H :=
  repeat (rewrite seen_app in H; cbn [is_read_or_measurement] in H);
  rewrite ?app_nil_r in H.

(** The body of the loop on a line that is not fatal. *)
Lemma line_step (h : host) (line : string) (old_size : Z)
      (non_blank_line : string) (t : list call) :
  yum_fatal line = false ->
  exists t',
    yum_clean_line h line old_size non_blank_line t
    = (Ok (if yum_lock line then getsizedir h (measurements t) "/var/cache/yum"
           else old_size,
           keep_line non_blank_line line), t')
    /\ measurements t'
       = measurements t + (if yum_lock line then 1 else 0)
    /\ reads_and_measurements t'
       = (reads_and_measurements t
          ++ (if yum_lock line then [Call_getsizedir "/var/cache/yum"]
              else []))%list.
Proof.
  unfold yum_fatal, yum_clean_line, yum_lock, keep_line. intros Hfatal.
  apply orb_false_iff in Hfatal as [-> ->].
  destruct (Py.contains line "Another app is currently holding").
  - eexists. split; [|split].
    + unfold bind, do_print, do_getsizedir, perform, ret.
      measure. reflexivity.
    + measure. reflexivity.
    + seen. reflexivity.
  - exists t. split; [reflexivity | split; [lia | now rewrite app_nil_r]].
Qed.

Lemma line_fatal (h : host) (line : string) (old_size : Z)
      (non_blank_line : string) (t : list call) :
  yum_fatal line = true ->
  yum_clean_line h line old_size non_blank_line t
  = (Raise (RuntimeError (Str line)), t).
Proof.
  unfold yum_fatal, yum_clean_line. intros Hfatal.
  destruct (Py.contains line "You need to be root"); [reflexivity|].
  simpl in Hfatal. now rewrite Hfatal.
Qed.

Ltac lock_cases line :=
  unfold lock_count, turn_calls in *; cbn [filter flat_map length app] in *;
  destruct (yum_lock line); cbn [length app] in *.

(** The loop, when no line read is fatal. *)
Lemma loop_quiet (h : host) (p : pipe) :
  forall old_size non_blank_line t,
    (forall line, In line (lines_read p) -> yum_fatal line = false) ->
    exists t',
      yum_clean_loop h p old_size non_blank_line t
      = (Ok (baseline h (measurements t) old_size (lines_read p),
             fold_left keep_line (lines_read p) non_blank_line,
             returncode_seen p), t')
      /\ measurements t' = measurements t + lock_count (lines_read p)
      /\ reads_and_measurements t'
         = (reads_and_measurements t
            ++ flat_map turn_calls (lines_read p))%list.
Proof.
  induction p as [raw status rest IH | rest IH | returncode];
    intros old_size non_blank_line t Hquiet;
    cbn [yum_clean_loop lines_read returncode_seen];
    unfold bind at 1; unfold do_readline, perform; cbn [readline];
    cbv beta iota zeta; unfold bind at 1.
  - set (line := Py.remove_char Py.nl raw) in *.
    destruct (line_step h line old_size non_blank_line
                        (t ++ [Call_readline])%list)
      as (t1 & Hstep & Hm1 & Hs1).
    { apply Hquiet. now left. }
    measure_in Hm1. seen_in Hs1. rewrite <- ?app_assoc in Hs1.
    revert Hstep. measure. intros ->. cbv beta iota.
    assert (Hrest : (EmptyString =? line) = false \/ status = None ->
                    forall l, In l (lines_read rest) -> yum_fatal l = false).
    { intros Hcase l Hl. apply Hquiet. cbn [lines_read]. fold line. right.
      destruct Hcase as [-> | ->]; [exact Hl|].
      now rewrite andb_false_r. }
    unfold bind at 1, empty_and_exited, do_poll, perform, ret. cbn [poll].
    destruct (EmptyString =? line) eqn:Hempty;
      [destruct status as [rc|]|]; cbn [andb is_some]; cbv beta iota.
    + eexists. split; [cbn [baseline fold_left];
                       destruct (yum_lock line); reflexivity|].
      split; [measure | seen; rewrite Hs1]; lock_cases line;
        rewrite ?app_nil_r; try reflexivity; lia.
    + destruct (IH (if yum_lock line
                    then getsizedir h (measurements t) "/var/cache/yum"
                    else old_size)
                   (keep_line non_blank_line line)
                   (t1 ++ [Call_poll])%list) as (t2 & -> & Hm2 & Hs2).
      { apply Hrest. now right. }
      measure_in Hm2. seen_in Hs2. exists t2. split; [|split].
      * cbn [baseline fold_left]. measure. rewrite Hm1.
        destruct (yum_lock line);
          rewrite ?Nat.add_0_r, ?Nat.add_1_r; reflexivity.
      * lock_cases line; lia.
      * rewrite Hs2, Hs1. cbn [flat_map]. now rewrite <- !app_assoc.
    + destruct (IH (if yum_lock line
                    then getsizedir h (measurements t) "/var/cache/yum"
                    else old_size)
                   (keep_line non_blank_line line) t1)
        as (t2 & -> & Hm2 & Hs2).
      { apply Hrest. now left. }
      exists t2. split; [|split].
      * cbn [baseline fold_left]. rewrite Hm1.
        destruct (yum_lock line);
          rewrite ?Nat.add_0_r, ?Nat.add_1_r; reflexivity.
      * lock_cases line; lia.
      * rewrite Hs2, Hs1. cbn [flat_map]. now rewrite <- !app_assoc.
  - destruct (line_step h EmptyString old_size non_blank_line
                        (t ++ [Call_readline])%list)
      as (t1 & Hstep & Hm1 & Hs1); [reflexivity|].
    change (Py.remove_char Py.nl EmptyString) with EmptyString.
    measure_in Hm1. seen_in Hs1. rewrite <- ?app_assoc in Hs1.
    revert Hstep. measure. intros ->. cbv beta iota.
    change (yum_lock EmptyString) with false in *. cbv iota in *.
    rewrite ?Nat.add_0_r in Hm1.
    unfold bind at 1, empty_and_exited, do_poll, perform, ret. cbn [poll].
    change (EmptyString =? EmptyString) with true. cbv beta iota.
    destruct (IH old_size (keep_line non_blank_line EmptyString)
                 (t1 ++ [Call_poll])%list) as (t2 & -> & Hm2 & Hs2).
    { intros l Hl. apply Hquiet. now right. }
    measure_in Hm2. seen_in Hs2.
    exists t2. split; [measure; now rewrite Hm1|]. split.
    + rewrite Hm2, Hm1. unfold lock_count. simpl. lia.
    + rewrite Hs2, Hs1. cbn [flat_map]. unfold turn_calls at 2.
      change (yum_lock EmptyString) with false. cbv iota.
      now rewrite <- !app_assoc.
  - destruct (line_step h EmptyString old_size non_blank_line
                        (t ++ [Call_readline])%list)
      as (t1 & Hstep & Hm1 & Hs1); [reflexivity|].
    change (Py.remove_char Py.nl EmptyString) with EmptyString.
    measure_in Hm1. seen_in Hs1. rewrite <- ?app_assoc in Hs1.
    revert Hstep. measure. intros ->. cbv beta iota.
    change (yum_lock EmptyString) with false in *. cbv iota in *.
    rewrite ?Nat.add_0_r in Hm1.
    unfold bind at 1, empty_and_exited, do_poll, perform, ret. cbn [poll].
    change (EmptyString =? EmptyString) with true. cbv beta iota.
    eexists. split; [reflexivity|]. split.
    + measure. rewrite Hm1. unfold lock_count. simpl. lia.
    + seen. rewrite Hs1. cbn [flat_map]. unfold turn_calls.
      change (yum_lock EmptyString) with false. cbv iota.
      reflexivity.
Qed.

Lemma baseline_index (h : host) (lines : list string) :
  forall m,
    baseline h (S m) (getsizedir h m "/var/cache/yum") lines
    = getsizedir h (m + lock_count lines) "/var/cache/yum".
Proof.
  induction lines as [|line rest IH]; intros m; unfold lock_count; simpl.
  - now rewrite Nat.add_0_r.
  - destruct (yum_lock line); simpl.
    + rewrite IH. unfold lock_count. f_equal. lia.
    + apply IH.
Qed.

(** [yum_clean] when the guards pass and no line read is fatal. *)
Lemma run_quiet (h : host) :
  os_path_exists h "/var/run/yum.pid" = false ->
  exe_exists h "yum" = true ->
  let p := Popen h ["yum"; "--enablerepo=*"; "clean"; "all"] in
  let k := lock_count (lines_read p) in
  (forall line, In line (lines_read p) -> yum_fatal line = false) ->
  exists t,
    run (yum_clean h)
    = (if (returncode_seen p >? 0)%Z
       then Raise (RuntimeError (Str (last_long (lines_read p))))
       else Ok (getsizedir h k "/var/cache/yum"
                - getsizedir h (S k) "/var/cache/yum")%Z, t)
    /\ reads_and_measurements t
       = (Call_getsizedir "/var/cache/yum"
          :: flat_map turn_calls (lines_read p)
          ++ (if (returncode_seen p >? 0)%Z then []
              else [Call_getsizedir "/var/cache/yum"]))%list.
Proof.
  intros Hpid Hexe p k Hquiet.
  unfold run, yum_clean.
  unfold bind at 1. unfold do_os_path_exists at 1, perform at 1.
  rewrite Hpid. cbv iota.
  unfold bind at 1. unfold do_exe_exists at 1, perform at 1.
  rewrite Hexe. cbn [negb]. cbv iota.
  unfold bind at 1. unfold do_getsizedir at 1.
  unfold bind at 1. unfold do_Popen at 1, perform at 1. fold p.
  unfold bind at 1.
  match goal with
  | |- context [yum_clean_loop h p ?old ?nb ?t] =>
      destruct (loop_quiet h p old nb t Hquiet) as (t1 & -> & Hm1 & Hs1)
  end.
  change (measurements ([] ++ [Call_os_path_exists "/var/run/yum.pid"]
                           ++ [Call_exe_exists "yum"])) with 0.
  change (measurements _) with 1 in Hm1 at 2.
  change (reads_and_measurements _)
    with [Call_getsizedir "/var/cache/yum"] in Hs1 at 2.
  change (baseline h _ _ (lines_read p))
    with (baseline h 1 (getsizedir h 0 "/var/cache/yum") (lines_read p)).
  rewrite baseline_index. cbn [Nat.add]. fold k. fold k in Hm1.
  unfold bind at 1. unfold do_print at 1, perform at 1.
  change (fold_left keep_line (lines_read p) EmptyString)
    with (last_long (lines_read p)).
  destruct (returncode_seen p >? 0)%Z.
  - eexists. split; [reflexivity|]. seen. rewrite Hs1, ?app_nil_r.
    reflexivity.
  - unfold bind, do_getsizedir, ret. measure. rewrite Hm1.
    eexists. split; [reflexivity|]. seen. rewrite Hs1.
    now rewrite <- app_assoc.
Qed.

End YumFacts.

(** C10.  When the file /var/run/yum.pid exists, [yum_clean] raises the
    error that Yum is running, and the test of that file is the only call
    it has made: the executable is not looked up, no directory is
    measured, and no child process is started. *)
Theorem yum_clean_pid_guard (h : host) :
  os_path_exists h "/var/run/yum.pid" = true ->
  run (yum_clean h)
  = (Raise (RuntimeError
              (Tr "%s cannot be cleaned because it is currently running.  Close it, and try again."
                  "Yum")),
     [Call_os_path_exists "/var/run/yum.pid"]).
Proof.
  intros Hpid. unfold run, yum_clean, bind, do_os_path_exists, perform.
  now rewrite Hpid.
Qed.

(** C10 at a host where the pid file exists. *)
Lemma yum_clean_pid_guard_witness :
  run (yum_clean (example_host true (Eof_exited 0)))
  = (Raise (RuntimeError
              (Tr "%s cannot be cleaned because it is currently running.  Close it, and try again."
                  "Yum")),
     [Call_os_path_exists "/var/run/yum.pid"]).
Proof. apply yum_clean_pid_guard. reflexivity. Defined.

Module YumRecord.







End YumRecord.




(** C4, as amended.  For [yum_clean]: when the guards pass, no line read
    is fatal and the return code seen at the end of the loop is above
    zero, it raises the error that carries the last line read that is
    longer than two characters, the empty string when there is none.
    [apt_autoclean] does not look at the return code: its result is the
    same whatever codes the child reports. *)
Theorem exit_status_check :
  (forall h : host,
      os_path_exists h "/var/run/yum.pid" = false ->
      exe_exists h "yum" = true ->
      let p := Popen h ["yum"; "--enablerepo=*"; "clean"; "all"] in
      (forall line, In line (lines_read p) -> yum_fatal line = false) ->
      (0 < returncode_seen p)%Z ->
      fst (run (yum_clean h))
      = Raise (RuntimeError (Str (last_long (lines_read p)))))
  /\ (forall (h : host) (f : Z -> Z),
         fst (run (apt_autoclean (recode_host f h)))
         = fst (run (apt_autoclean h))).
Proof.
  split.
  - intros h Hpid Hexe p Hquiet Hrc.
    destruct (YumFacts.run_quiet h Hpid Hexe Hquiet) as (t & -> & _).
    fold p.
    assert (Hgt : (returncode_seen p >? 0)%Z = true)
      by (rewrite Z.gtb_ltb; apply Z.ltb_lt; exact Hrc).
    now rewrite Hgt.
  - intros h f. destruct (exe_exists h "apt-get") eqn:Hexe.
    + rewrite !AptFacts.run_fold by exact Hexe.
      cbn [recode_host Popen].
      now rewrite AptFacts.lines_read_recode, AptFacts.fold_recode.
    + unfold run, apt_autoclean, bind, do_exe_exists, perform.
      cbn [recode_host exe_exists]. now rewrite Hexe.
Qed.

(** C4 at a concrete stream: the return code is 1, and the last line,
    ok, is too short to be kept; and [apt_autoclean] with the return code
    1 in place of 0. *)
Lemma exit_status_check_witness :
  fst (run (yum_clean
              (example_host false
                 (Line (ln "Loaded plugins") None
                    (Line (ln "Error: cannot clean") None
                       (Line (ln "ok") None (Eof_running (Eof_exited 1))))))))
  = Raise (RuntimeError (Str "Error: cannot clean"))
  /\ fst (run (apt_autoclean
                 (recode_host (fun _ => 1%Z)
                    (example_host false
                       (Line (ln "Del foo 1.0 [1165kB]") None
                          (Eof_exited 0))))))
     = Ok 1165000%Z.
Proof.
  split.
  - apply (proj1 exit_status_check
             (example_host false
                (Line (ln "Loaded plugins") None
                   (Line (ln "Error: cannot clean") None
                      (Line (ln "ok") None (Eof_running (Eof_exited 1)))))));
      [reflexivity | reflexivity | each_line | reflexivity].
  - rewrite (proj2 exit_status_check). reflexivity.
Defined.

(** The claim C4 as it was stated fails for [apt_autoclean]: with the
    return code 1 and no fatal line it returns a total.  And what
    [yum_clean] reports is not always the last line that is not blank: the
    line ok is passed over. *)
Lemma apt_autoclean_ignores_exit_status :
  let h := example_host false
             (Line (ln "Reading package lists...") None (Eof_exited 1)) in
  well_formed (Popen h ["apt-get"; "autoclean"]) = true
  /\ returncode_seen (Popen h ["apt-get"; "autoclean"]) = 1%Z
  /\ (forall line,
        In line (lines_read (Popen h ["apt-get"; "autoclean"])) ->
        apt_fatal line = false)
  /\ fst (run (apt_autoclean h)) = Ok 0%Z
  /\ fst (run (yum_clean
                 (example_host false
                    (Line (ln "Error: cannot clean") None
                       (Line (ln "ok") None (Eof_exited 1))))))
     = Raise (RuntimeError (Str "Error: cannot clean")).
Proof.
  split; [reflexivity|]. split; [reflexivity|]. split; [each_line|].
  split; reflexivity.
Qed.

(** ** Checks of the embedding on concrete inputs *)

Module Checks.

Example locale_with_newline :
  locale_to_language (ln "en") = Ok "en".
Proof. reflexivity. Qed.

Example locale_klingon : locale_to_language "klingon" = Ok "klingon".
Proof. reflexivity. Qed.

Example locale_digits :
  locale_to_language "123"
  = Raise (ValueError (Str "Invalid locale_code '123'")).
Proof. reflexivity. Qed.

Example locale_empty :
  locale_to_language EmptyString
  = Raise (ValueError (Str "Invalid locale_code ''")).
Proof. reflexivity. Qed.

Example locale_long_region :
  locale_to_language "en_USAAA"
  = Raise (ValueError (Str "Invalid locale_code 'en_USAAA'")).
Proof. reflexivity. Qed.

(** The greedy [.*] leaves the last bracket to the group. *)
Example del_last_bracket :
  size_token "Del foo [1kB] 1.0 [74.7MB]" = Some "74.7MB".
Proof. reflexivity. Qed.

Example del_not_at_start : size_token " Del foo 1.0 [1165kB]" = None.
Proof. reflexivity. Qed.

Example slice_prefix_postfix : Py.slice "foo_en.mo" 4 (Some 3) = "en".
Proof. reflexivity. Qed.

Example split_one_wildcard : Py.split "*" "foo_*.mo" = ["foo_"; ".mo"].
Proof. reflexivity. Qed.

Example basename_of_directory : Py.basename "/usr/share/locale/en/" = EmptyString.
Proof. reflexivity. Qed.

Example parser_fraction : spec_human_to_bytes "74.7MB" = Ok 74700000%Z.
Proof. reflexivity. Qed.

(** A rule with a filter and a child rule, on a small tree. *)
Example handle_path_nested :
  let fs :=
    {| os_path_isdir := fun path =>
         (path =? "/usr/share/") || (path =? "/usr/share/doc/");
       glob_iglob := fun pattern =>
         if pattern =? "/usr/share/locale_*.mo"
         then ["/usr/share/locale_de.mo"; "/usr/share/locale_xx9.mo"]
         else if pattern =? "/usr/share/doc/*"
         then ["/usr/share/doc/pt_BR"]
         else [] |} in
  handle_path fs EmptyString
    (Element "path" [("location", "/usr/share"); ("filter", "locale_*.mo")]
       [Text " "; Element "path" [("location", "doc")] []])
  = Gen [("de", "/usr/share/locale_de.mo"); ("pt", "/usr/share/doc/pt_BR")]
        None.
Proof. reflexivity. Qed.

(** The calls of a run of [yum_clean] with one lock message. *)
Example yum_clean_calls :
  snd (run (yum_clean
              (example_host false
                 (Line (ln "Another app is currently holding the yum lock")
                       None (Eof_exited 0)))))
  = [Call_os_path_exists "/var/run/yum.pid"; Call_exe_exists "yum";
     Call_getsizedir "/var/cache/yum";
     Call_Popen ["yum"; "--enablerepo=*"; "clean"; "all"];
     Call_readline;
     Call_print "debug: yum: '%s'"
                (VStr "Another app is currently holding the yum lock");
     Call_getsizedir "/var/cache/yum";
     Call_readline; Call_poll;
     Call_print "debug: yum process return code = %d" (VInt 0);
     Call_getsizedir "/var/cache/yum"].
Proof. reflexivity. Qed.

End Checks.

(* ================================================================== *)
(** * More properties *)
(* ================================================================== *)

(** ** What a successful match of [Re.rmatch] went through *)

Module ReRuns.
Import ReFacts.

(** Whatever the continuation, a success of the matcher is a walk followed
    by a success of the continuation. *)
Lemma rmatch_walk {A : Type} (r : Re.regex) :
  forall pos s c (k : nat -> string -> Re.caps -> option A) x,
    Re.rmatch r pos s c k = Some x ->
    exists pos' s' c', walk r pos s c pos' s' c' /\ k pos' s' c' = Some x.
Proof.
  induction r as [ | p | r1 IH1 r2 IH2 | r IH | r IH | i r IH | | ];
    intros pos s c k x H.
  - exists pos, s, c. split; [constructor | exact H].
  - simpl in H. destruct s as [|a s]; [discriminate|].
    destruct (p a) eqn:Hp; [|discriminate].
    exists (S pos), s, c. split; [now constructor | exact H].
  - rewrite cat_equation in H.
    apply IH1 in H as (pos1 & s1 & c1 & Hr1 & H).
    apply IH2 in H as (pos2 & s2 & c2 & Hr2 & H).
    exists pos2, s2, c2. split; [econstructor; eassumption | exact H].
  - rewrite opt_equation in H.
    destruct (Re.rmatch r pos s c k) as [y|] eqn:Hin.
    + injection H as ->. apply IH in Hin as (pos1 & s1 & c1 & Hr & Hk).
      exists pos1, s1, c1. split; [now apply walk_opt_in | exact Hk].
    + exists pos, s, c. split; [apply walk_opt_out | exact H].
  - rewrite star_equation in H.
    remember (Py.len s) as n eqn:Hn. clear Hn. revert pos s c H.
    induction n as [|n IHn]; intros pos s c H; simpl in H.
    + exists pos, s, c. split; [apply walk_star_out | exact H].
    + destruct (Re.rmatch r pos s c _) as [y|] eqn:Hin.
      * injection H as ->.
        apply IH in Hin as (pos1 & s1 & c1 & Hr & Hk).
        destruct (pos <? pos1)%nat; [|discriminate].
        apply IHn in Hk as (pos2 & s2 & c2 & Hr2 & Hk).
        exists pos2, s2, c2. split; [|exact Hk].
        eapply walk_star_in; eassumption.
      * exists pos, s, c. split; [apply walk_star_out | exact H].
  - rewrite group_equation in H.
    apply IH in H as (pos1 & s1 & c1 & Hr & H).
    eexists _, _, _. split; [apply walk_group; exact Hr | exact H].
  - simpl in H. destruct pos; [|discriminate].
    exists 0, s, c. split; [constructor | exact H].
  - simpl in H.
    destruct ((s =? "") || (s =? String Py.nl ""))%bool eqn:He; [|discriminate].
    exists pos, s, c. split; [|exact H]. constructor.
    apply orb_true_iff in He as [He|He]; apply String.eqb_eq in He; auto.
Qed.

Lemma len_append (u v : string) : Py.len (u ++ v) = Py.len u + Py.len v.
Proof. unfold Py.len. induction u; simpl; lia. Qed.

Lemma append_assoc (u v w : string) : (u ++ v) ++ w = u ++ v ++ w.
Proof. induction u; simpl; [reflexivity | now f_equal]. Qed.

(** A walk reads a prefix of what is ahead, and counts its characters. *)
Lemma walk_reads r pos s c pos' s' c' :
  walk r pos s c pos' s' c' ->
  exists w, s = w ++ s' /\ pos' = pos + Py.len w.
Proof.
  induction 1.
  - exists EmptyString. split; [reflexivity | simpl; lia].
  - exists (String a EmptyString). split; [reflexivity | simpl; lia].
  - destruct IHwalk1 as (w1 & -> & ->). destruct IHwalk2 as (w2 & -> & ->).
    exists (w1 ++ w2). split.
    + symmetry. apply append_assoc.
    + rewrite len_append. lia.
  - exact IHwalk.
  - exists EmptyString. split; [reflexivity | simpl; lia].
  - exists EmptyString. split; [reflexivity | simpl; lia].
  - destruct IHwalk1 as (w1 & -> & ->). destruct IHwalk2 as (w2 & -> & ->).
    exists (w1 ++ w2). split.
    + symmetry. apply append_assoc.
    + rewrite len_append. lia.
  - exact IHwalk.
  - exists EmptyString. split; [reflexivity | simpl; lia].
  - exists EmptyString. split; [reflexivity | simpl; lia].
Qed.

Lemma append_same_tail (u v t : string) : u ++ t = v ++ t -> u = v.
Proof.
  intros H.
  assert (Hlen : Py.len u = Py.len v).
  { apply (f_equal Py.len) in H. rewrite !len_append in H. lia. }
  revert v H Hlen. unfold Py.len.
  induction u as [|a u IH]; intros [|b v] H Hlen; simpl in *;
    try discriminate; [reflexivity|].
  injection H as -> H. f_equal. apply IH; [exact H | lia].
Qed.

Lemma take_append (w s : string) : Py.take (Py.len w) (w ++ s) = w.
Proof. induction w as [|a w IH]; simpl; [now destruct s | now f_equal]. Qed.

Lemma walk_cat_parts (r1 r2 : Re.regex) pos s c pos' s' c' :
  walk (Re.Cat r1 r2) pos s c pos' s' c' ->
  exists pos1 s1 c1,
    walk r1 pos s c pos1 s1 c1 /\ walk r2 pos1 s1 c1 pos' s' c'.
Proof. inversion 1; subst. eauto. Qed.

Lemma walk_class (p : ascii -> bool) pos s c pos' s' c' :
  walk (Re.Cls p) pos s c pos' s' c' ->
  exists a, s = String a s' /\ p a = true /\ c' = c.
Proof. inversion 1; subst. eauto. Qed.

(** A walk through a repeated class reads characters of the class and
    leaves the captures alone. *)
Lemma walk_star_class (p : ascii -> bool) pos s c pos' s' c' :
  walk (Re.Star (Re.Cls p)) pos s c pos' s' c' ->
  exists w, s = w ++ s' /\ all_in p w = true /\ c' = c.
Proof.
  remember (Re.Star (Re.Cls p)) as r eqn:Hr. intros H.
  induction H; try discriminate.
  - exists EmptyString. auto.
  - injection Hr as ->.
    apply walk_class in H as (a & -> & Ha & ->).
    destruct (IHwalk2 eq_refl) as (w & -> & Hw & ->).
    exists (String a w). simpl. rewrite Ha. auto.
Qed.

Lemma walk_upto_class (p : ascii -> bool) (n : nat) :
  forall pos s c pos' s' c',
    walk (Re.UpTo n (Re.Cls p)) pos s c pos' s' c' ->
    exists w, s = w ++ s' /\ all_in p w = true /\ Py.len w <= n /\ c' = c.
Proof.
  induction n as [|n IH]; intros pos s c pos' s' c' H; simpl in H.
  - inversion H; subst. exists EmptyString. simpl. auto.
  - inversion H as [ | | | r0 p0 s0 c0 p1 s1 c1 Hin | | | | | | ]; subst.
    + inversion Hin as [ | | r1 r2 p0 s0 c0 p1 s1 c1 p2 s2 c2 H1 H2
                         | | | | | | | ]; subst.
      apply walk_class in H1 as (a & -> & Ha & ->).
      apply IH in H2 as (w & -> & Hw & Hlen & ->).
      exists (String a w). simpl. rewrite Ha.
      unfold Py.len in *. simpl. repeat split; auto. lia.
    + exists EmptyString. simpl. repeat split; auto. unfold Py.len. simpl. lia.
Qed.

Lemma walk_rep_class (p : ascii -> bool) (m : nat) :
  forall n pos s c pos' s' c',
    walk (Re.Rep m n (Re.Cls p)) pos s c pos' s' c' ->
    exists w, s = w ++ s' /\ all_in p w = true
              /\ m <= Py.len w /\ Py.len w <= m + (n - m) /\ c' = c.
Proof.
  induction m as [|m IH]; intros n pos s c pos' s' c' H; simpl in H.
  - apply walk_upto_class in H as (w & -> & Hw & Hlen & ->).
    exists w. repeat split; auto; lia.
  - inversion H as [ | | r1 r2 p0 s0 c0 p1 s1 c1 p2 s2 c2 H1 H2
                     | | | | | | | ]; subst.
    apply walk_class in H1 as (a & -> & Ha & ->).
    apply IH in H2 as (w & -> & Hw & Hlo & Hhi & ->).
    exists (String a w). simpl. rewrite Ha.
    unfold Py.len in *. simpl. repeat split; auto; lia.
Qed.

(** What a group captures is what the walk inside it read. *)
Lemma walk_group_reads (i : nat) (r : Re.regex) pos s c pos' s' c' :
  walk (Re.Group i r) pos s c pos' s' c' ->
  exists w c1, s = w ++ s' /\ walk r pos s c pos' s' c1 /\ c' = (i, w) :: c1.
Proof.
  inversion 1 as [ | | | | | | | i0 r0 p0 s0 c0 p1 s1 c1 Hin | | ]; subst.
  destruct (walk_reads _ _ _ _ _ _ _ Hin) as (w & -> & ->).
  exists w, c1. repeat split; auto.
  replace (pos + Py.len w - pos) with (Py.len w) by lia.
  now rewrite take_append.
Qed.

Lemma walk_core pos s c pos' s' c' :
  walk core_group pos s c pos' s' c' ->
  exists w, s = w ++ s' /\ is_core w = true /\ c' = (1, w) :: c.
Proof.
  intros H. apply walk_group_reads in H as (w & c1 & Hs & H & ->).
  apply walk_rep_class in H as (w' & Hs' & Hw & Hlo & Hhi & ->).
  rewrite Hs in Hs'.
  apply append_same_tail in Hs' as <-.
  exists w. repeat split; auto.
  unfold is_core. rewrite Hw, andb_true_r.
  apply orb_true_iff.
  assert (Py.len w = 2 \/ Py.len w = 3) as [E|E] by lia; rewrite E; auto.
Qed.

(** A walk through an optional group other than the first reads nothing or
    what the group reads, and leaves group 1 alone. *)
Lemma walk_optional (i : nat) (r : Re.regex) pos s c pos' s' c' :
  Nat.eqb 1 i = false ->
  walk (Re.Opt (Re.Group i r)) pos s c pos' s' c' ->
  (s' = s /\ c' = c)
  \/ exists w c1, s = w ++ s' /\ walk r pos s c pos' s' c1
                  /\ Re.group c' 1 = Re.group c1 1.
Proof.
  intros Hi H.
  inversion H as [ | | | r0 p0 s0 c0 p1 s1 c1 Hin | | | | | | ]; subst.
  - right. apply walk_group_reads in Hin as (w & c1 & Hs & Hr & ->).
    exists w, c1. repeat split; auto. now apply LocaleShape.group_skip.
  - left. auto.
Qed.

Lemma walk_region pos s c pos' s' c' :
  walk (Re.Opt region_group) pos s c pos' s' c' ->
  exists w, s = w ++ s' /\ is_region w = true
            /\ Re.group c' 1 = Re.group c 1.
Proof.
  intros H. apply walk_optional in H as [[-> ->] | (w & c1 & Hs & H & Hc)];
    [exists EmptyString; auto | | reflexivity].
  inversion H as [ | | r1 r2 p0 s0 c0 p1 s1 c2 p2 s2 c3 H1 H2
                   | | | | | | | ]; subst.
  apply walk_class in H1 as (a & Ha & Hsep & ->).
  apply (walk_rep_class Py.is_alpha 2 4) in H2
    as (w' & -> & Hw & Hlo & Hhi & ->).
  change (String a (w' ++ s')) with (String a w' ++ s') in Ha.
  apply append_same_tail in Ha as ->.
  exists (String a w'). repeat split; auto.
  unfold is_region. rewrite Hsep, Hw.
  assert (H2 : (2 <=? Py.len w')%nat = true) by (apply Nat.leb_le; lia).
  assert (H4 : (Py.len w' <=? 4)%nat = true) by (apply Nat.leb_le; lia).
  rewrite H2, H4. reflexivity.
Qed.

Lemma walk_suffix (i : nat) (lead : ascii) (p : ascii -> bool)
      pos s c pos' s' c' :
  Nat.eqb 1 i = false ->
  walk (Re.Opt (suffix_group i lead p)) pos s c pos' s' c' ->
  exists w, s = w ++ s' /\ is_suffix lead p w = true
            /\ Re.group c' 1 = Re.group c 1.
Proof.
  intros Hi H.
  apply walk_optional in H as [[-> ->] | (w & c1 & Hs & H & Hc)];
    [exists EmptyString; auto | | exact Hi].
  inversion H as [ | | r1 r2 p0 s0 c0 p1 s1 c2 p2 s2 c3 H1 H2
                   | | | | | | | ]; subst.
  apply walk_class in H1 as (a & Ha & Hlead & ->).
  apply walk_star_class in H2 as (w' & -> & Hw & ->).
  change (String a (w' ++ s')) with (String a w' ++ s') in Ha.
  apply append_same_tail in Ha as ->.
  exists (String a w'). repeat split; auto.
  simpl. rewrite Hw, andb_true_r.
  apply Ascii.eqb_eq in Hlead. subst a. apply Ascii.eqb_refl.
Qed.

End ReRuns.

(** ** The strings [locale_to_language] accepts *)

Module LocaleRuns.
Import ReFacts ReRuns LocaleShape.

(** A match of the pattern at the start of [s] shows the shape of [s]. *)
Lemma match_shape (s : string) (e : nat) (c : Re.caps) :
  Re.match_at locale_pattern s 0 = Some (e, c) ->
  exists core, locale_of core s /\ Re.group c 1 = Some core.
Proof.
  unfold Re.match_at. simpl Py.drop. intros H.
  apply rmatch_walk in H as (pos' & s' & c' & H & Hk).
  injection Hk as <- <-.
  unfold locale_pattern in H.
  apply walk_cat_parts in H as (p0 & s0 & c0 & Hbol & H).
  inversion Hbol; subst. clear Hbol.
  apply walk_cat_parts in H as (p1 & s1 & c1 & Hcore & H).
  apply walk_cat_parts in H as (p2 & s2 & c2 & Hregion & H).
  apply walk_cat_parts in H as (p3 & s3 & c3 & Henc & H).
  apply walk_cat_parts in H as (p4 & s4 & c4 & Hvar & Heol).
  apply walk_core in Hcore as (core & -> & Hc & ->).
  apply walk_region in Hregion as (region & -> & Hr & Hg3).
  apply (walk_suffix 3 "." alnum_dash) in Henc as (enc & -> & He & Hg5);
    [|reflexivity].
  apply (walk_suffix 4 "@" Py.is_alpha) in Hvar as (var & -> & Hv & Hg7);
    [|reflexivity].
  inversion Heol as [ | | | | | | | | | p0 s0 c0 Hend ]; subst.
  exists core. split.
  - exists region, enc, var, s'. repeat split; auto.
    unfold is_line_end. destruct Hend as [-> | ->]; reflexivity.
  - rewrite Hg7, Hg5, Hg3. reflexivity.
Qed.

Lemma line_end_outside (q : ascii -> bool) (eol : string) :
  is_line_end eol = true -> q Py.nl = false -> starts_outside q eol.
Proof.
  unfold is_line_end. intros H Hq.
  apply orb_true_iff in H as [H|H]; apply String.eqb_eq in H; subst eol;
    simpl; auto.
Qed.

(** The pattern matches every string of the shape, and its first group
    is the core. *)
Lemma shape_match (core region encoding variant eol : string) :
  is_core core = true -> is_region region = true ->
  is_encoding encoding = true -> is_variant variant = true ->
  is_line_end eol = true ->
  keeps core
        (Re.match_at locale_pattern
                     (core ++ region ++ encoding ++ variant ++ eol) 0).
Proof.
  intros Hcore Hregion Henc Hvar Heol.
  unfold Re.match_at, locale_pattern. simpl Py.drop.
  rewrite cat_equation, bol_equation, cat_equation.
  assert (Hl : forall q, q Py.nl = false -> starts_outside q eol)
    by (intros q; now apply line_end_outside).
  assert (Hv : forall q, q "@"%char = false -> q Py.nl = false ->
                         starts_outside q (variant ++ eol)).
  { intros q Hq Hn. apply (suffix_outside "@" Py.is_alpha); auto. }
  assert (He : forall q, q "@"%char = false -> q "."%char = false ->
                         q Py.nl = false ->
                         starts_outside q (encoding ++ variant ++ eol)).
  { intros q Hq1 Hq2 Hn. apply (suffix_outside "." alnum_dash); auto. }
  apply core_stage; [exact Hcore | |].
  { apply region_outside; [exact Hregion | apply separator_not_lower |].
    apply He; reflexivity. }
  intros pos1 c1 Hc1. rewrite cat_equation.
  apply region_stage; [exact Hregion | apply He; reflexivity
                      | apply He; reflexivity | | exact Hc1].
  intros pos2 c2 Hc2. rewrite cat_equation.
  apply (suffix_stage 3 "." alnum_dash);
    [reflexivity | exact Henc | apply Hv; reflexivity | apply Hv; reflexivity
     | | exact Hc2].
  intros pos3 c3 Hc3. rewrite cat_equation.
  apply (suffix_stage 4 "@" Py.is_alpha);
    [reflexivity | exact Hvar | apply Hl; reflexivity | apply Hl; reflexivity
     | | exact Hc3].
  intros pos4 c4 Hc4. simpl. fold (is_line_end eol). rewrite Heol.
  exists pos4, c4. auto.
Qed.

(** The pattern starts with a caret: it matches nowhere but at offset 0,
    so [findall] finds at most the match at the start. *)
Lemma no_later_match (s : string) (fuel pos : nat) :
  Re.findall_from locale_pattern s (S pos) fuel = [].
Proof.
  revert pos. induction fuel as [|fuel IH]; intros pos; [reflexivity|].
  cbn [Re.findall_from]. rewrite IH.
  destruct (Py.len s <? S pos)%nat; reflexivity.
Qed.

Lemma to_language_match (s : string) :
  locale_to_language s
  = if "klingon" =? s then Ok s
    else match Re.match_at locale_pattern s 0 with
         | Some (_, c) => Ok (Re.group_text c 1)
         | None => Raise (ValueError
                            (Str ("Invalid locale_code '" ++ s ++ "'")))
         end.
Proof.
  unfold locale_to_language. destruct ("klingon" =? s); [reflexivity|].
  unfold Re.findall. cbn [Re.findall_from]. rewrite no_later_match.
  change (Py.len s <? 0)%nat with false. cbv iota.
  destruct (Re.match_at locale_pattern s 0) as [[e c]|]; reflexivity.
Qed.

Lemma shape_not_klingon (core s : string) :
  locale_of core s -> ("klingon" =? s) = false.
Proof.
  intros (region & enc & var & eol & Hc & Hr & He & Hv & Hl & ->).
  apply not_klingon; [exact Hc|].
  apply region_outside; [exact Hr | apply separator_not_lower |].
  apply (suffix_outside "." alnum_dash); [exact He | reflexivity |].
  apply (suffix_outside "@" Py.is_alpha); [exact Hv | reflexivity |].
  now apply line_end_outside.
Qed.

Lemma accepted (s l : string) :
  locale_to_language s = Ok l <->
  (s = "klingon" /\ l = "klingon") \/ locale_of l s.
Proof.
  rewrite to_language_match. split.
  - destruct ("klingon" =? s) eqn:Hk.
    + apply String.eqb_eq in Hk. subst s. intros [= <-]. now left.
    + destruct (Re.match_at locale_pattern s 0) as [[e c]|] eqn:Hm;
        [|discriminate].
      apply match_shape in Hm as (core & Hshape & Hg).
      unfold Re.group_text. rewrite Hg. intros [= <-]. now right.
  - intros [[-> ->] | Hshape]; [reflexivity|].
    rewrite (shape_not_klingon l s Hshape).
    destruct Hshape as (region & enc & var & eol & Hc & Hr & He & Hv & Hl & ->).
    destruct (shape_match l region enc var eol Hc Hr He Hv Hl)
      as (e & c & -> & Hg).
    unfold Re.group_text. now rewrite Hg.
Qed.

Lemma core_is_locale (l : string) : is_core l = true -> locale_of l l.
Proof.
  intros H. exists EmptyString, EmptyString, EmptyString, EmptyString.
  repeat split; auto. simpl. now rewrite append_empty_r.
Qed.

End LocaleRuns.

(** X1.  [locale_to_language] returns a language code exactly for the
    string klingon, which it returns as it is, and for the strings made of
    a core of two or three lowercase letters, the optional region,
    encoding and variant suffixes and, as the dollar sign of Python
    allows, one optional final newline; what it returns for them is the
    core. *)
Theorem locale_to_language_accepts (s l : string) :
  locale_to_language s = Ok l <->
  (s = "klingon" /\ l = "klingon") \/ locale_of l s.
Proof. apply LocaleRuns.accepted. Qed.

(** X2.  A language code that [locale_to_language] returns is a fixed
    point of it: normalising twice gives what normalising once gives. *)
Theorem locale_to_language_idempotent (s l : string) :
  locale_to_language s = Ok l -> locale_to_language l = Ok l.
Proof.
  intros H. apply LocaleRuns.accepted in H as [[_ ->] | H]; [reflexivity|].
  apply LocaleRuns.accepted. right. apply LocaleRuns.core_is_locale.
  now destruct H as (? & ? & ? & ? & ? & _).
Qed.

Lemma locale_to_language_idempotent_witness :
  locale_to_language "sr_RS.UTF-8@latin" = Ok "sr"
  /\ locale_to_language "sr" = Ok "sr".
Proof.
  split; [reflexivity|].
  apply (locale_to_language_idempotent "sr_RS.UTF-8@latin"). reflexivity.
Defined.

(** X3.  Every other string is refused: a string that is not klingon and
    is not of the shape makes [locale_to_language] raise ValueError, with
    a message that quotes the string. *)
Theorem locale_to_language_rejects (s : string) :
  s <> "klingon" -> (forall l, ~ locale_of l s) ->
  locale_to_language s
  = Raise (ValueError (Str ("Invalid locale_code '" ++ s ++ "'"))).
Proof.
  intros Hk Hshape. rewrite LocaleRuns.to_language_match.
  destruct ("klingon" =? s) eqn:E;
    [apply String.eqb_eq in E; now subst s|].
  destruct (Re.match_at locale_pattern s 0) as [[e c]|] eqn:Hm;
    [|reflexivity].
  apply LocaleRuns.match_shape in Hm as (core & H & _).
  now apply Hshape in H.
Qed.

Lemma locale_to_language_rejects_witness :
  locale_to_language "EN_us"
  = Raise (ValueError (Str "Invalid locale_code 'EN_us'")).
Proof.
  apply (locale_to_language_rejects "EN_us"); [discriminate|].
  intros l H.
  assert (Hok : locale_to_language "EN_us" = Ok l)
    by (apply LocaleRuns.accepted; now right).
  discriminate Hok.
Defined.

(** ** Rule trees *)

Module TreeFacts.

Section Induction.
Variable P : node -> Prop.
Hypothesis text_case : forall data, P (Text data).
Hypothesis comment_case : forall data, P (Comment data).
Hypothesis element_case :
  forall nodeName attributes childNodes,
    Forall P childNodes -> P (Element nodeName attributes childNodes).

(** Induction over a rule tree, with the property known of every child. *)
Fixpoint tree_ind (xmldata : node) : P xmldata :=
  match xmldata with
  | Text data => text_case data
  | Comment data => comment_case data
  | Element nodeName attributes childNodes =>
      element_case nodeName attributes childNodes
        ((fix all (children : list node) : Forall P children :=
            match children with
            | [] => Forall_nil P
            | child :: rest => Forall_cons child (tree_ind child) (all rest)
            end) childNodes)
  end.

End Induction.

Lemma in_then {A : Type} (g1 g2 : gen A) (y : A) :
  In y (yielded (g_then g1 g2)) -> In y (yielded g1) \/ In y (yielded g2).
Proof.
  unfold g_then. destruct (raised g1); simpl; [auto|].
  apply in_app_or.
Qed.

Lemma raised_then {A : Type} (g1 g2 : gen A) (e : exn) :
  raised (g_then g1 g2) = Some e -> raised g1 = Some e \/ raised g2 = Some e.
Proof.
  unfold g_then. destruct (raised g1) eqn:H; simpl; [|auto].
  rewrite H. auto.
Qed.

Lemma in_each {A B : Type} (body : A -> gen B) (xs : list A) (y : B) :
  In y (yielded (g_each body xs)) ->
  exists x, In x xs /\ In y (yielded (body x)).
Proof.
  induction xs as [|x xs IH]; simpl; [tauto|].
  intros H. apply in_then in H as [H|H]; [now exists x; auto|].
  destruct (IH H) as (x' & Hin & Hy). exists x'. auto.
Qed.

Lemma raised_each {A B : Type} (body : A -> gen B) (xs : list A) (e : exn) :
  raised (g_each body xs) = Some e ->
  exists x, In x xs /\ raised (body x) = Some e.
Proof.
  induction xs as [|x xs IH]; simpl; [discriminate|].
  intros H. apply raised_then in H as [H|H]; [now exists x; auto|].
  destruct (IH H) as (x' & Hin & Hy). exists x'. auto.
Qed.

(** A loop that yields again what it receives is the generator it reads. *)
Lemma for_yield {A B : Type} (g : gen (A * B)) :
  g_for g (fun '(a, b) => g_yield (a, b)) = g.
Proof.
  rewrite (GenFacts.for_ext _ (fun x => if true then g_yield (id x)
                                        else g_return))
    by (now intros [a b]).
  rewrite (GenFacts.for_select (fun _ => true) id).
  rewrite map_id.
  replace (filter (fun _ => true) (yielded g)) with (yielded g)
    by (induction (yielded g) as [|x xs IH]; simpl; [|rewrite <- IH]; auto).
  apply GenFacts.gen_eta.
Qed.

Lemma each_for_yield {N A B : Type} (source : N -> gen (A * B))
      (nodes : list N) :
  g_each (fun n => g_for (source n) (fun '(a, b) => g_yield (a, b))) nodes
  = g_each source nodes.
Proof. apply GenFacts.each_ext. intros n. apply for_yield. Qed.

(** [s.split(c)] has one part more than [c] occurs in [s]. *)
Lemma split_length (c : ascii) (s : string) :
  length (Py.split c s) = S (Py.count c s).
Proof.
  induction s as [|a s IH]; simpl; [reflexivity|].
  destruct (Ascii.eqb a c); simpl; [now rewrite IH|].
  destruct (Py.split c s) as [|p ps]; simpl in *; [discriminate | exact IH].
Qed.

Lemma entry_quiet (prefixlen : nat) (postfixlen : option nat)
      (subpath : string) :
  raised (entry prefixlen postfixlen subpath) = None.
Proof.
  unfold entry.
  rewrite LocaleRuns.to_language_match.
  destruct ("klingon" =? _); [reflexivity|].
  destruct (Re.match_at _ _ _) as [[e c]|]; reflexivity.
Qed.

Lemma entry_yields (prefixlen : nat) (postfixlen : option nat)
      (subpath : string) (y : string * string) :
  In y (yielded (entry prefixlen postfixlen subpath)) ->
  snd y = subpath
  /\ locale_to_language
       (Py.slice (Py.basename subpath) prefixlen postfixlen) = Ok (fst y).
Proof.
  unfold entry.
  destruct (locale_to_language _) as [locale | [msg | msg]]; simpl;
    try tauto.
  intros [<- | []]. auto.
Qed.

Lemma prefix_append (p x : string) : prefix p (p ++ x) = true.
Proof.
  induction p as [|a p IH]; simpl; [now destruct x|].
  destruct (ascii_dec a a); [exact IH | contradiction].
Qed.

Lemma prefix_trans (a b c : string) :
  prefix a b = true -> prefix b c = true -> prefix a c = true.
Proof.
  revert b c. induction a as [|x a IH]; intros [|y b] [|z c]; simpl;
    try discriminate; auto.
  destruct (ascii_dec x y) as [->|]; [|discriminate].
  destruct (ascii_dec y z) as [->|]; [|discriminate].
  apply IH.
Qed.

Lemma join_location_prefix (path location : string) :
  prefix path (join_location path location) = true.
Proof.
  unfold join_location. destruct (Py.endswith _ _).
  - apply prefix_append.
  - rewrite ReRuns.append_assoc. apply prefix_append.
Qed.

Lemma code_of_result (s l : string) :
  locale_to_language s = Ok l -> is_language_code l = true.
Proof.
  intros H. unfold is_language_code.
  apply LocaleRuns.accepted in H as [[_ ->] | H]; [reflexivity|].
  destruct H as (? & ? & ? & ? & -> & _). apply orb_true_r.
Qed.

Lemma listed_below (fs : filesystem) (path path' : string)
      (pair : string * string) :
  prefix path path' = true -> listed fs path' pair -> listed fs path pair.
Proof.
  intros Hp (Hc & Hl & pattern & Hpat & Hin).
  split; [exact Hc|]. split; [exact Hl|].
  exists pattern. split; [|exact Hin].
  unfold Py.startswith in *. now apply (prefix_trans path path').
Qed.

Lemma yields_listed (fs : filesystem) (xmldata : node) :
  forall path pair,
    In pair (yielded (handle_path fs path xmldata)) -> listed fs path pair.
Proof.
  induction xmldata as [data | data | nodeName attributes childNodes IH]
    using tree_ind; intros path pair; cbn [handle_path];
    try (simpl; tauto).
  destruct (negb ("path" =? nodeName)); [simpl; tauto|].
  destruct ("" =? getAttribute attributes "location"); [simpl; tauto|].
  set (dir := join_location path (getAttribute attributes "location")).
  destruct (negb (os_path_isdir fs dir)); [simpl; tauto|].
  set (userfilter :=
         if (getAttribute attributes "filter" =? "")
            && negb (hasChildNodes childNodes)
         then "*" else getAttribute attributes "filter").
  intros H. apply (listed_below fs path dir); [apply join_location_prefix|].
  apply in_then in H as [H|H].
  - destruct (negb (userfilter =? "")); [|simpl in H; tauto].
    destruct (negb (Nat.eqb 1 (Py.count "*" userfilter)));
      [simpl in H; tauto|].
    destruct (map Py.len (Py.split "*" userfilter))
      as [|prefixlen [|postfixlen [|]]]; try (simpl in H; tauto).
    apply (in_each (entry prefixlen _)) in H as (subpath & Hin & H).
    apply entry_yields in H as [Hsnd Hl].
    split; [exact (code_of_result _ _ Hl)|].
    rewrite Hsnd. split; [eauto|].
    exists (dir ++ userfilter). split; [apply prefix_append | exact Hin].
  - rewrite each_for_yield in H.
    apply in_each in H as (child & Hin & H).
    rewrite Forall_forall in IH. exact (IH child Hin dir pair H).
Qed.

Lemma raises_runtime_error (fs : filesystem) (xmldata : node) (msg : text) :
  forall path, raised (handle_path fs path xmldata) <> Some (ValueError msg).
Proof.
  induction xmldata as [data | data | nodeName attributes childNodes IH]
    using tree_ind; intros path; cbn [handle_path];
    try discriminate.
  destruct (negb ("path" =? nodeName)); [discriminate|].
  destruct ("" =? getAttribute attributes "location"); [discriminate|].
  set (dir := join_location path (getAttribute attributes "location")).
  destruct (negb (os_path_isdir fs dir)); [discriminate|].
  set (userfilter :=
         if (getAttribute attributes "filter" =? "")
            && negb (hasChildNodes childNodes)
         then "*" else getAttribute attributes "filter").
  intros H. apply raised_then in H as [H|H].
  - destruct (negb (userfilter =? "")); [|discriminate].
    destruct (negb (Nat.eqb 1 (Py.count "*" userfilter))) eqn:Hcount;
      [discriminate|].
    apply negb_false_iff, Nat.eqb_eq in Hcount.
    pose proof (split_length "*" userfilter) as Hlen.
    rewrite <- Hcount, <- (length_map Py.len) in Hlen.
    destruct (map Py.len (Py.split "*" userfilter))
      as [|prefixlen [|postfixlen [|]]]; try discriminate.
    apply (raised_each (entry prefixlen _)) in H as (subpath & _ & H).
    now rewrite entry_quiet in H.
  - rewrite each_for_yield in H.
    apply raised_each in H as (child & Hin & H).
    rewrite Forall_forall in IH. exact (IH child Hin dir H).
Qed.

End TreeFacts.

(** X4.  Every pair that [Locales.handle_path] yields holds a language
    code, klingon or two or three lowercase letters, which is what
    [locale_to_language] returns for a slice of the base name of the path
    of the pair, and a path that [glob.iglob] gave for a pattern that
    starts with the path the evaluation started from. *)
Theorem handle_path_yields_language_codes
        (fs : filesystem) (path : string) (xmldata : node)
        (locale subpath : string) :
  In (locale, subpath) (yielded (handle_path fs path xmldata)) ->
  is_language_code locale = true
  /\ (exists prefixlen postfixlen,
         locale_to_language
           (Py.slice (Py.basename subpath) prefixlen postfixlen) = Ok locale)
  /\ (exists pattern,
         Py.startswith pattern path = true
         /\ In subpath (glob_iglob fs pattern)).
Proof. apply (TreeFacts.yields_listed fs xmldata path (locale, subpath)). Qed.

Lemma handle_path_yields_language_codes_witness :
  In ("fr", "/usr/share/locale/fr")
     (yielded (handle_path example_fs "" locale_rule))
  /\ is_language_code "fr" = true.
Proof.
  assert (H : In ("fr", "/usr/share/locale/fr")
                 (yielded (handle_path example_fs "" locale_rule)))
    by (vm_compute; auto).
  split; [exact H|].
  exact (proj1 (handle_path_yields_language_codes
                  example_fs "" locale_rule "fr" "/usr/share/locale/fr" H)).
Defined.

(** X5.  [Locales.handle_path] never ends with a ValueError: the one of
    [locale_to_language] is caught for each entry, and a filter with one
    wildcard always splits in two parts, so the exceptions of rule
    evaluation are its RuntimeErrors only. *)
Theorem handle_path_no_value_error
        (fs : filesystem) (path : string) (xmldata : node) (msg : text) :
  raised (handle_path fs path xmldata) <> Some (ValueError msg).
Proof. apply TreeFacts.raises_runtime_error. Qed.

Module ChildFacts.

Lemma then_return_l {A : Type} (g : gen A) : g_then g_return g = g.
Proof. destruct g; reflexivity. Qed.

Lemma then_return_r {A : Type} (g : gen A) : g_then g g_return = g.
Proof.
  unfold g_then. destruct g as [ys [e|]]; simpl; [reflexivity|].
  now rewrite app_nil_r.
Qed.

Lemma then_assoc {A : Type} (g1 g2 g3 : gen A) :
  g_then (g_then g1 g2) g3 = g_then g1 (g_then g2 g3).
Proof.
  unfold g_then.
  destruct g1 as [y1 [e1|]], g2 as [y2 [e2|]]; simpl; try reflexivity.
  now rewrite app_assoc.
Qed.

Lemma each_app {A B : Type} (body : A -> gen B) (xs ys : list A) :
  g_each body (xs ++ ys) = g_then (g_each body xs) (g_each body ys).
Proof.
  induction xs as [|x xs IH]; simpl; [now rewrite then_return_l|].
  now rewrite IH, then_assoc.
Qed.

(** The nodes that are not elements add nothing to a loop over the
    children. *)
Lemma each_elements (fs : filesystem) (path : string) (children : list node) :
  g_each (handle_path fs path) (filter is_element children)
  = g_each (handle_path fs path) children.
Proof.
  induction children as [|child children IH]; [reflexivity|].
  destruct child; simpl; rewrite IH; try reflexivity;
    now rewrite then_return_l.
Qed.

Lemma filter_is_empty (userfilter : string) (children : list node) :
  userfilter <> "" \/ filter is_element children <> [] ->
  (userfilter =? "") && negb (hasChildNodes (filter is_element children))
  = (userfilter =? "") && negb (hasChildNodes children).
Proof.
  intros [H | H].
  - apply String.eqb_neq in H. now rewrite H.
  - destruct (filter is_element children) eqn:Hf; [congruence|].
    destruct children; [discriminate | reflexivity].
Qed.

End ChildFacts.

(** X6.  The text and the comments between the elements of a rule are
    skipped: a path element evaluates as the same element with only its
    element children, as long as it has a filter or an element child. *)
Theorem handle_path_skips_text
        (fs : filesystem) (path nodeName : string)
        (attributes : list (string * string)) (childNodes : list node) :
  getAttribute attributes "filter" <> ""
  \/ filter is_element childNodes <> [] ->
  handle_path fs path (Element nodeName attributes childNodes)
  = handle_path fs path
      (Element nodeName attributes (filter is_element childNodes)).
Proof.
  intros H. cbn [handle_path].
  rewrite (ChildFacts.filter_is_empty _ _ H).
  rewrite !TreeFacts.each_for_yield, ChildFacts.each_elements.
  reflexivity.
Qed.

(** X6 on a file system where the directories exist: the child between
    the text and the comment is evaluated and lists en and fr; and text
    below an element with a filter does not stop its listing. *)
Lemma handle_path_skips_text_witness :
  handle_path usr_fs ""
    (Element "path" [("location", "/usr")]
       [Text " ";
        Element "path" [("location", "share/locale")] [];
        Comment "c"])
  = handle_path usr_fs ""
      (Element "path" [("location", "/usr")]
         [Element "path" [("location", "share/locale")] []])
  /\ yielded (handle_path usr_fs ""
                (Element "path" [("location", "/usr")]
                   [Text " ";
                    Element "path" [("location", "share/locale")] [];
                    Comment "c"]))
     = [("en", "/usr/share/locale/en"); ("fr", "/usr/share/locale/fr")]
  /\ handle_path usr_fs ""
       (Element "path" [("location", "/usr/share/locale"); ("filter", "*")]
          [Text " "])
     = handle_path usr_fs ""
         (Element "path" [("location", "/usr/share/locale"); ("filter", "*")]
            [])
  /\ yielded (handle_path usr_fs ""
                (Element "path" [("location", "/usr/share/locale");
                                 ("filter", "*")]
                   [Text " "]))
     = [("en", "/usr/share/locale/en"); ("fr", "/usr/share/locale/fr")].
Proof.
  split; [|split; [reflexivity | split; [|reflexivity]]].
  - apply (handle_path_skips_text usr_fs "" "path"
             [("location", "/usr")]
             [Text " ";
              Element "path" [("location", "share/locale")] [];
              Comment "c"]).
    right. discriminate.
  - apply (handle_path_skips_text usr_fs "" "path"
             [("location", "/usr/share/locale"); ("filter", "*")]
             [Text " "]).
    left. discriminate.
Defined.

(** X7.  The default filter is for childless elements only: a path element
    without a filter whose children are all text or comments, and which has
    one at least, lists nothing, where the same element without children
    lists its whole directory. *)
Theorem handle_path_text_only_children
        (fs : filesystem) (path : string)
        (attributes : list (string * string)) (childNodes : list node) :
  getAttribute attributes "location" <> "" ->
  getAttribute attributes "filter" = "" ->
  childNodes <> [] ->
  filter is_element childNodes = [] ->
  handle_path fs path (Element "path" attributes childNodes) = g_return
  /\ handle_path fs path (Element "path" attributes [])
     = handle_path fs path
         (Element "path" (("filter", "*") :: attributes) []).
Proof.
  intros Hloc Hfilter Hsome Hnone. split.
  - cbn [handle_path]. change (negb ("path" =? "path")) with false. cbv iota.
    apply String.eqb_neq in Hloc. rewrite String.eqb_sym in Hloc.
    rewrite Hloc, Hfilter.
    destruct (negb (os_path_isdir fs _)); [reflexivity|].
    destruct childNodes as [|child rest]; [congruence|].
    cbn [hasChildNodes negb andb String.eqb]. cbv iota.
    rewrite TreeFacts.each_for_yield, <- ChildFacts.each_elements, Hnone.
    reflexivity.
  - cbn [handle_path getAttribute]. rewrite Hfilter.
    change ("filter" =? "location") with false.
    change ("filter" =? "filter") with true. reflexivity.
Qed.

Lemma handle_path_text_only_children_witness :
  handle_path example_fs ""
    (Element "path" [("location", "/usr/share/locale")] [Text " "])
  = g_return
  /\ yielded (handle_path example_fs ""
                (Element "path" [("location", "/usr/share/locale")] []))
     = [("en", "/usr/share/locale/en"); ("fr", "/usr/share/locale/fr")].
Proof.
  split; [|reflexivity].
  apply (handle_path_text_only_children example_fs ""
           [("location", "/usr/share/locale")] [Text " "]);
    [discriminate | reflexivity | discriminate | reflexivity].
Defined.

Module SlashFacts.

Lemma endswith_last (s : string) (a : ascii) :
  Py.endswith (s ++ String a "") "/" = Ascii.eqb a "/".
Proof.
  unfold Py.endswith, Py.len.
  induction s as [|b s IH].
  - simpl. destruct (Ascii.eqb a "/"); reflexivity.
  - cbn [append String.length]. rewrite <- IH.
    destruct (String.length (s ++ String a "")) as [|n] eqn:Hn.
    + destruct s; discriminate.
    + cbn [String.length Nat.leb Nat.sub]. rewrite !Nat.sub_0_r.
      reflexivity.
Qed.

Lemma last_char (s : string) :
  s <> "" -> exists init a, s = init ++ String a "".
Proof.
  induction s as [|b s IH]; [congruence|]. intros _.
  destruct s as [|c s].
  - exists "", b. reflexivity.
  - destruct IH as (init & a & Hs); [discriminate|].
    exists (String b init), a. simpl. now rewrite <- Hs.
Qed.

(** The directory of a rule node is the same with and without a slash at
    the end of the location. *)
Lemma join_location_slash (path location : string) :
  location <> "" -> Py.endswith location "/" = false ->
  join_location path (location ++ "/") = join_location path location.
Proof.
  intros Hne Hend. unfold join_location.
  destruct (last_char location Hne) as (init & a & ->).
  rewrite endswith_last in Hend.
  rewrite <- !ReRuns.append_assoc.
  rewrite (endswith_last ((path ++ init) ++ String a "") "/").
  rewrite (endswith_last (path ++ init) a), Hend.
  reflexivity.
Qed.

Lemma join_location_ends (path location : string) :
  Py.endswith (join_location path location) "/" = true.
Proof.
  unfold join_location.
  destruct (Py.endswith (path ++ location) "/") eqn:H; [exact H|].
  apply endswith_last.
Qed.

End SlashFacts.

(** X8.  A slash at the end of a location changes nothing: two path
    elements with the same filter and the same children, the location of
    one being the location of the other with a slash added, evaluate the
    same. *)
Theorem handle_path_trailing_slash
        (fs : filesystem) (path : string)
        (attributes1 attributes2 : list (string * string))
        (childNodes : list node) :
  getAttribute attributes1 "location" <> "" ->
  Py.endswith (getAttribute attributes1 "location") "/" = false ->
  getAttribute attributes2 "location"
  = getAttribute attributes1 "location" ++ "/" ->
  getAttribute attributes2 "filter" = getAttribute attributes1 "filter" ->
  handle_path fs path (Element "path" attributes2 childNodes)
  = handle_path fs path (Element "path" attributes1 childNodes).
Proof.
  intros Hne Hend Hloc Hfilter. cbn [handle_path].
  rewrite Hloc, Hfilter, SlashFacts.join_location_slash by assumption.
  assert (H1 : ("" =? getAttribute attributes1 "location") = false)
    by (apply String.eqb_neq; congruence).
  assert (H2 : ("" =? getAttribute attributes1 "location" ++ "/") = false).
  { apply String.eqb_neq.
    destruct (getAttribute attributes1 "location"); discriminate. }
  rewrite H1, H2. reflexivity.
Qed.

Lemma handle_path_trailing_slash_witness :
  handle_path example_fs ""
    (Element "path" [("location", "/usr/share/locale/")] [])
  = handle_path example_fs "" locale_rule
  /\ yielded (handle_path example_fs "" locale_rule)
     = [("en", "/usr/share/locale/en"); ("fr", "/usr/share/locale/fr")].
Proof.
  split; [|reflexivity].
  apply (handle_path_trailing_slash example_fs ""
           [("location", "/usr/share/locale")]
           [("location", "/usr/share/locale/")] []);
    [discriminate | reflexivity | reflexivity | reflexivity].
Defined.

(** ** Rule evaluation at any depth *)

Module Depth.

Lemma raised_then_l {A : Type} (g1 g2 : gen A) (e : exn) :
  raised g1 = Some e -> raised (g_then g1 g2) = Some e.
Proof. intros H. unfold g_then. now rewrite H. Qed.

Lemma raised_then_r {A : Type} (g1 g2 : gen A) :
  raised g1 = None -> raised (g_then g1 g2) = raised g2.
Proof. intros H. unfold g_then. now rewrite H. Qed.

Lemma each_quiet {A B : Type} (body : A -> gen B) (xs : list A) :
  (forall x, In x xs -> raised (body x) = None) ->
  raised (g_each body xs) = None.
Proof.
  induction xs as [|x xs IH]; intros H; [reflexivity|].
  cbn [g_each]. rewrite raised_then_r by (apply H; now left).
  apply IH. intros y Hy. apply H. now right.
Qed.

(** The exception of a loop is that of the first turn that raises. *)
Lemma each_first {A B : Type} (body : A -> gen B)
      (before after : list A) (x : A) (e : exn) :
  (forall y, In y before -> raised (body y) = None) ->
  raised (body x) = Some e ->
  raised (g_each body (before ++ x :: after)) = Some e.
Proof.
  intros Hbefore Hx. rewrite ChildFacts.each_app.
  rewrite raised_then_r by now apply each_quiet.
  cbn [g_each]. now apply raised_then_l.
Qed.

(** The listing of a directory raises nothing when the element has
    children and no filter, or a filter with one wildcard. *)
Lemma listing_quiet (fs : filesystem) (dir userfilter : string) :
  userfilter = EmptyString \/ Py.count "*" userfilter = 1 ->
  raised
    (if negb (userfilter =? EmptyString) then
       if negb (Nat.eqb 1 (Py.count "*" userfilter)) then
         g_raise (RuntimeError
                    (Str (Py.percent_s
                            "Filter string '%s' must contain the placeholder * exactly once"
                            userfilter)))
       else
         match map Py.len (Py.split "*" userfilter) with
         | [prefixlen; postfixlen] =>
             let postfixlen :=
               if negb (Nat.eqb 0 postfixlen) then Some postfixlen
               else None in
             g_each
               (fun subpath =>
                  let filename := Py.basename subpath in
                  match locale_to_language
                          (Py.slice filename prefixlen postfixlen) with
                  | Raise (ValueError _) => g_return
                  | Raise e => g_raise e
                  | Ok locale => g_yield (locale, subpath)
                  end)
               (glob_iglob fs (dir ++ userfilter))
         | _ =>
             g_raise (ValueError (Str "need more than 1 value to unpack"))
         end
     else g_return)
  = None.
Proof.
  intros [-> | Hcount]; [reflexivity|].
  destruct (negb (userfilter =? EmptyString)); [|reflexivity].
  rewrite Hcount. cbn [Nat.eqb negb]. cbv iota.
  pose proof (TreeFacts.split_length "*" userfilter) as Hlen.
  rewrite Hcount, <- (length_map Py.len) in Hlen.
  destruct (map Py.len (Py.split "*" userfilter))
    as [|prefixlen [|postfixlen [|]]]; try discriminate.
  apply (each_quiet (entry prefixlen _)).
  intros subpath _. apply TreeFacts.entry_quiet.
Qed.

(** An exception raised in the tree leaves through the root, whatever
    was yielded before it. *)
Lemma visits_raises (fs : filesystem) (top : string) (root : node)
      (path : string) (xmldata : node) :
  visits fs top root path xmldata ->
  raised (handle_path fs path xmldata) <> None ->
  raised (handle_path fs top root) <> None.
Proof.
  induction 1 as [| top attributes childNodes child path xmldata
                    Hloc Hdir Hin _ IH]; intros Hraised; [exact Hraised|].
  apply (Propagation.handle_path_child_raises
           fs top attributes childNodes child Hloc Hdir Hin).
  now apply IH.
Qed.

(** And it is the exception of the root when nothing raises before. *)
Lemma first_raises (fs : filesystem) (top : string) (root : node)
      (path : string) (xmldata : node) (e : exn) :
  visits_first fs top root path xmldata ->
  raised (handle_path fs path xmldata) = Some e ->
  raised (handle_path fs top root) = Some e.
Proof.
  induction 1 as [| top attributes before child after path xmldata
                    Hloc Hdir Hfilter Hbefore _ IH]; intros Hraised;
    [exact Hraised|].
  rewrite handle_path_element by auto. cbv zeta.
  assert (Hchildren : hasChildNodes (before ++ child :: after) = true)
    by now destruct before.
  rewrite Hchildren, andb_false_r.
  rewrite raised_then_r by now apply listing_quiet.
  rewrite TreeFacts.each_for_yield.
  apply each_first; [exact Hbefore | now apply IH].
Qed.

Lemma first_visits (fs : filesystem) (top : string) (root : node)
      (path : string) (xmldata : node) :
  visits_first fs top root path xmldata -> visits fs top root path xmldata.
Proof.
  induction 1 as [| top attributes before child after path xmldata
                    Hloc Hdir _ _ _ IH]; [constructor|].
  apply (visits_child fs top attributes _ child); auto.
  apply in_or_app. right. now left.
Qed.

End Depth.

(** C7, as amended.  For a path element with a location whose directory
    exists and whose filter attribute is not empty and does not hold the
    wildcard exactly once, evaluation raises the error on the filter string
    before anything is yielded: no entry is listed and no child is
    visited.  Nothing catches it, at any depth: the evaluation of every
    tree that holds the element below path elements whose directories
    exist ends with an exception, whatever was yielded before; it ends
    with this very error when nothing raises on the way to the element;
    and the planner over registered trees ends with an exception when one
    of them holds the element so. *)
Theorem handle_path_malformed_filter
        (fs : filesystem) (path : string)
        (attributes : list (string * string)) (childNodes : list node) :
  getAttribute attributes "location" <> EmptyString ->
  os_path_isdir fs (join_location path (getAttribute attributes "location"))
  = true ->
  getAttribute attributes "filter" <> EmptyString ->
  Py.count "*" (getAttribute attributes "filter") <> 1 ->
  let xmldata := Element "path" attributes childNodes in
  let error :=
    RuntimeError
      (Str (Py.percent_s
              "Filter string '%s' must contain the placeholder * exactly once"
              (getAttribute attributes "filter"))) in
  handle_path fs path xmldata = g_raise error
  /\ (forall (top : string) (root : node),
         visits fs top root path xmldata ->
         raised (handle_path fs top root) <> None)
  /\ (forall (top : string) (root : node),
         visits_first fs top root path xmldata ->
         raised (handle_path fs top root) = Some error)
  /\ (forall (self : Locales) (locales_to_keep : list string) (root : node),
         In root (_paths self) ->
         visits fs EmptyString root path xmldata ->
         raised (localization_paths fs self locales_to_keep) <> None).
Proof.
  intros Hloc Hdir Hfilter Hcount xmldata error.
  assert (Hone : Nat.eqb 1 (Py.count "*" (getAttribute attributes "filter"))
                 = false) by (apply Nat.eqb_neq; congruence).
  assert (Hraise : handle_path fs path xmldata = g_raise error).
  { unfold xmldata. rewrite handle_path_element by auto. cbv zeta.
    apply String.eqb_neq in Hfilter. rewrite Hfilter.
    cbn [andb negb]. rewrite Hfilter, Hone. reflexivity. }
  split; [exact Hraise|]. split; [|split].
  - intros top root Hvisits.
    apply (Depth.visits_raises fs top root path xmldata Hvisits).
    rewrite Hraise. discriminate.
  - intros top root Hfirst.
    apply (Depth.first_raises fs top root path xmldata error Hfirst).
    now rewrite Hraise.
  - intros self locales_to_keep root Hin Hvisits.
    apply (Propagation.localization_paths_node_raises
             fs self locales_to_keep root Hin).
    apply (Depth.visits_raises fs EmptyString root path xmldata Hvisits).
    rewrite Hraise. discriminate.
Qed.

(** C7 at a concrete tree: the filter with two wildcards stands two
    levels down, below an element that lists two entries before its child
    is visited.  The two entries are yielded, and the error leaves through
    both levels and through the planner. *)
Lemma handle_path_malformed_filter_witness :
  handle_path share_fs "/usr/share/" two_wildcards_below
  = g_raise (RuntimeError
               (Str "Filter string '*/LC_MESSAGES/*.mo' must contain the placeholder * exactly once"))
  /\ handle_path share_fs EmptyString nested_rule
     = Gen [("doc", "/usr/share/doc"); ("man", "/usr/share/man")]
           (Some (RuntimeError
                    (Str "Filter string '*/LC_MESSAGES/*.mo' must contain the placeholder * exactly once")))
  /\ raised (localization_paths share_fs (add_xml locales nested_rule) ["en"])
     <> None.
Proof.
  pose proof (handle_path_malformed_filter
                share_fs "/usr/share/"
                [("location", "locale"); ("filter", "*/LC_MESSAGES/*.mo")] []
                ltac:(discriminate) eq_refl ltac:(discriminate)
                ltac:(vm_compute; discriminate))
    as (Hraise & _ & Hfirst & Hplanner).
  assert (Hvisits : visits_first share_fs EmptyString nested_rule
                                 "/usr/share/" two_wildcards_below).
  { apply (first_child share_fs EmptyString [("location", "/usr")]
                       [Text " "] _ []);
      [discriminate | reflexivity | now left | |].
    - intros sibling [<- | []]. reflexivity.
    - apply (first_child share_fs "/usr/"
                         [("location", "share"); ("filter", "*")]
                         [] two_wildcards_below []);
        [discriminate | reflexivity | now right | intros ? [] |].
      apply first_here. }
  split; [exact Hraise|]. split.
  - rewrite <- (GenFacts.gen_eta (handle_path share_fs "" nested_rule)).
    rewrite (Hfirst EmptyString nested_rule Hvisits). reflexivity.
  - apply (Hplanner (add_xml locales nested_rule) ["en"] nested_rule);
      [now left|].
    now apply Depth.first_visits.
Defined.

(** The claim C7 as it was stated fails on a directory that does not
    exist: the filter holds two wildcards, and nothing is raised. *)
Lemma handle_path_two_wildcards_no_directory :
  Py.count "*" "*/LC_MESSAGES/*.mo" = 2
  /\ raised (handle_path empty_fs EmptyString two_wildcard_rule) = None
  /\ yielded (handle_path empty_fs EmptyString two_wildcard_rule) = [].
Proof. repeat split. Qed.

(** ** More on the purge planner *)

Module PlanFacts.

Lemma planned_select (fs : filesystem) (self : Locales)
      (locales_to_keep : list string) :
  locales_to_keep <> [] ->
  localization_paths fs self locales_to_keep
  = Gen (map snd (filter (fun pair => is_purgeable self locales_to_keep (fst pair))
                         (yielded (discovered fs self))))
        (raised (discovered fs self)).
Proof.
  intros Hkeep. unfold localization_paths.
  destruct locales_to_keep as [|l keep]; [congruence|].
  unfold discovered.
  rewrite <- (GenFacts.each_for_select
                (fun pair => is_purgeable self (l :: keep) (fst pair)) snd
                (handle_path fs EmptyString) (_paths self)).
  apply GenFacts.each_ext. intros node.
  apply GenFacts.for_ext. intros [locale path]. cbn [fst snd].
  unfold is_purgeable. now rewrite MemFacts.mem_filter.
Qed.

Lemma discovered_codes (fs : filesystem) (self : Locales)
      (pair : string * string) :
  In pair (yielded (discovered fs self)) ->
  is_language_code (fst pair) = true.
Proof.
  intros H. apply TreeFacts.in_each in H as (xml_node & _ & H).
  now apply TreeFacts.yields_listed in H as [H _].
Qed.

Lemma mem_same (l : string) (keep1 keep2 : list string) :
  (In l keep1 <-> In l keep2) -> Py.mem l keep1 = Py.mem l keep2.
Proof.
  intros H. destruct (Py.mem l keep1) eqn:H1, (Py.mem l keep2) eqn:H2;
    try reflexivity.
  - apply MemFacts.mem_In, H, MemFacts.mem_In in H1. congruence.
  - apply MemFacts.mem_In, H, MemFacts.mem_In in H2. congruence.
Qed.

Lemma filter_same {A : Type} (f g : A -> bool) (xs : list A) :
  (forall x, In x xs -> f x = g x) -> filter f xs = filter g xs.
Proof.
  induction xs as [|x xs IH]; intros H; simpl; [reflexivity|].
  rewrite (H x) by apply in_eq.
  rewrite IH; [reflexivity|].
  intros y Hy. apply H. now right.
Qed.

End PlanFacts.

(** X9.  The planner reads the keep-set as a set of language codes: two
    keep-sets that hold the same language codes, klingon or two or three
    lowercase letters, give the same plan, whatever their order, their
    repetitions and their other members are.  A regional name such as
    en_GB in the keep-set protects nothing. *)
Theorem localization_paths_keep_codes
        (fs : filesystem) (self : Locales) (keep1 keep2 : list string) :
  keep1 <> [] -> keep2 <> [] ->
  (forall l, is_language_code l = true -> (In l keep1 <-> In l keep2)) ->
  localization_paths fs self keep1 = localization_paths fs self keep2.
Proof.
  intros H1 H2 Hsame.
  rewrite !PlanFacts.planned_select by assumption.
  f_equal. f_equal. apply PlanFacts.filter_same. intros pair Hin.
  unfold is_purgeable.
  rewrite (PlanFacts.mem_same (fst pair) keep1 keep2); [reflexivity|].
  apply Hsame. now apply (PlanFacts.discovered_codes fs self).
Qed.

Lemma localization_paths_keep_codes_witness :
  localization_paths example_fs example_locales ["en_GB"; "fr"; "fr"]
  = localization_paths example_fs example_locales ["fr"]
  /\ yielded (localization_paths example_fs example_locales ["fr"])
     = ["/usr/share/locale/en"].
Proof.
  split; [|reflexivity].
  apply (localization_paths_keep_codes example_fs example_locales
           ["en_GB"; "fr"; "fr"] ["fr"]); [discriminate | discriminate |].
  intros l Hl. simpl. split.
  - intros [<- | [<- | [<- | []]]]; [discriminate Hl | auto | auto].
  - intros [<- | []]. auto.
Defined.

(** X10.  Registering one more rule tree adds its plan after the plan of
    the trees registered before: the plan over the trees with the new one
    is the plan over the earlier trees and then, unless that one raised,
    the plan over the new tree alone. *)
Theorem add_xml_appends_plan
        (fs : filesystem) (self : Locales) (xml_node : node)
        (locales_to_keep : list string) :
  localization_paths fs (add_xml self xml_node) locales_to_keep
  = g_then (localization_paths fs self locales_to_keep)
           (localization_paths fs
              {| native_locale_names := native_locale_names self;
                 _paths := [xml_node] |}
              locales_to_keep).
Proof.
  unfold localization_paths.
  destruct locales_to_keep as [|l keep]; [reflexivity|].
  cbn [add_xml _paths native_locale_names].
  apply ChildFacts.each_app.
Qed.



(** ** [apt_autoremove] and the reading loop of the apt drivers *)

Module ScanFacts.

Section Folds.
Variable bytes_of : host -> string -> result Z.
Variable h : host.

Lemma fold_quiet (lines : list string) :
  (forall line, In line lines -> apt_fatal line = false) ->
  (forall line, In line lines -> accepted_by bytes_of h line = true) ->
  forall total_bytes,
    scan_fold bytes_of h lines total_bytes
    = Ok (total_bytes + scan_sum bytes_of h lines)%Z
    /\ scan_calls bytes_of h lines total_bytes = flat_map poll_turn lines.
Proof.
  induction lines as [|line rest IH]; intros Hfatal Hconv total_bytes.
  - simpl. now rewrite Z.add_0_r.
  - cbn [scan_fold scan_calls scan_sum flat_map]. unfold scan_step.
    rewrite (Hfatal line) by (now left).
    specialize (Hconv line (or_introl eq_refl)) as Hline.
    unfold accepted_by in Hline.
    destruct (bytes_of h line) as [n|e]; [|discriminate].
    destruct (IH (fun l Hl => Hfatal l (or_intror Hl))
                 (fun l Hl => Hconv l (or_intror Hl))
                 (total_bytes + n)%Z) as [-> ->].
    split; [now rewrite Z.add_assoc | reflexivity].
Qed.

Lemma fold_stops (before after : list string) (line : string) (e : exn) :
  (forall l, In l before -> apt_fatal l = false) ->
  (forall l, In l before -> accepted_by bytes_of h l = true) ->
  (forall total_bytes, scan_step bytes_of h line total_bytes = Raise e) ->
  forall total_bytes,
    scan_fold bytes_of h (before ++ line :: after) total_bytes = Raise e
    /\ scan_calls bytes_of h (before ++ line :: after) total_bytes
       = (flat_map poll_turn before ++ [Call_readline])%list.
Proof.
  induction before as [|l before IH]; intros Hfatal Hconv Hline total_bytes.
  - cbn [app scan_fold scan_calls flat_map]. now rewrite Hline.
  - cbn [app scan_fold scan_calls flat_map]. unfold scan_step at 1 2.
    rewrite (Hfatal l) by (now left).
    specialize (Hconv l (or_introl eq_refl)) as Hl.
    unfold accepted_by in Hl.
    destruct (bytes_of h l) as [n|e']; [|discriminate].
    destruct (IH (fun l Hl => Hfatal l (or_intror Hl))
                 (fun l Hl => Hconv l (or_intror Hl)) Hline
                 (total_bytes + n)%Z) as [-> ->].
    split; [reflexivity|]. unfold poll_turn. cbn [app].
    now rewrite <- app_assoc.
Qed.

Lemma fold_nonnegative (lines : list string) :
  (forall line n, bytes_of h line = Ok n -> (0 <= n)%Z) ->
  forall total_bytes total,
    (0 <= total_bytes)%Z ->
    scan_fold bytes_of h lines total_bytes = Ok total -> (0 <= total)%Z.
Proof.
  intros Hpos. induction lines as [|line rest IH];
    intros total_bytes total H0 H; simpl in H.
  - injection H as <-. exact H0.
  - unfold scan_step in H. destruct (apt_fatal line); [discriminate|].
    destruct (bytes_of h line) as [n|e] eqn:Hn; [|discriminate].
    apply (IH (total_bytes + n)%Z); [|exact H].
    specialize (Hpos line n Hn). lia.
Qed.

End Folds.

Lemma remove_line_step (h : host) (line : string) (total_bytes : Z)
      (t : list call) :
  apt_autoremove_line h line total_bytes t
  = (scan_step freed_bytes h line total_bytes, t).
Proof.
  unfold apt_autoremove_line, scan_step, apt_fatal, freed_bytes, freed_token.
  destruct (Py.startswith line "E: "); [reflexivity|].
  destruct (Re.search freed_pattern line) as [m|];
    [|unfold ret; now rewrite Z.add_0_r].
  unfold bind, do_human_to_bytes.
  destruct (human_to_bytes h (Py.upper (Re.group_text m 1))); reflexivity.
Qed.

Lemma clean_line_step (h : host) (line : string) (total_bytes : Z)
      (t : list call) :
  apt_autoclean_line h line total_bytes t
  = (scan_step line_bytes h line total_bytes, t).
Proof. apply AptFacts.apt_line_step. Qed.

(** One proof for the two loops: the turns of the loop are the scan of the
    lines read. *)
Ltac loop_run step IH :=
  unfold bind at 1; unfold do_readline, perform; cbn [readline];
  cbv beta iota zeta; cbn [Py.remove_char];
  unfold bind at 1; rewrite step;
  cbn [scan_fold scan_calls];
  match goal with
  | |- context [scan_step ?b ?h ?line ?total] =>
      destruct (scan_step b h line total) as [total'|e]
  end;
  [|reflexivity];
  unfold bind at 1, empty_and_exited, do_poll, perform, ret; cbn [poll];
  try match goal with
  | |- context [EmptyString =? Py.remove_char Py.nl ?raw] =>
      destruct (EmptyString =? Py.remove_char Py.nl raw)
  end;
  try match goal with
  | status : option Z |- _ => destruct status
  end;
  cbn [String.eqb andb is_some app]; cbv beta iota;
  rewrite ?IH, ?app_nil_r, <- ?app_assoc; reflexivity.

Lemma clean_loop_run (h : host) (p : pipe) :
  forall total_bytes t,
    apt_autoclean_loop h p total_bytes t
    = (scan_fold line_bytes h (lines_read p) total_bytes,
       (t ++ scan_calls line_bytes h (lines_read p) total_bytes)%list).
Proof.
  induction p as [raw status rest IH | rest IH | returncode];
    intros total_bytes t; cbn [apt_autoclean_loop lines_read];
    loop_run clean_line_step IH.
Qed.

Lemma remove_loop_run (h : host) (p : pipe) :
  forall total_bytes t,
    apt_autoremove_loop h p total_bytes t
    = (scan_fold freed_bytes h (lines_read p) total_bytes,
       (t ++ scan_calls freed_bytes h (lines_read p) total_bytes)%list).
Proof.
  induction p as [raw status rest IH | rest IH | returncode];
    intros total_bytes t; cbn [apt_autoremove_loop lines_read];
    loop_run remove_line_step IH.
Qed.

Lemma clean_run (h : host) :
  exe_exists h "apt-get" = true ->
  let lines := lines_read (Popen h ["apt-get"; "autoclean"]) in
  run (apt_autoclean h)
  = (scan_fold line_bytes h lines 0,
     Call_exe_exists "apt-get" :: Call_Popen ["apt-get"; "autoclean"]
     :: scan_calls line_bytes h lines 0).
Proof.
  intros Hexe lines.
  unfold run, apt_autoclean, bind, do_exe_exists, do_Popen, perform.
  rewrite Hexe. cbn [negb]. cbv iota. now rewrite clean_loop_run.
Qed.

Lemma remove_run (h : host) :
  exe_exists h "apt-get" = true ->
  let lines := lines_read (Popen h ["apt-get"; "--yes"; "autoremove"]) in
  run (apt_autoremove h)
  = (scan_fold freed_bytes h lines 0,
     Call_exe_exists "apt-get" :: Call_Popen ["apt-get"; "--yes"; "autoremove"]
     :: scan_calls freed_bytes h lines 0).
Proof.
  intros Hexe lines.
  unfold run, apt_autoremove, bind, do_exe_exists, do_Popen, perform.
  rewrite Hexe. cbn [negb]. cbv iota. now rewrite remove_loop_run.
Qed.

End ScanFacts.

(** X12.  [apt_autoremove] starts apt-get with the options --yes
    autoremove and, when no line read starts with the error prefix and the
    parser accepts every size token, returns the sum of the converted size
    tokens of the lines read that hold the freed-space message; it reads
    line after line and asks [poll] only after an empty line.  With the
    line of the comment in the source and a parser of the decimal
    convention the result is 74700000. *)
Theorem apt_autoremove_total :
  (forall (h : host) (status : option Z),
      exe_exists h "apt-get" = true ->
      human_to_bytes h "74.7MB" = Ok 74700000%Z ->
      Popen h ["apt-get"; "--yes"; "autoremove"]
      = Line (ln "After this operation, 74.7MB disk space will be freed.")
             status (Eof_exited 0) ->
      fst (run (apt_autoremove h)) = Ok 74700000%Z)
  /\ (forall h : host,
         exe_exists h "apt-get" = true ->
         let lines := lines_read (Popen h ["apt-get"; "--yes"; "autoremove"]) in
         (forall line, In line lines -> apt_fatal line = false) ->
         (forall line, In line lines -> accepted_by freed_bytes h line = true) ->
         run (apt_autoremove h)
         = (Ok (sum_freed h lines),
            Call_exe_exists "apt-get"
            :: Call_Popen ["apt-get"; "--yes"; "autoremove"]
            :: flat_map poll_turn lines)).
Proof.
  split.
  - intros h status Hexe Hparser Hpopen.
    rewrite ScanFacts.remove_run by exact Hexe. rewrite Hpopen.
    change (lines_read _)
      with ["After this operation, 74.7MB disk space will be freed.";
            EmptyString].
    cbn [fst scan_fold]. unfold scan_step.
    change (apt_fatal "After this operation, 74.7MB disk space will be freed.")
      with false.
    change (apt_fatal EmptyString) with false. cbv iota.
    change (freed_bytes h
              "After this operation, 74.7MB disk space will be freed.")
      with (human_to_bytes h "74.7MB").
    rewrite Hparser.
    change (freed_bytes h EmptyString) with (@Ok Z 0%Z).
    reflexivity.
  - intros h Hexe lines Hfatal Hconv.
    rewrite ScanFacts.remove_run by exact Hexe. fold lines.
    destruct (ScanFacts.fold_quiet freed_bytes h lines Hfatal Hconv 0%Z)
      as [-> ->].
    reflexivity.
Qed.

Lemma apt_autoremove_total_witness :
  fst (run (apt_autoremove
              (example_host false
                 (Line (ln "After this operation, 74.7MB disk space will be freed.")
                       None (Eof_exited 0)))))
  = Ok 74700000%Z
  /\ run (apt_autoremove
            (example_host false
               (Line (ln "Reading package lists...") None
                  (Line (ln "After this operation, 1.5kB disk space will be freed.")
                        None
                     (Eof_running (Eof_exited 0))))))
     = (Ok 1500%Z,
        [Call_exe_exists "apt-get";
         Call_Popen ["apt-get"; "--yes"; "autoremove"];
         Call_readline; Call_readline;
         Call_readline; Call_poll; Call_readline; Call_poll]).
Proof.
  split.
  - apply (proj1 apt_autoremove_total _ None); reflexivity.
  - rewrite (proj2 apt_autoremove_total);
      [reflexivity | reflexivity | |]; each_line.
Defined.

(** X13.  When [apt_autoremove] reads a line that starts with the error
    prefix, and before it no line read starts with the prefix and the
    parser accepts every size token, it raises the error that carries that
    line, and that read is the last call it makes: nothing more is read,
    and the total of the earlier lines is lost. *)
Theorem apt_autoremove_fatal_line
        (h : host) (before after : list string) (line : string) :
  exe_exists h "apt-get" = true ->
  lines_read (Popen h ["apt-get"; "--yes"; "autoremove"])
  = (before ++ line :: after)%list ->
  (forall l, In l before -> apt_fatal l = false) ->
  (forall l, In l before -> accepted_by freed_bytes h l = true) ->
  apt_fatal line = true ->
  run (apt_autoremove h)
  = (Raise (RuntimeError (Str line)),
     Call_exe_exists "apt-get"
     :: Call_Popen ["apt-get"; "--yes"; "autoremove"]
     :: (flat_map poll_turn before ++ [Call_readline])%list).
Proof.
  intros Hexe Hlines Hfatal Hconv Hline.
  rewrite ScanFacts.remove_run by exact Hexe. rewrite Hlines.
  assert (Hstep : forall total_bytes,
             scan_step freed_bytes h line total_bytes
             = Raise (RuntimeError (Str line)))
    by (intros total_bytes; unfold scan_step; now rewrite Hline).
  now destruct (ScanFacts.fold_stops freed_bytes h before after line
                  (RuntimeError (Str line)) Hfatal Hconv Hstep 0%Z)
    as [-> ->].
Qed.

Lemma apt_autoremove_fatal_line_witness :
  run (apt_autoremove
         (example_host false
            (Line (ln "After this operation, 1.5kB disk space will be freed.")
                  None
               (Line (ln "E: Could not get lock") None
                  (Line (ln "more") None (Eof_exited 100))))))
  = (Raise (RuntimeError (Str "E: Could not get lock")),
     [Call_exe_exists "apt-get";
      Call_Popen ["apt-get"; "--yes"; "autoremove"];
      Call_readline; Call_readline]).
Proof.
  apply (apt_autoremove_fatal_line _
           ["After this operation, 1.5kB disk space will be freed."]
           ["more"; EmptyString]);
    [reflexivity | reflexivity | each_line | each_line | reflexivity].
Defined.

(** X14.  The calls of a run of [apt_autoclean] that meets no error: the
    look-up of the executable, the start of apt-get autoclean, and then
    one read for each line read, followed by one [poll] exactly when the
    line is empty.  The state of the child is asked for at empty lines
    only, and nothing else is called. *)
Theorem apt_autoclean_calls (h : host) :
  exe_exists h "apt-get" = true ->
  let lines := lines_read (Popen h ["apt-get"; "autoclean"]) in
  (forall line, In line lines -> apt_fatal line = false) ->
  (forall line, In line lines -> converts h line = true) ->
  snd (run (apt_autoclean h))
  = Call_exe_exists "apt-get" :: Call_Popen ["apt-get"; "autoclean"]
    :: flat_map poll_turn lines.
Proof.
  intros Hexe lines Hfatal Hconv.
  rewrite ScanFacts.clean_run by exact Hexe. fold lines. cbn [snd].
  now destruct (ScanFacts.fold_quiet line_bytes h lines Hfatal Hconv 0%Z)
    as [_ ->].
Qed.

Lemma apt_autoclean_calls_witness :
  snd (run (apt_autoclean
              (example_host false
                 (Line (ln "Del a 1 [2kB]") None
                    (Line (ln EmptyString) None
                       (Line (ln "Del b 2 [1.5MB]") None
                          (Eof_exited 0)))))))
  = [Call_exe_exists "apt-get"; Call_Popen ["apt-get"; "autoclean"];
     Call_readline; Call_readline; Call_poll; Call_readline;
     Call_readline; Call_poll].
Proof.
  apply (apt_autoclean_calls
           (example_host false
              (Line (ln "Del a 1 [2kB]") None
                 (Line (ln EmptyString) None
                    (Line (ln "Del b 2 [1.5MB]") None (Eof_exited 0))))));
    [reflexivity | each_line | each_line].
Defined.

(** X15.  An exception of the size parser leaves [apt_autoclean] as it
    is: when the parser refuses the size token of a line read, and before
    it no line read starts with the error prefix or is refused, the run
    ends with the exception of the parser at the read of that line. *)
Theorem apt_autoclean_parser_error
        (h : host) (before after : list string) (line : string) (e : exn) :
  exe_exists h "apt-get" = true ->
  lines_read (Popen h ["apt-get"; "autoclean"])
  = (before ++ line :: after)%list ->
  (forall l, In l before -> apt_fatal l = false) ->
  (forall l, In l before -> converts h l = true) ->
  apt_fatal line = false ->
  line_bytes h line = Raise e ->
  run (apt_autoclean h)
  = (Raise e,
     Call_exe_exists "apt-get" :: Call_Popen ["apt-get"; "autoclean"]
     :: (flat_map poll_turn before ++ [Call_readline])%list).
Proof.
  intros Hexe Hlines Hfatal Hconv Hline He.
  rewrite ScanFacts.clean_run by exact Hexe. rewrite Hlines.
  assert (Hstep : forall total_bytes,
             scan_step line_bytes h line total_bytes = Raise e)
    by (intros total_bytes; unfold scan_step; now rewrite Hline, He).
  now destruct (ScanFacts.fold_stops line_bytes h before after line e
                  Hfatal Hconv Hstep 0%Z) as [-> ->].
Qed.

Lemma apt_autoclean_parser_error_witness :
  run (apt_autoclean
         (example_host false
            (Line (ln "Del a 1 [2kB]") None
               (Line (ln "Del b 2 [1.2.3xy]") None (Eof_exited 0)))))
  = (Raise (ValueError (Str "Invalid input for '1.2.3XY'")),
     [Call_exe_exists "apt-get"; Call_Popen ["apt-get"; "autoclean"];
      Call_readline; Call_readline]).
Proof.
  apply (apt_autoclean_parser_error _ ["Del a 1 [2kB]"] [EmptyString]
           "Del b 2 [1.2.3xy]");
    [reflexivity | reflexivity | each_line | each_line | reflexivity
     | reflexivity].
Defined.

(** X16.  With a size parser that returns no negative number, the totals
    that [apt_autoclean] and [apt_autoremove] return are not negative. *)
Theorem apt_totals_not_negative (h : host) (total : Z) :
  (forall token n, human_to_bytes h token = Ok n -> (0 <= n)%Z) ->
  fst (run (apt_autoclean h)) = Ok total
  \/ fst (run (apt_autoremove h)) = Ok total ->
  (0 <= total)%Z.
Proof.
  intros Hparser H.
  destruct (exe_exists h "apt-get") eqn:Hexe.
  - rewrite ScanFacts.clean_run, ScanFacts.remove_run in H by exact Hexe.
    cbn [fst] in H. destruct H as [H | H].
    + refine (ScanFacts.fold_nonnegative line_bytes h _ _ 0%Z total
                (Z.le_refl 0) H).
      intros line n. unfold line_bytes.
      destruct (size_token line); [apply Hparser | intros [= <-]; lia].
    + refine (ScanFacts.fold_nonnegative freed_bytes h _ _ 0%Z total
                (Z.le_refl 0) H).
      intros line n. unfold freed_bytes.
      destruct (freed_token line); [apply Hparser | intros [= <-]; lia].
  - unfold run, apt_autoclean, apt_autoremove, bind, do_exe_exists, perform
      in H.
    rewrite Hexe in H. destruct H; discriminate.
Qed.

(** X17.  The drivers start nothing when their executable is missing:
    [apt_autoclean] and [apt_autoremove] raise the error that apt-get was
    not found with the look-up as their only call, and [yum_clean], when
    the pid file is not there, raises it for yum after the test of the pid
    file and the look-up, before any measurement of the cache. *)
Theorem executable_not_found (h : host) :
  (exe_exists h "apt-get" = false ->
   run (apt_autoclean h)
   = (Raise (RuntimeError (Tr "Executable not found: %s" "apt-get")),
      [Call_exe_exists "apt-get"])
   /\ run (apt_autoremove h)
      = (Raise (RuntimeError (Tr "Executable not found: %s" "apt-get")),
         [Call_exe_exists "apt-get"]))
  /\ (os_path_exists h "/var/run/yum.pid" = false ->
      exe_exists h "yum" = false ->
      run (yum_clean h)
      = (Raise (RuntimeError (Tr "Executable not found: %s" "yum")),
         [Call_os_path_exists "/var/run/yum.pid"; Call_exe_exists "yum"])).
Proof.
  split.
  - intros Hexe.
    unfold run, apt_autoclean, apt_autoremove, bind, do_exe_exists, perform.
    rewrite Hexe. split; reflexivity.
  - intros Hpid Hexe.
    unfold run, yum_clean, bind, do_os_path_exists, do_exe_exists, perform.
    rewrite Hpid, Hexe. reflexivity.
Qed.

Lemma executable_not_found_witness :
  run (apt_autoremove (bare_host (Eof_exited 0)))
  = (Raise (RuntimeError (Tr "Executable not found: %s" "apt-get")),
     [Call_exe_exists "apt-get"])
  /\ run (yum_clean (bare_host (Eof_exited 0)))
     = (Raise (RuntimeError (Tr "Executable not found: %s" "yum")),
        [Call_os_path_exists "/var/run/yum.pid"; Call_exe_exists "yum"]).
Proof.
  split.
  - apply (proj1 (executable_not_found (bare_host (Eof_exited 0)))).
    reflexivity.
  - apply (proj2 (executable_not_found (bare_host (Eof_exited 0))));
      reflexivity.
Defined.

Lemma apt_totals_not_negative_witness :
  fst (run (apt_autoclean
              (five_host (Line (ln "Del a 1 [2kB]") None
                            (Line (ln "Del b 2 [1.5MB]") None
                               (Eof_exited 0))))))
  = Ok 10%Z
  /\ (0 <= 10)%Z.
Proof.
  assert (H : fst (run (apt_autoclean
                          (five_host (Line (ln "Del a 1 [2kB]") None
                                        (Line (ln "Del b 2 [1.5MB]") None
                                           (Eof_exited 0))))))
              = Ok 10%Z) by reflexivity.
  split; [exact H|].
  apply (apt_totals_not_negative
           (five_host (Line (ln "Del a 1 [2kB]") None
                         (Line (ln "Del b 2 [1.5MB]") None (Eof_exited 0))))
           10%Z).
  - intros token n [= <-]. lia.
  - left. exact H.
Defined.

(** ** More on [yum_clean] *)

Module YumFatal.
Import YumFacts.

(** The loop, when the first fatal line is read. *)
Lemma loop_fatal (h : host) (p : pipe) :
  forall before after line old_size non_blank_line t,
    lines_read p = (before ++ line :: after)%list ->
    (forall l, In l before -> yum_fatal l = false) ->
    yum_fatal line = true ->
    exists t',
      yum_clean_loop h p old_size non_blank_line t
      = (Raise (RuntimeError (Str line)), t')
      /\ reads_and_measurements t'
         = (reads_and_measurements t
            ++ flat_map turn_calls before ++ [Call_readline])%list.
Proof.
  induction p as [raw status rest IH | rest IH | returncode];
    intros before after line old_size non_blank_line t Hlines Hquiet Hline;
    cbn [yum_clean_loop]; cbn [lines_read] in Hlines; cbv zeta in Hlines;
    unfold bind at 1; unfold do_readline, perform; cbn [readline];
    cbv beta iota zeta; unfold bind at 1.
  - set (line0 := Py.remove_char Py.nl raw) in *.
    set (stop := (EmptyString =? line0) && is_some status) in Hlines.
    destruct before as [|b before]; simpl app in Hlines;
      injection Hlines as Hhead Htail.
    + rewrite Hhead, line_fatal by exact Hline.
      eexists. split; [reflexivity|]. seen. reflexivity.
    + destruct (line_step h line0 old_size non_blank_line
                          (t ++ [Call_readline])%list)
        as (t1 & -> & _ & Hs1).
      { rewrite Hhead. apply Hquiet. now left. }
      seen_in Hs1. cbv beta iota.
      unfold bind at 1, empty_and_exited, do_poll, perform, ret. cbn [poll].
      assert (Hq : forall l, In l before -> yum_fatal l = false)
        by (intros l Hl; apply Hquiet; now right).
      unfold stop in Htail.
      destruct (EmptyString =? line0) eqn:Hempty;
        [destruct status as [rc|]|]; cbn [andb is_some] in Htail;
        cbv beta iota.
      * destruct before; discriminate.
      * destruct (IH before after line
                     (if yum_lock line0
                      then getsizedir h (measurements (t ++ [Call_readline]))
                                      "/var/cache/yum"
                      else old_size)
                     (keep_line non_blank_line line0)
                     (t1 ++ [Call_poll])%list Htail Hq Hline)
          as (t2 & -> & Hs2).
        seen_in Hs2. exists t2. split; [reflexivity|].
        rewrite Hs2, Hs1, <- Hhead. cbn [flat_map]. unfold turn_calls at 2.
        now rewrite <- !app_assoc.
      * destruct (IH before after line
                     (if yum_lock line0
                      then getsizedir h (measurements (t ++ [Call_readline]))
                                      "/var/cache/yum"
                      else old_size)
                     (keep_line non_blank_line line0) t1 Htail Hq Hline)
          as (t2 & -> & Hs2).
        exists t2. split; [reflexivity|].
        rewrite Hs2, Hs1, <- Hhead. cbn [flat_map]. unfold turn_calls at 2.
        now rewrite <- !app_assoc.
  - destruct before as [|b before]; simpl app in Hlines;
      injection Hlines as Hhead Htail.
    + rewrite <- Hhead in Hline. discriminate.
    + change (Py.remove_char Py.nl EmptyString) with EmptyString.
      destruct (line_step h EmptyString old_size non_blank_line
                          (t ++ [Call_readline])%list)
        as (t1 & -> & _ & Hs1); [reflexivity|].
      seen_in Hs1. cbv beta iota.
      change (yum_lock EmptyString) with false in *. cbv iota in *.
      rewrite ?app_nil_r in Hs1.
      unfold bind at 1, empty_and_exited, do_poll, perform, ret. cbn [poll].
      change (EmptyString =? EmptyString) with true. cbv beta iota.
      destruct (IH before after line old_size
                   (keep_line non_blank_line EmptyString)
                   (t1 ++ [Call_poll])%list Htail
                   (fun l Hl => Hquiet l (or_intror Hl)) Hline)
        as (t2 & -> & Hs2).
      seen_in Hs2. exists t2. split; [reflexivity|].
      rewrite Hs2, Hs1, <- Hhead. cbn [flat_map]. unfold turn_calls at 2.
      change (yum_lock EmptyString) with false. cbv iota.
      now rewrite <- !app_assoc.
  - destruct before as [|b before]; simpl app in Hlines;
      injection Hlines as Hhead Htail.
    + rewrite <- Hhead in Hline. discriminate.
    + destruct before; discriminate.
Qed.

Lemma run_fatal (h : host) (before after : list string) (line : string) :
  os_path_exists h "/var/run/yum.pid" = false ->
  exe_exists h "yum" = true ->
  lines_read (Popen h ["yum"; "--enablerepo=*"; "clean"; "all"])
  = (before ++ line :: after)%list ->
  (forall l, In l before -> yum_fatal l = false) ->
  yum_fatal line = true ->
  exists t,
    run (yum_clean h) = (Raise (RuntimeError (Str line)), t)
    /\ reads_and_measurements t
       = (Call_getsizedir "/var/cache/yum"
          :: flat_map turn_calls before ++ [Call_readline])%list.
Proof.
  intros Hpid Hexe Hlines Hquiet Hline.
  unfold run, yum_clean.
  unfold bind at 1. unfold do_os_path_exists at 1, perform at 1.
  rewrite Hpid. cbv iota.
  unfold bind at 1. unfold do_exe_exists at 1, perform at 1.
  rewrite Hexe. cbn [negb]. cbv iota.
  unfold bind at 1. unfold do_getsizedir at 1.
  unfold bind at 1. unfold do_Popen at 1, perform at 1.
  unfold bind at 1.
  match goal with
  | |- context [yum_clean_loop h ?p ?old ?nb ?t] =>
      destruct (loop_fatal h p before after line old nb t
                  Hlines Hquiet Hline) as (t1 & -> & Hs1)
  end.
  exists t1. split; [reflexivity|]. rewrite Hs1. reflexivity.
Qed.

End YumFatal.

(** X18.  When [yum_clean] has passed its guards and reads a line that
    holds one of the two fatal messages, no fatal line having been read
    before, it raises the error that carries that line, whatever the
    return code of the child is and whether or not the line holds the lock
    message too.  The read of that line is the last one: nothing more is
    read, and the cache directory is not measured again. *)
Theorem yum_clean_fatal_line
        (h : host) (before after : list string) (line : string) :
  os_path_exists h "/var/run/yum.pid" = false ->
  exe_exists h "yum" = true ->
  lines_read (Popen h ["yum"; "--enablerepo=*"; "clean"; "all"])
  = (before ++ line :: after)%list ->
  (forall l, In l before -> yum_fatal l = false) ->
  yum_fatal line = true ->
  fst (run (yum_clean h)) = Raise (RuntimeError (Str line))
  /\ reads_and_measurements (snd (run (yum_clean h)))
     = (Call_getsizedir "/var/cache/yum"
        :: flat_map turn_calls before ++ [Call_readline])%list.
Proof.
  intros Hpid Hexe Hlines Hquiet Hline.
  destruct (YumFatal.run_fatal h before after line
              Hpid Hexe Hlines Hquiet Hline) as (t & -> & Hs).
  split; [reflexivity | exact Hs].
Qed.

Lemma yum_clean_fatal_line_witness :
  fst (run (yum_clean
              (example_host false
                 (Line (ln "Another app is currently holding the yum lock")
                       None
                    (Line (ln "Cannot remove rpmdb file /var/lib/rpm")
                          None
                       (Line (ln "more") None (Eof_exited 0)))))))
  = Raise (RuntimeError (Str "Cannot remove rpmdb file /var/lib/rpm"))
  /\ reads_and_measurements
       (snd (run (yum_clean
          (example_host false
             (Line (ln "Another app is currently holding the yum lock")
                   None
                (Line (ln "Cannot remove rpmdb file /var/lib/rpm")
                      None
                   (Line (ln "more") None (Eof_exited 0))))))))
     = [Call_getsizedir "/var/cache/yum"; Call_readline;
        Call_getsizedir "/var/cache/yum"; Call_readline].
Proof.
  apply (yum_clean_fatal_line _
           ["Another app is currently holding the yum lock"]
           ["more"; EmptyString]
           "Cannot remove rpmdb file /var/lib/rpm");
    [reflexivity | reflexivity | reflexivity | each_line | reflexivity].
Defined.

(** ** [wine_to_linux_path] *)

Module WineFacts.

Lemma prefix_one (c a : ascii) (s : string) :
  prefix (String c EmptyString) (String a s) = Ascii.eqb a c.
Proof.
  simpl. destruct (ascii_dec c a) as [->|Hne].
  - rewrite Ascii.eqb_refl. now destruct s.
  - symmetry. apply Ascii.eqb_neq. congruence.
Qed.

Lemma prefix_cons (a b : ascii) (s1 s2 : string) :
  prefix (String a s1) (String b s2)
  = if ascii_dec a b then prefix s1 s2 else false.
Proof. reflexivity. Qed.

(** Replacing one character by another is a map over the string. *)
Lemma replace_backslash (s : string) :
  replace s (String backslash EmptyString) "/" = slashed s.
Proof.
  unfold replace. change (String backslash "" =? "") with false. cbv iota.
  induction s as [|a s IH]; [reflexivity|].
  cbn [replace_from slashed]. rewrite prefix_one.
  change (Py.len (String backslash "") - 1) with 0.
  destruct (Ascii.eqb a backslash); simpl; now rewrite IH.
Qed.

(** Where [old] does not occur, nothing is replaced. *)
Lemma replace_absent (old new s : string) :
  Py.contains s old = false -> replace_from old new 0 s = s.
Proof.
  induction s as [|a s IH]; [reflexivity|].
  cbn [Py.contains replace_from]. intros H.
  apply orb_false_iff in H as [Hp Hc]. rewrite Hp. now rewrite IH.
Qed.

(** After an occurrence of a two-character [old], one character is
    passed over. *)
Lemma replace_drive (d : ascii) (new rest : string) :
  replace (String d (String ":" rest)) (String d ":") new
  = new ++ replace_from (String d ":") new 0 rest.
Proof.
  unfold replace. cbn [String.eqb]. cbv iota.
  cbn [replace_from prefix].
  destruct (ascii_dec d d) as [_|Hne]; [|contradiction].
  destruct (ascii_dec ":" ":") as [_|Hne]; [|contradiction].
  change (Py.len (String d ":") - 1) with 1.
  destruct rest; reflexivity.
Qed.

Lemma slashed_append (u v : string) :
  slashed (u ++ v) = slashed u ++ slashed v.
Proof. induction u as [|a u IH]; simpl; [reflexivity | now rewrite IH]. Qed.

Lemma slashed_free (s : string) : has_char backslash (slashed s) = false.
Proof.
  induction s as [|a s IH]; [reflexivity|]. cbn [slashed has_char].
  rewrite IH, orb_false_r.
  destruct (Ascii.eqb a backslash) eqn:Ha; [reflexivity | exact Ha].
Qed.

Lemma has_char_append (c : ascii) (u v : string) :
  has_char c (u ++ v) = has_char c u || has_char c v.
Proof.
  induction u as [|a u IH]; simpl; [reflexivity|].
  now rewrite IH, orb_assoc.
Qed.

Lemma join_separator (a b : string) :
  Py.startswith b "/" = false ->
  os_path_join a b = a ++ separator a ++ b.
Proof.
  intros H. unfold os_path_join, separator. rewrite H.
  destruct ((a =? "") || Py.endswith a "/"); reflexivity.
Qed.

Lemma join_absolute (a b : string) :
  os_path_join a (String "/" b) = String "/" b.
Proof.
  unfold os_path_join, Py.startswith. rewrite prefix_cons.
  destruct (ascii_dec "/" "/") as [_|Hne]; [|contradiction].
  now destruct b.
Qed.

Lemma lower_drive (d : ascii) :
  slashed ("drive_" ++ lower (String d EmptyString))
  = "drive_" ++ slashed (String (lower_char d) EmptyString).
Proof. reflexivity. Qed.

End WineFacts.

(** X19.  For a Windows pathname that starts with a drive letter and a
    colon, with no second drive prefix further on, [wine_to_linux_path]
    returns the Wine prefix, a slash unless the prefix is empty or ends
    with one, and then drive_, the drive letter in lower case and the rest
    of the pathname, with every backslash turned into a slash. *)
Theorem wine_to_linux_path_drive
        (wineprefix : string) (drive_letter : ascii) (rest : string) :
  Py.contains rest (String drive_letter ":") = false ->
  wine_to_linux_path wineprefix (String drive_letter (String ":" rest))
  = Returns (wineprefix ++ separator wineprefix ++ "drive_"
             ++ slashed (String (lower_char drive_letter) rest)).
Proof.
  intros Habsent. unfold wine_to_linux_path.
  rewrite WineFacts.replace_drive, WineFacts.replace_absent by exact Habsent.
  cbv zeta. rewrite WineFacts.replace_backslash, WineFacts.slashed_append.
  rewrite WineFacts.lower_drive.
  rewrite WineFacts.join_separator by reflexivity.
  reflexivity.
Qed.

Lemma wine_to_linux_path_drive_witness :
  wine_to_linux_path "/home/z/.wine"
                     (windows "C:/Program Files/foo/foo.exe")
  = Returns "/home/z/.wine/drive_c/Program Files/foo/foo.exe".
Proof.
  apply (wine_to_linux_path_drive "/home/z/.wine" "C"
           (windows "/Program Files/foo/foo.exe")).
  reflexivity.
Defined.

(** X20.  [wine_to_linux_path] raises IndexError on the empty pathname.
    On a pathname that starts with a slash or a backslash not followed by
    a colon, such as a network share, it returns a path that starts with a
    slash and is the same whatever the Wine prefix is: the path is not
    below the prefix. *)
Theorem wine_to_linux_path_outside_prefix
        (wineprefix : string) (first : ascii) (rest : string) :
  first = "/"%char \/ first = backslash ->
  Py.startswith rest ":" = false ->
  wine_to_linux_path wineprefix EmptyString
  = Raises (IndexError "string index out of range")
  /\ exists tail,
      wine_to_linux_path wineprefix (String first rest)
      = Returns (String "/" tail)
      /\ wine_to_linux_path EmptyString (String first rest)
         = Returns (String "/" tail).
Proof.
  intros Hfirst Hcolon. split; [reflexivity|].
  unfold wine_to_linux_path. cbv zeta.
  rewrite !WineFacts.replace_backslash.
  assert (Hhead : exists tail,
             replace (String first rest) (String first ":")
                     ("drive_" ++ lower (String first ""))
             = String first tail).
  { unfold replace. cbn [String.eqb]. cbv iota.
    cbn [replace_from]. rewrite WineFacts.prefix_cons.
    destruct (ascii_dec first first) as [_|Hne]; [|contradiction].
    unfold Py.startswith in Hcolon. rewrite Hcolon.
    eexists. reflexivity. }
  destruct Hhead as (tail & ->).
  exists (slashed tail). cbn [slashed].
  assert (Hslash : (if Ascii.eqb first backslash then "/"%char else first)
                   = "/"%char)
    by (destruct Hfirst as [-> | ->]; reflexivity).
  rewrite Hslash, !WineFacts.join_absolute. split; reflexivity.
Qed.

Lemma wine_to_linux_path_outside_prefix_witness :
  wine_to_linux_path "/home/z/.wine" EmptyString
  = Raises (IndexError "string index out of range")
  /\ wine_to_linux_path "/home/z/.wine" (windows "//server/share/foo.exe")
     = Returns "//server/share/foo.exe".
Proof.
  split.
  - apply (wine_to_linux_path_outside_prefix "/home/z/.wine" backslash
             (windows "/server/share/foo.exe")); [now right | reflexivity].
  - reflexivity.
Defined.

(** X21.  The path that [wine_to_linux_path] returns holds no backslash
    unless the Wine prefix holds one. *)
Theorem wine_to_linux_path_no_backslash
        (wineprefix windows_pathname path : string) :
  has_char backslash wineprefix = false ->
  wine_to_linux_path wineprefix windows_pathname = Returns path ->
  has_char backslash path = false.
Proof.
  intros Hprefix. unfold wine_to_linux_path.
  destruct windows_pathname as [|d rest]; [discriminate|].
  cbv zeta. rewrite WineFacts.replace_backslash. intros [= <-].
  set (p := slashed _).
  assert (Hp : has_char backslash p = false) by apply WineFacts.slashed_free.
  unfold os_path_join.
  destruct (Py.startswith p "/"); [exact Hp|].
  destruct ((wineprefix =? "") || Py.endswith wineprefix "/");
    rewrite !WineFacts.has_char_append, Hprefix, Hp; reflexivity.
Qed.

Lemma wine_to_linux_path_no_backslash_witness :
  wine_to_linux_path "/home/z/.wine/" (windows "c:/a/b")
  = Returns "/home/z/.wine/drive_c/a/b"
  /\ has_char backslash "/home/z/.wine/drive_c/a/b" = false.
Proof.
  split; [reflexivity|].
  apply (wine_to_linux_path_no_backslash "/home/z/.wine/" (windows "c:/a/b"));
    reflexivity.
Defined.

(** ** [is_running] *)

Module RunningFacts.

Lemma basename_from_free (s x : string) :
  has_char "/" x = false ->
  has_char "/" (Py.basename_from (x ++ s) s) = false.
Proof.
  revert x. induction s as [|a s IH]; intros x Hx; cbn [Py.basename_from].
  - now rewrite append_empty_r.
  - destruct (Ascii.eqb a "/") eqn:Ha.
    + apply (IH EmptyString). reflexivity.
    + replace (x ++ String a s) with ((x ++ String a EmptyString) ++ s)
        by (now rewrite ReRuns.append_assoc).
      apply IH. rewrite WineFacts.has_char_append. simpl.
      now rewrite Hx, Ha.
Qed.

(** A base name holds no slash. *)
Lemma basename_free (p : string) : has_char "/" (Py.basename p) = false.
Proof. apply (basename_from_free p EmptyString). reflexivity. Qed.

Lemma scan_found (ps : processes) (exename : string)
      (filenames : list string) :
  is_running_scan ps exename filenames = true <->
  exists filename target,
    In filename filenames
    /\ os_path_realpath ps filename = Target target
    /\ Py.basename target = exename.
Proof.
  induction filenames as [|f rest IH]; cbn [is_running_scan].
  - split; [discriminate | intros (? & ? & [] & _)].
  - split.
    + destruct (os_path_realpath ps f) as [target| |] eqn:Hf.
      * destruct (String.eqb_spec exename (Py.basename target)) as [->|Hne].
        -- intros _. exists f, target. simpl. auto.
        -- intros H. apply IH in H as (f' & t' & Hin & Hr & Hb).
           exists f', t'. simpl. auto.
      * intros H. apply IH in H as (f' & t' & Hin & Hr & Hb).
        exists f', t'. simpl. auto.
      * intros H. apply IH in H as (f' & t' & Hin & Hr & Hb).
        exists f', t'. simpl. auto.
    + intros (f' & t' & [<- | Hin] & Hr & Hb).
      * rewrite Hr, Hb, String.eqb_refl. reflexivity.
      * assert (Hrest : is_running_scan ps exename rest = true)
          by (apply IH; eauto).
        rewrite Hrest.
        destruct (os_path_realpath ps f); [|reflexivity | reflexivity].
        now destruct (exename =? Py.basename path).
Qed.

End RunningFacts.

(** X22.  [is_running] answers True exactly when one of the links of
    /proc resolves to a path whose base name is the name asked for; a
    link that [os.path.realpath] refuses with TypeError or OSError is
    passed over and does not end the scan. *)
Theorem is_running_found (ps : processes) (exename : string) :
  is_running ps exename = true <->
  exists filename target,
    In filename (proc_exe ps)
    /\ os_path_realpath ps filename = Target target
    /\ Py.basename target = exename.
Proof. apply RunningFacts.scan_found. Qed.

(** X23.  A name with a slash in it is never found running: [is_running]
    compares with base names, so it answers False for a full path, also
    the path of a program that runs. *)
Theorem is_running_not_a_path (ps : processes) (exename : string) :
  has_char "/" exename = true -> is_running ps exename = false.
Proof.
  intros Hslash. destruct (is_running ps exename) eqn:H; [|reflexivity].
  apply RunningFacts.scan_found in H as (f & target & _ & _ & Hb).
  rewrite <- Hb, RunningFacts.basename_free in Hslash. discriminate.
Qed.

Lemma is_running_not_a_path_witness :
  is_running example_processes "bash" = true
  /\ is_running example_processes "/bin/bash" = false.
Proof.
  split; [reflexivity|].
  apply (is_running_not_a_path example_processes "/bin/bash"). reflexivity.
Defined.

(** ** [is_broken_xdg_desktop] *)

Module DesktopFacts.

Lemma has_char_append_l (c : ascii) (u v : string) :
  has_char c (u ++ String c v) = true.
Proof.
  induction u as [|a u IH]; simpl; [now rewrite Ascii.eqb_refl|].
  now rewrite IH, orb_true_r.
Qed.

Lemma split_absent (c : ascii) (s : string) :
  has_char c s = false -> Py.split c s = [s].
Proof.
  induction s as [|a s IH]; [reflexivity|]. cbn [has_char Py.split].
  intros H. apply orb_false_iff in H as [Ha Hs].
  now rewrite Ha, IH.
Qed.

(** An assignment with a plain name and a plain value splits in two. *)
Lemma split_assignment (name value : string) :
  plain (name, value) = true ->
  Py.split "=" (name ++ String "=" value) = [name; value].
Proof.
  unfold plain. cbn [fst snd]. intros H.
  apply andb_true_iff in H as [Hn Hv].
  apply negb_true_iff in Hn, Hv.
  induction name as [|a name IH].
  - simpl. now rewrite split_absent.
  - cbn [has_char] in Hn. apply orb_false_iff in Hn as [Ha Hn].
    cbn [append Py.split]. rewrite Ha, (IH Hn). reflexivity.
Qed.

(** The loop over the assignments and what follows them. *)
Lemma env_loop_bindings (bindings : list (string * string))
      (rest : list string) :
  forallb plain bindings = true ->
  forall wineprefix,
    env_loop (map assignment bindings ++ rest) wineprefix
    = env_loop rest (wineprefix_after bindings wineprefix).
Proof.
  induction bindings as [|[name value] bindings IH]; intros Hplain wineprefix;
    [reflexivity|].
  cbn [forallb] in Hplain. apply andb_true_iff in Hplain as [Hb Hrest].
  cbn [map app env_loop wineprefix_after].
  change (assignment (name, value)) with (name ++ String "=" value).
  rewrite has_char_append_l, (split_assignment _ _ Hb).
  now apply IH.
Qed.

End DesktopFacts.

Module ToldFacts.

Lemma application_told (h : host) (d : desktop) (c : config)
      (desktop_pathname : string) :
  told (is_broken_xdg_desktop_application h d c desktop_pathname).
Proof.
  unfold is_broken_xdg_desktop_application.
  destruct (negb (has_option c "Desktop Entry" "Exec")); [reflexivity|].
  cbv zeta.
  destruct (negb (exe_exists h _)); [reflexivity|].
  destruct ("env" =? _); [|reflexivity].
  destruct (shlex_split d _) as [[|first execs]|e]; try reflexivity.
  destruct (env_loop execs None) as [[[|execs0 rest] wineprefix]|e];
    try reflexivity.
  destruct (negb (exe_exists h execs0)); [reflexivity|].
  destruct wineprefix as [wineprefix|]; [|reflexivity].
  destruct (wineprefix =? ""); [reflexivity|].
  destruct (nth_error (execs0 :: rest) 1) as [execs1|]; [|reflexivity].
  destruct (wine_to_linux_path wineprefix execs1) as [windows_exe|e];
    [|reflexivity].
  destruct (negb (os_path_exists h windows_exe)); reflexivity.
Qed.

End ToldFacts.

(** X24.  [is_broken_xdg_desktop] prints one line whenever it reports an
    entry as broken, and no line when it raises.  When it reports an
    entry as not broken it prints nothing, but for an entry whose type,
    stripped and in lower case, is not link, mimetype or application.
    And such an entry, one that has the section and the option Type, is
    never reported broken, whatever else it holds and whatever the host
    is: the check returns False, and the one line printed is the warning
    with the type and the path. *)
Theorem is_broken_xdg_desktop_messages
        (h : host) (d : desktop) (pathname : string) :
  match is_broken_xdg_desktop h d pathname with
  | (out, Returns true) => length out = 1
  | (out, Returns false) =>
      out = []
      \/ exists c,
          ConfigParser_read d pathname = Returns c
          /\ handled_type (file_type_of c) = false
          /\ out = [percent_ss "Warning: unhandled type '%s': file '%s'"
                               [file_type_of c; pathname]]
  | (out, Raises _) => out = []
  end
  /\ (forall c : config,
         ConfigParser_read d pathname = Returns c ->
         has_section c "Desktop Entry" = true ->
         has_option c "Desktop Entry" "Type" = true ->
         handled_type (file_type_of c) = false ->
         is_broken_xdg_desktop h d pathname
         = ([percent_ss "Warning: unhandled type '%s': file '%s'"
                        [file_type_of c; pathname]],
            Returns false)).
Proof.
  split.
  - unfold is_broken_xdg_desktop.
    destruct (ConfigParser_read d pathname) as [c|e]; [|reflexivity].
    destruct (negb (has_section c "Desktop Entry")); [reflexivity|].
    destruct (negb (has_option c "Desktop Entry" "Type")); [reflexivity|].
    cbv zeta. fold (file_type_of c).
    destruct ("link" =? file_type_of c) eqn:Hlink.
    { destruct (negb _ && negb _); [reflexivity | now left]. }
    destruct ("mimetype" =? file_type_of c) eqn:Hmime.
    { destruct (negb _); [reflexivity|].
      destruct (HAVE_GNOME_VFS d && _); [reflexivity | now left]. }
    destruct ("application" =? file_type_of c) eqn:Happ; cbn [negb].
    + pose proof (ToldFacts.application_told h d c pathname) as H.
      destruct (is_broken_xdg_desktop_application h d c pathname)
        as [out [[|]|e]]; simpl in H; auto.
    + right. exists c. unfold handled_type.
      now rewrite Hlink, Hmime, Happ.
  - intros c Hread Hsection Hoption Htype.
    unfold handled_type in Htype.
    apply orb_false_iff in Htype as [Htype Happ].
    apply orb_false_iff in Htype as [Hlink Hmime].
    unfold is_broken_xdg_desktop.
    rewrite Hread, Hsection, Hoption. cbn [negb]. cbv zeta iota.
    fold (file_type_of c). now rewrite Hlink, Hmime, Happ.
Qed.

(** An entry of type Directory, on a host where no tool is installed: it
    is not reported broken, and the warning is printed. *)
Lemma is_broken_xdg_desktop_messages_witness :
  file_type_of directory_entry = "directory"
  /\ is_broken_xdg_desktop (bare_host (Eof_exited 0)) directory_desktop
                           "/usr/share/desktop-directories/Games.directory"
     = (["Warning: unhandled type 'directory': file '/usr/share/desktop-directories/Games.directory'"],
        Returns false).
Proof.
  split; [reflexivity|].
  apply (proj2 (is_broken_xdg_desktop_messages
                  (bare_host (Eof_exited 0)) directory_desktop
                  "/usr/share/desktop-directories/Games.directory")
               directory_entry);
    reflexivity.
Defined.

(** X25.  A command line of env that holds assignments only makes the
    check of an application entry raise IndexError: the loop over the
    assignments, each a name and a value without equals sign, runs off
    the end of the words, and nothing is printed. *)
Theorem env_without_command
        (h : host) (d : desktop) (c : config) (desktop_pathname : string)
        (first : string) (bindings : list (string * string)) :
  has_option c "Desktop Entry" "Exec" = true ->
  hd EmptyString (Py.split " " (get c "Desktop Entry" "Exec")) = "env" ->
  exe_exists h "env" = true ->
  shlex_split d (get c "Desktop Entry" "Exec")
  = Returns (first :: map assignment bindings) ->
  forallb plain bindings = true ->
  is_broken_xdg_desktop_application h d c desktop_pathname
  = ([], Raises (IndexError "list index out of range")).
Proof.
  intros Hexec Hexe Henv Hsplit Hplain.
  unfold is_broken_xdg_desktop_application.
  rewrite Hexec. cbn [negb]. cbv zeta iota. rewrite Hexe, Henv.
  cbn [negb String.eqb Ascii.eqb Bool.eqb]. cbv iota.
  rewrite Hsplit.
  rewrite <- (app_nil_r (map assignment bindings)).
  now rewrite DesktopFacts.env_loop_bindings.
Qed.

Lemma env_without_command_witness :
  is_broken_xdg_desktop_application
    (example_host false (Eof_exited 0))
    (example_desktop ["env"; "WINEPREFIX=/home/z/.wine"; "LANG=C"])
    wine_entry "/usr/share/applications/foo.desktop"
  = ([], Raises (IndexError "list index out of range")).
Proof.
  apply (env_without_command _ _ _ _ "env"
           [("WINEPREFIX", "/home/z/.wine"); ("LANG", "C")]);
    reflexivity.
Defined.

(** X26.  An application entry of Wine: the command line is env, then
    assignments, each a name and a value without equals sign, then a
    command that exists and its first argument.  The entry is broken
    exactly when the last value given to WINEPREFIX is not empty and the
    argument, translated by [wine_to_linux_path] below that prefix, does
    not exist; without a WINEPREFIX the argument is not looked at, and an
    exception of the translation leaves the check. *)
Theorem wine_entry_broken
        (h : host) (d : desktop) (c : config) (desktop_pathname : string)
        (first command argument : string) (more : list string)
        (bindings : list (string * string)) :
  has_option c "Desktop Entry" "Exec" = true ->
  hd EmptyString (Py.split " " (get c "Desktop Entry" "Exec")) = "env" ->
  exe_exists h "env" = true ->
  shlex_split d (get c "Desktop Entry" "Exec")
  = Returns (first :: map assignment bindings
                   ++ command :: argument :: more)%list ->
  forallb plain bindings = true ->
  has_char "=" command = false ->
  exe_exists h command = true ->
  snd (is_broken_xdg_desktop_application h d c desktop_pathname)
  = match wineprefix_after bindings None with
    | None => Returns false
    | Some wineprefix =>
        if wineprefix =? EmptyString then Returns false
        else match wine_to_linux_path wineprefix argument with
             | Returns windows_exe =>
                 Returns (negb (os_path_exists h windows_exe))
             | Raises e => Raises e
             end
    end.
Proof.
  intros Hexec Hexe Henv Hsplit Hplain Hcommand Hfound.
  unfold is_broken_xdg_desktop_application.
  rewrite Hexec. cbn [negb]. cbv zeta iota. rewrite Hexe, Henv.
  cbn [negb String.eqb Ascii.eqb Bool.eqb]. cbv iota.
  rewrite Hsplit, DesktopFacts.env_loop_bindings by exact Hplain.
  cbn [env_loop]. rewrite Hcommand, Hfound. cbn [negb nth_error]. cbv iota.
  destruct (wineprefix_after bindings None) as [wineprefix|]; [|reflexivity].
  destruct (wineprefix =? ""); [reflexivity|].
  destruct (wine_to_linux_path wineprefix argument) as [windows_exe|e];
    [|reflexivity].
  now destruct (os_path_exists h windows_exe).
Qed.

Lemma wine_entry_broken_witness :
  snd (is_broken_xdg_desktop_application
         (example_host false (Eof_exited 0))
         (example_desktop ["env"; "WINEPREFIX=/tmp"; "WINEPREFIX=/home/z/.wine";
                           "wine"; windows "C:/foo/foo.exe"])
         wine_entry "/usr/share/applications/foo.desktop")
  = Returns true
  /\ wine_to_linux_path "/home/z/.wine" (windows "C:/foo/foo.exe")
     = Returns "/home/z/.wine/drive_c/foo/foo.exe".
Proof.
  split; [|reflexivity].
  rewrite (wine_entry_broken _ _ _ _ "env" "wine" (windows "C:/foo/foo.exe") []
             [("WINEPREFIX", "/tmp"); ("WINEPREFIX", "/home/z/.wine")]);
    reflexivity.
Defined.

(** ** The size token of a Del line *)

Module DelFacts.
Import ReFacts.

Section Backtrack.
Variable p : ascii -> bool.
Variable k : nat -> string -> Re.caps -> option (nat * Re.caps).
Variable c : Re.caps.

Lemma fails_below_tail (a : ascii) (t : string) :
  fails_below k c (String a t) -> fails_below k c t.
Proof.
  intros H u t' pos Hu Ht. apply (H (String a u) t' pos); [discriminate|].
  simpl. now rewrite Ht.
Qed.

(** Where the continuation fails further on, the repetition comes back to
    where it started. *)
Lemma star_comes_back (t : string) :
  fails_below k c t ->
  forall fuel pos, star_loop (Re.Cls p) k fuel pos t c = k pos t c.
Proof.
  induction t as [|a t IH]; intros Hfail fuel pos;
    (destruct fuel as [|fuel]; [reflexivity|]); simpl; [reflexivity|].
  destruct (p a); [|reflexivity].
  assert (Hlt : (pos <? S pos)%nat = true) by (apply Nat.ltb_lt; lia).
  rewrite Hlt, (IH (fails_below_tail a t Hfail)).
  rewrite (Hfail (String a EmptyString) t (S pos));
    [reflexivity | discriminate | reflexivity].
Qed.

(** A greedy repetition over [w ++ t] gives back what it took of [t] and
    hands over at [t], the last place where the continuation succeeds. *)
Lemma star_last_match (w t : string) (c' : Re.caps) :
  all_in p w = true -> fails_below k c t ->
  (forall pos, exists e, k pos t c = Some (e, c')) ->
  forall fuel pos,
    Py.len w <= fuel ->
    exists e, star_loop (Re.Cls p) k fuel pos (w ++ t) c = Some (e, c').
Proof.
  intros Hw Hfail Hk. induction w as [|a w IH]; intros fuel pos Hfuel.
  - simpl append. rewrite star_comes_back by exact Hfail. apply Hk.
  - simpl in Hw. apply andb_true_iff in Hw as [Ha Hw].
    unfold Py.len in *. simpl in Hfuel.
    destruct fuel as [|fuel]; [lia|].
    simpl. rewrite Ha.
    assert (Hlt : (pos <? S pos)%nat = true) by (apply Nat.ltb_lt; lia).
    rewrite Hlt.
    destruct (IH Hw fuel (S pos)) as (e & ->); [lia|].
    now exists e.
Qed.

End Backtrack.

Lemma alpha_not_digit (a : ascii) :
  Py.is_alpha a = true ->
  digit_dot a = false /\ Ascii.eqb a "[" = false.
Proof.
  destruct a as [[] [] [] [] [] [] [] []]; vm_compute; auto; discriminate.
Qed.

Lemma digit_not_bracket (a : ascii) :
  digit_dot a = true -> Ascii.eqb a "[" = false.
Proof.
  destruct a as [[] [] [] [] [] [] [] []]; vm_compute; auto; discriminate.
Qed.

Lemma class_free (p : ascii -> bool) (c : ascii) (s : string) :
  (forall a, p a = true -> Ascii.eqb a c = false) ->
  all_in p s = true -> has_char c s = false.
Proof.
  intros Hp. induction s as [|a s IH]; [reflexivity|]. simpl.
  intros H. apply andb_true_iff in H as [Ha Hs].
  now rewrite (Hp a Ha), IH.
Qed.

Lemma suffix_free (c : ascii) (s u t : string) :
  has_char c s = false -> s = u ++ t ->
  starts_outside (Ascii.eqb c) t.
Proof.
  intros H ->. rewrite WineFacts.has_char_append in H.
  apply orb_false_iff in H as [_ H].
  destruct t as [|a t]; [exact I|]. simpl in *.
  apply orb_false_iff in H as [H _]. now rewrite Ascii.eqb_sym.
Qed.

(** The bracket with a size token matches, and its group is the token. *)
Lemma bracket_match (digits unit tail : string) (pos : nat) :
  is_size digits unit = true ->
  exists e,
    Re.rmatch bracket_group pos
              (String "[" ((digits ++ unit) ++ String "]" tail)) []
              (fun e _ c => Some (e, c))
    = Some (e, [(1, digits ++ unit)]).
Proof.
  unfold is_size. intros H.
  apply andb_true_iff in H as [H Hunit].
  apply andb_true_iff in H as [H Hlen].
  apply andb_true_iff in H as [Hne Hdigits].
  destruct digits as [|d ds]; [discriminate|]. clear Hne.
  destruct unit as [|u1 [|u2 [|u3 unit]]]; try discriminate. clear Hlen.
  simpl in Hdigits. apply andb_true_iff in Hdigits as [Hd Hds].
  simpl in Hunit. apply andb_true_iff in Hunit as [Hu1 Hunit].
  apply andb_true_iff in Hunit as [Hu2 _].
  unfold bracket_group, Re.Chr, Re.Plus.
  rewrite cat_equation, class_inside by reflexivity.
  rewrite cat_equation, group_equation, cat_equation, cat_equation.
  rewrite ReRuns.append_assoc. cbn [append].
  rewrite class_inside by exact Hd.
  rewrite star_equation.
  set (rest := String u1 (String u2 (String "]" tail))).
  eexists.
  apply star_class_greedy.
  - exact Hds.
  - simpl. now apply alpha_not_digit.
  - rewrite ReRuns.len_append. lia.
  - change (Re.Rep 2 2 (Re.Cls Py.is_alpha))
      with (Re.Cat (Re.Cls Py.is_alpha)
                   (Re.Cat (Re.Cls Py.is_alpha) Re.Eps)).
    unfold rest.
    rewrite cat_equation, class_inside by exact Hu1.
    rewrite cat_equation, class_inside by exact Hu2.
    cbn [Re.rmatch]. rewrite Ascii.eqb_refl.
    match goal with
    | |- Some (_, [(1, Py.take ?n ?s)]) = _ =>
        assert (Ht : Py.take n s = String d (ds ++ String u1 (String u2 "")))
    end.
    { replace (String d (ds ++ String u1 (String u2 (String "]" tail))))
        with (String d (ds ++ String u1 (String u2 "")) ++ String "]" tail)
        by (simpl; now rewrite ReRuns.append_assoc).
      match goal with
      | |- Py.take ?n _ = _ =>
          replace n with (Py.len (String d (ds ++ String u1 (String u2 ""))))
      end; [apply ReRuns.take_append|].
      change (Py.len (String d (ds ++ String u1 (String u2 ""))))
        with (S (Py.len (ds ++ String u1 (String u2 "")))).
      rewrite ReRuns.len_append.
      change (Py.len (String u1 (String u2 ""))) with 2. lia. }
    rewrite Ht. reflexivity.
Qed.

(** Below a bracket with a size token and a rest without bracket, the
    bracket does not match again. *)
Lemma bracket_fails_below (digits unit tail : string) :
  is_size digits unit = true -> has_char "[" tail = false ->
  fails_below (fun pos s c =>
                 Re.rmatch bracket_group pos s c (fun e _ c => Some (e, c)))
              []
              (String "[" ((digits ++ unit) ++ String "]" tail)).
Proof.
  unfold is_size. intros H Htail.
  apply andb_true_iff in H as [H Hunit].
  apply andb_true_iff in H as [H _].
  apply andb_true_iff in H as [_ Hdigits].
  intros u t' pos Hu Ht.
  destruct u as [|a u]; [congruence|]. simpl in Ht. injection Ht as _ Ht.
  unfold bracket_group, Re.Chr. rewrite cat_equation.
  apply class_outside.
  apply (suffix_free "[" ((digits ++ unit) ++ String "]" tail) u t');
    [|exact Ht].
  rewrite !WineFacts.has_char_append.
  rewrite (class_free digit_dot "[" digits digit_not_bracket Hdigits).
  rewrite (class_free Py.is_alpha "[" unit
             (fun a Ha => proj2 (alpha_not_digit a Ha)) Hunit).
  simpl. exact Htail.
Qed.

Lemma search_first (r : Re.regex) (s : string) (m : nat * Re.caps) :
  Re.match_at r s 0 = Some m -> Re.search r s = Some (snd m).
Proof.
  intros H. unfold Re.search.
  destruct (Py.len s); simpl; now rewrite H.
Qed.

Lemma dot_class (s : string) :
  has_char Py.nl s = false ->
  all_in (fun c => negb (Ascii.eqb c Py.nl)) s = true.
Proof.
  induction s as [|a s IH]; [reflexivity|]. simpl. intros H.
  apply orb_false_iff in H as [Ha Hs]. now rewrite Ha, IH.
Qed.

Lemma del_line_match (body digits unit tail : string) :
  has_char Py.nl body = false ->
  is_size digits unit = true ->
  has_char "[" tail = false ->
  exists e,
    Re.match_at del_pattern
                ("Del " ++ body ++ "[" ++ (digits ++ unit) ++ "]" ++ tail) 0
    = Some (e, [(1, digits ++ unit)]).
Proof.
  intros Hbody Hsize Htail.
  unfold Re.match_at, del_pattern. cbn [Py.drop append].
  change (Re.Cat (Re.Chr "[") _) with bracket_group.
  rewrite cat_equation, bol_equation, cat_equation.
  cbn [Re.Lit]. unfold Re.Chr.
  rewrite cat_equation, class_inside by reflexivity.
  rewrite cat_equation, class_inside by reflexivity.
  rewrite cat_equation, class_inside by reflexivity.
  rewrite cat_equation, class_inside by reflexivity.
  change (Re.rmatch Re.Eps ?pos ?s ?c ?k) with (k pos s c). cbv beta.
  rewrite cat_equation.
  unfold Re.Dot. rewrite star_equation.
  apply (star_last_match _
           (fun pos s c =>
              Re.rmatch bracket_group pos s c (fun e _ c => Some (e, c)))).
  - now apply dot_class.
  - now apply bracket_fails_below.
  - intros pos. now apply bracket_match.
  - rewrite ReRuns.len_append. lia.
Qed.

End DelFacts.

(** X27.  The size that [apt_autoclean] reads off a Del line is the
    content of the last bracket of the line: for a line made of Del, a
    space, any text, a bracket that holds a size token, digits and dots
    and then two letters, and a rest without opening bracket, the token
    handed to the size parser is that token in upper case, whatever
    brackets the text before it holds. *)
Theorem del_line_size_token (body digits unit tail : string) :
  has_char Py.nl body = false ->
  is_size digits unit = true ->
  has_char "[" tail = false ->
  size_token ("Del " ++ body ++ "[" ++ (digits ++ unit) ++ "]" ++ tail)
  = Some (Py.upper (digits ++ unit)).
Proof.
  intros Hbody Hsize Htail.
  destruct (DelFacts.del_line_match body digits unit tail Hbody Hsize Htail)
    as (e & Hm).
  unfold size_token. rewrite (DelFacts.search_first _ _ _ Hm).
  reflexivity.
Qed.

Lemma del_line_size_token_witness :
  size_token "Del libfoo [i386] 1.3.9 [1165kB] (x)" = Some "1165KB".
Proof.
  apply (del_line_size_token "libfoo [i386] 1.3.9 " "1165" "kB" " (x)");
    reflexivity.
Defined.

Module NestFacts.

Lemma endswith_append (path location : string) :
  location <> EmptyString ->
  Py.endswith (path ++ location) "/" = Py.endswith location "/".
Proof.
  intros Hne. destruct (SlashFacts.last_char location Hne) as (init & a & ->).
  rewrite <- ReRuns.append_assoc.
  now rewrite !SlashFacts.endswith_last.
Qed.

Lemma join_with_slash (path location : string) :
  location <> EmptyString ->
  join_location path location = path ++ with_slash location.
Proof.
  intros Hne. unfold join_location, with_slash.
  rewrite endswith_append by exact Hne.
  destruct (Py.endswith location "/"); [reflexivity|].
  apply ReRuns.append_assoc.
Qed.

Lemma join_nested (path outer inner : string) :
  outer <> EmptyString -> inner <> EmptyString ->
  join_location (join_location path outer) inner
  = join_location path (with_slash outer ++ inner).
Proof.
  intros Houter Hinner.
  rewrite (join_with_slash path outer Houter).
  unfold join_location.
  rewrite <- !ReRuns.append_assoc.
  reflexivity.
Qed.

End NestFacts.

(** X28.  Nesting is concatenation of locations: a path element without
    filter whose one child is a path element evaluates as the child alone
    with the location of the parent, a slash at its end, put before its
    own, when the directory of the parent exists. *)
Theorem handle_path_nested_location
        (fs : filesystem) (path : string)
        (outer inner flat : list (string * string)) (childNodes : list node) :
  getAttribute outer "location" <> "" ->
  getAttribute outer "filter" = "" ->
  os_path_isdir fs (join_location path (getAttribute outer "location"))
  = true ->
  getAttribute inner "location" <> "" ->
  getAttribute flat "location"
  = with_slash (getAttribute outer "location")
    ++ getAttribute inner "location" ->
  getAttribute flat "filter" = getAttribute inner "filter" ->
  handle_path fs path
    (Element "path" outer [Element "path" inner childNodes])
  = handle_path fs path (Element "path" flat childNodes).
Proof.
  intros Houter Hfilter Hdir Hinner Hloc Hflat.
  rewrite (handle_path_element fs path "path" outer) by auto.
  cbv zeta. rewrite Hfilter.
  cbn [String.eqb hasChildNodes negb andb]. cbv iota.
  rewrite TreeFacts.each_for_yield. cbn [g_each].
  rewrite ChildFacts.then_return_l, ChildFacts.then_return_r.
  cbn [handle_path]. rewrite Hloc, Hflat.
  rewrite <- NestFacts.join_nested by assumption.
  assert (H1 : ("" =? getAttribute inner "location") = false)
    by (apply String.eqb_neq; congruence).
  assert (H2 : ("" =? with_slash (getAttribute outer "location")
                       ++ getAttribute inner "location") = false).
  { apply String.eqb_neq. intros H. symmetry in H.
    apply (f_equal Py.len) in H. rewrite ReRuns.len_append in H.
    destruct (getAttribute inner "location"); [congruence|].
    unfold Py.len in H. simpl in H. lia. }
  rewrite H1, H2. reflexivity.
Qed.

Lemma handle_path_nested_location_witness :
  handle_path usr_fs ""
    (Element "path" [("location", "/usr")]
       [Element "path" [("location", "share/locale"); ("filter", "*")] []])
  = handle_path usr_fs ""
      (Element "path" [("location", "/usr/share/locale"); ("filter", "*")] [])
  /\ yielded (handle_path usr_fs ""
                (Element "path" [("location", "/usr/share/locale");
                                 ("filter", "*")] []))
     = [("en", "/usr/share/locale/en"); ("fr", "/usr/share/locale/fr")].
Proof.
  split; [|reflexivity].
  apply (handle_path_nested_location usr_fs
           "" [("location", "/usr")]
           [("location", "share/locale"); ("filter", "*")]
           [("location", "/usr/share/locale"); ("filter", "*")] []);
    try reflexivity; discriminate.
Defined.

(** ** Lines that hold no size, and the freed-space line *)

Module LitFacts.
Import ReFacts.

Section Literal.
Context {A : Type} (k : nat -> string -> Re.caps -> option A).

(** A literal fails where the text does not start with it. *)
Lemma lit_mismatch (lit : string) :
  forall s pos c,
    prefix lit s = false -> Re.rmatch (Re.Lit lit) pos s c k = None.
Proof.
  induction lit as [|a lit IH]; intros s pos c H.
  - now destruct s.
  - cbn [Re.Lit]. rewrite cat_equation. unfold Re.Chr.
    destruct s as [|b s]; [reflexivity|].
    rewrite WineFacts.prefix_cons in H.
    destruct (ascii_dec a b) as [<-|Hne].
    + rewrite class_inside by apply Ascii.eqb_refl. now apply IH.
    + apply class_outside. simpl. now apply Ascii.eqb_neq.
Qed.

(** A literal matches itself. *)
Lemma lit_match (lit : string) :
  forall s pos c,
    Re.rmatch (Re.Lit lit) pos (lit ++ s) c k = k (pos + Py.len lit) s c.
Proof.
  induction lit as [|a lit IH]; intros s pos c.
  - simpl. now rewrite Nat.add_0_r.
  - cbn [Re.Lit append]. rewrite cat_equation. unfold Re.Chr.
    rewrite class_inside by apply Ascii.eqb_refl.
    rewrite IH. unfold Py.len. simpl. f_equal. lia.
Qed.

End Literal.

Lemma search_none (r : Re.regex) (s : string) :
  (forall pos, Re.match_at r s pos = None) -> Re.search r s = None.
Proof.
  intros H. unfold Re.search.
  assert (Hfrom : forall fuel pos, Re.search_from r s pos fuel = None).
  { induction fuel as [|fuel IH]; intros pos; simpl; rewrite H; auto. }
  now rewrite Hfrom.
Qed.

(** The leftmost match is the one found. *)
Lemma search_leftmost (r : Re.regex) (s : string) (n : nat)
      (m : nat * Re.caps) :
  (forall pos, pos < n -> Re.match_at r s pos = None) ->
  Re.match_at r s n = Some m -> n <= Py.len s ->
  Re.search r s = Some (snd m).
Proof.
  intros Hbefore Hat Hlen. unfold Re.search.
  assert (Hfrom : forall fuel pos,
             pos <= n -> n <= pos + fuel ->
             Re.search_from r s pos fuel = Some m).
  { induction fuel as [|fuel IH]; intros pos Hle Hge.
    - assert (pos = n) as -> by lia. simpl. now rewrite Hat.
    - simpl. destruct (Nat.eq_dec pos n) as [->|Hne].
      + now rewrite Hat.
      + rewrite Hbefore by lia. apply IH; lia. }
  rewrite Hfrom; [reflexivity | lia | lia].
Qed.

Lemma drop_append (u v : string) : Py.drop (Py.len u) (u ++ v) = v.
Proof. induction u as [|a u IH]; [now destruct v | exact IH]. Qed.

(** Within [u], what is left after [pos] characters starts with a
    character of [u]. *)
Lemma drop_inside (c : ascii) (u v : string) :
  has_char c u = false ->
  forall pos, pos < Py.len u ->
              starts_outside (Ascii.eqb c) (Py.drop pos (u ++ v)).
Proof.
  induction u as [|a u IH]; intros Hu pos Hpos;
    [unfold Py.len in Hpos; simpl in Hpos; lia|].
  simpl in Hu. apply orb_false_iff in Hu as [Ha Hu].
  destruct pos as [|pos].
  - simpl. now rewrite Ascii.eqb_sym.
  - simpl. apply IH; [exact Hu|]. unfold Py.len in *. simpl in Hpos. lia.
Qed.

Lemma not_del_line (line : string) :
  Py.startswith line "Del " = false ->
  Re.search del_pattern line = None.
Proof.
  intros H. apply search_none. intros [|pos]; unfold Re.match_at, del_pattern.
  - cbn [Py.drop]. rewrite cat_equation, bol_equation, cat_equation.
    now apply lit_mismatch.
  - reflexivity.
Qed.

(** The freed-space message with a size token matches where it stands,
    and its group is the token. *)
Lemma freed_match (digits unit post : string) (pos : nat) :
  is_size digits unit = true ->
  exists e,
    Re.rmatch freed_pattern pos
              (", " ++ (digits ++ unit)
                    ++ " disk space will be freed" ++ post) []
              (fun e _ c => Some (e, c))
    = Some (e, [(1, digits ++ unit)]).
Proof.
  unfold is_size. intros H.
  apply andb_true_iff in H as [H Hunit].
  apply andb_true_iff in H as [H Hlen].
  apply andb_true_iff in H as [Hne Hdigits].
  destruct digits as [|d ds]; [discriminate|]. clear Hne.
  destruct unit as [|u1 [|u2 [|u3 unit]]]; try discriminate. clear Hlen.
  simpl in Hdigits. apply andb_true_iff in Hdigits as [Hd Hds].
  simpl in Hunit. apply andb_true_iff in Hunit as [Hu1 Hunit].
  apply andb_true_iff in Hunit as [Hu2 _].
  unfold freed_pattern, Re.Plus.
  set (tail := " disk space will be freed" ++ post).
  rewrite cat_equation, lit_match.
  rewrite cat_equation, group_equation, cat_equation, cat_equation.
  rewrite ReRuns.append_assoc. cbn [append].
  rewrite class_inside by exact Hd.
  rewrite star_equation.
  set (rest := String u1 (String u2 tail)).
  eexists.
  apply star_class_greedy.
  - exact Hds.
  - simpl. now apply DelFacts.alpha_not_digit.
  - rewrite ReRuns.len_append. lia.
  - change (Re.Rep 2 2 (Re.Cls Py.is_alpha))
      with (Re.Cat (Re.Cls Py.is_alpha)
                   (Re.Cat (Re.Cls Py.is_alpha) Re.Eps)).
    unfold rest.
    rewrite cat_equation, class_inside by exact Hu1.
    rewrite cat_equation, class_inside by exact Hu2.
    change (Re.rmatch Re.Eps ?pos ?s ?c ?k) with (k pos s c). cbv beta.
    unfold tail. rewrite lit_match.
    match goal with
    | |- Some (_, [(1, Py.take ?n ?s)]) = _ =>
        assert (Ht : Py.take n s = String d (ds ++ String u1 (String u2 "")))
    end.
    { fold tail.
      replace (String d (ds ++ String u1 (String u2 tail)))
        with (String d (ds ++ String u1 (String u2 "")) ++ tail)
        by (simpl; now rewrite ReRuns.append_assoc).
      match goal with
      | |- Py.take ?n _ = _ =>
          replace n with (Py.len (String d (ds ++ String u1 (String u2 ""))))
      end; [apply ReRuns.take_append|].
      change (Py.len (String d (ds ++ String u1 (String u2 ""))))
        with (S (Py.len (ds ++ String u1 (String u2 "")))).
      rewrite ReRuns.len_append.
      change (Py.len (String u1 (String u2 ""))) with 2.
      change (Py.len ", ") with 2. lia. }
    rewrite Ht. reflexivity.
Qed.

End LitFacts.

(** X29.  A line that starts neither with the error prefix nor with Del
    and a space leaves the total of [apt_autoclean] as it is: it holds no
    size for the pattern, the size parser is not called for it, and no
    call to the host is made. *)
Theorem apt_autoclean_other_line
        (h : host) (line : string) (total_bytes : Z) (t : list call) :
  Py.startswith line "E: " = false ->
  Py.startswith line "Del " = false ->
  apt_autoclean_line h line total_bytes t = (Ok total_bytes, t)
  /\ size_token line = None.
Proof.
  intros Hfatal Hdel. unfold apt_autoclean_line, size_token.
  rewrite Hfatal, (LitFacts.not_del_line line Hdel). split; reflexivity.
Qed.

Lemma apt_autoclean_other_line_witness :
  apt_autoclean_line (bare_host (Eof_exited 0))
                     " Del cups-common 1.3.9 [1165kB]" 7 []
  = (Ok 7%Z, []).
Proof.
  apply (apt_autoclean_other_line (bare_host (Eof_exited 0))
           " Del cups-common 1.3.9 [1165kB]" 7%Z []); reflexivity.
Defined.

(** X30.  The size that [apt_autoremove] reads off a line is the token
    before the first freed-space message: for a line made of a text
    without comma, a comma and a space, a size token, digits and dots and
    then two letters, the words disk space will be freed after a space,
    and any rest, the token handed to the size parser is that token in
    upper case. *)
Theorem freed_line_size_token (pre digits unit post : string) :
  has_char "," pre = false ->
  is_size digits unit = true ->
  freed_token (pre ++ ", " ++ (digits ++ unit)
                   ++ " disk space will be freed" ++ post)
  = Some (Py.upper (digits ++ unit)).
Proof.
  intros Hpre Hsize.
  set (tail := ", " ++ (digits ++ unit)
                    ++ " disk space will be freed" ++ post).
  destruct (LitFacts.freed_match digits unit post (Py.len pre) Hsize)
    as (e & Hm).
  unfold freed_token.
  rewrite (LitFacts.search_leftmost freed_pattern (pre ++ tail) (Py.len pre)
             (e, [(1, digits ++ unit)])).
  - reflexivity.
  - intros pos Hpos. unfold Re.match_at, freed_pattern.
    rewrite ReFacts.cat_equation. apply LitFacts.lit_mismatch.
    pose proof (LitFacts.drop_inside "," pre tail Hpre pos Hpos) as Hout.
    destruct (Py.drop pos (pre ++ tail)) as [|a s]; [reflexivity|].
    rewrite WineFacts.prefix_cons. simpl in Hout.
    destruct (ascii_dec "," a) as [<-|Hne]; [discriminate | reflexivity].
  - unfold Re.match_at. rewrite LitFacts.drop_append. exact Hm.
  - rewrite ReRuns.len_append. lia.
Qed.

Lemma freed_line_size_token_witness :
  freed_token "After this operation, 74.7MB disk space will be freed."
  = Some "74.7MB".
Proof.
  apply (freed_line_size_token "After this operation" "74.7" "MB" ".");
    reflexivity.
Defined.
